(** * GTG.core.dates: a shallow embedding of the fuzzy-date engine

    The development follows src/GTG/core/dates.py.  The Python values the
    module manipulates (datetime.date, datetime.datetime, datetime.timedelta,
    the fuzzy integer codes) are modelled first, after CPython's datetime
    module; the class [Date] and its parsers come next; the properties of the
    specification are stated and settled at the end. *)

From Stdlib Require Import ZArith List String Ascii Bool Lia.
Import ListNotations.
Open Scope Z_scope.

(** ** Exceptions and fallible results *)

Inductive exn : Type :=
| ValueError | KeyError | AssertionError | TypeError
| AttributeError | OverflowError.

Inductive result (A : Type) : Type :=
| Ok (a : A)
| Raise (e : exn).
Arguments Ok {A} a.
Arguments Raise {A} e.

Definition rbind {A B} (r : result A) (k : A -> result B) : result B :=
  match r with
  | Ok a => k a
  | Raise e => Raise e
  end.

Definition exn_eqb (a b : exn) : bool :=
  match a, b with
  | ValueError, ValueError | KeyError, KeyError
  | AssertionError, AssertionError | TypeError, TypeError
  | AttributeError, AttributeError | OverflowError, OverflowError => true
  | _, _ => false
  end.

(** ** The proleptic Gregorian calendar of the datetime module *)

Module Calendar.

Definition MINYEAR : Z := 1.
Definition MAXYEAR : Z := 9999.
Definition MAXORDINAL : Z := 3652059.

(** Month tables; index 0 is a placeholder, as in datetime and calendar. *)
Definition DAYS_IN_MONTH : list Z :=
  [-1; 31; 28; 31; 30; 31; 30; 31; 31; 30; 31; 30; 31].
Definition DAYS_BEFORE_MONTH : list Z :=
  [-1; 0; 31; 59; 90; 120; 151; 181; 212; 243; 273; 304; 334].

(** calendar.mdays: the lengths of the months of a common year. *)
Definition mdays : list Z :=
  [0; 31; 28; 31; 30; 31; 30; 31; 31; 30; 31; 30; 31].

Definition at_index (l : list Z) (i : Z) : Z := nth (Z.to_nat i) l 0.

(** calendar.isleap and datetime._is_leap *)
Definition isleap (y : Z) : bool :=
  (y mod 4 =? 0) && (negb (y mod 100 =? 0) || (y mod 400 =? 0)).

Definition b2z (b : bool) : Z := if b then 1 else 0.

Definition days_before_year (year : Z) : Z :=
  let y := year - 1 in y * 365 + y / 4 - y / 100 + y / 400.

Definition days_in_month (year month : Z) : Z :=
  if (month =? 2) && isleap year then 29 else at_index DAYS_IN_MONTH month.

Definition days_before_month (year month : Z) : Z :=
  at_index DAYS_BEFORE_MONTH month + b2z ((2 <? month) && isleap year).

Definition ymd2ord (year month day : Z) : Z :=
  days_before_year year + days_before_month year month + day.

Definition DI400Y : Z := 146097.
Definition DI100Y : Z := 36524.
Definition DI4Y : Z := 1461.

(** datetime._ord2ymd *)
Definition ord2ymd (n : Z) : Z * Z * Z :=
  let n := n - 1 in
  let n400 := n / DI400Y in
  let n := n mod DI400Y in
  let year := n400 * 400 + 1 in
  let n100 := n / DI100Y in
  let n := n mod DI100Y in
  let n4 := n / DI4Y in
  let n := n mod DI4Y in
  let n1 := n / 365 in
  let n := n mod 365 in
  let year := year + (n100 * 100 + n4 * 4 + n1) in
  if (n1 =? 4) || (n100 =? 4) then (year - 1, 12, 31)
  else
    let leapyear := (n1 =? 3) && (negb (n4 =? 24) || (n100 =? 3)) in
    let month := Z.shiftr (n + 50) 5 in
    let preceding :=
      at_index DAYS_BEFORE_MONTH month + b2z ((2 <? month) && leapyear) in
    if n <? preceding then
      let month := month - 1 in
      let preceding :=
        preceding
        - (at_index DAYS_IN_MONTH month + b2z ((month =? 2) && leapyear)) in
      (year, month, n - preceding + 1)
    else (year, month, n - preceding + 1).

End Calendar.
Import Calendar.

(** ** datetime.date *)

Record date : Type := mkdate { year : Z; month : Z; day : Z }.

Definition valid_date (d : date) : bool :=
  (MINYEAR <=? year d) && (year d <=? MAXYEAR)
  && (1 <=? month d) && (month d <=? 12)
  && (1 <=? day d) && (day d <=? days_in_month (year d) (month d)).

(** date(year, month, day): the constructor checks its fields. *)
Definition date_new (y m d : Z) : result date :=
  if valid_date (mkdate y m d) then Ok (mkdate y m d) else Raise ValueError.

Definition date_replace_day (d : date) (mday : Z) : result date :=
  date_new (year d) (month d) mday.

Definition date_replace_year (d : date) (y : Z) : result date :=
  date_new y (month d) (day d).

(** Dates compare as the tuples (year, month, day). *)
Definition date_compare (a b : date) : comparison :=
  match year a ?= year b with
  | Eq => match month a ?= month b with
          | Eq => day a ?= day b
          | c => c
          end
  | c => c
  end.

Definition date_eqb (a b : date) : bool :=
  match date_compare a b with Eq => true | _ => false end.
Definition date_ltb (a b : date) : bool :=
  match date_compare a b with Lt => true | _ => false end.
Definition date_leb (a b : date) : bool :=
  match date_compare a b with Gt => false | _ => true end.

Definition toordinal (d : date) : Z := ymd2ord (year d) (month d) (day d).

Definition fromordinal (n : Z) : date :=
  let '(y, m, d) := ord2ymd n in mkdate y m d.

(** date.weekday(): Monday is 0. *)
Definition weekday (d : date) : Z := (toordinal d + 6) mod 7.

(** ** datetime.timedelta, normalised as days, seconds, microseconds *)

Record timedelta : Type :=
  mktimedelta { td_days : Z; td_seconds : Z; td_microseconds : Z }.

Definition US_PER_SECOND : Z := 1000000.
Definition US_PER_DAY : Z := 86400 * US_PER_SECOND.

Definition timedelta_to_us (t : timedelta) : Z :=
  (td_days t * 86400 + td_seconds t) * US_PER_SECOND + td_microseconds t.

Definition timedelta_of_us (us : Z) : timedelta :=
  mktimedelta (us / US_PER_DAY)
              ((us mod US_PER_DAY) / US_PER_SECOND)
              (us mod US_PER_SECOND).

(** timedelta(n): a duration of [n] whole days. *)
Definition timedelta_days (n : Z) : timedelta := mktimedelta n 0 0.

Definition timedelta_add (a b : timedelta) : timedelta :=
  timedelta_of_us (timedelta_to_us a + timedelta_to_us b).
Definition timedelta_neg (a : timedelta) : timedelta :=
  timedelta_of_us (- timedelta_to_us a).
Definition timedelta_sub (a b : timedelta) : timedelta :=
  timedelta_of_us (timedelta_to_us a - timedelta_to_us b).

Definition timedelta_eqb (a b : timedelta) : bool :=
  (td_days a =? td_days b) && (td_seconds a =? td_seconds b)
  && (td_microseconds a =? td_microseconds b).

(** date + timedelta only looks at the days of the duration. *)
Definition date_add (d : date) (t : timedelta) : result date :=
  let o := toordinal d + td_days t in
  if (0 <? o) && (o <=? MAXORDINAL) then Ok (fromordinal o)
  else Raise OverflowError.

Definition date_sub_timedelta (d : date) (t : timedelta) : result date :=
  date_add d (timedelta_days (- td_days t)).

Definition date_sub (a b : date) : timedelta :=
  timedelta_days (toordinal a - toordinal b).

(** ** datetime.datetime; [tzinfo] is a fixed offset from UTC, if any *)

Record timezone : Type := mktimezone { utcoffset_us : Z }.

Record datetime : Type := mkdatetime {
  dt_date : date;
  hour : Z;
  minute : Z;
  second : Z;
  microsecond : Z;
  tzinfo : option timezone
}.

Definition valid_time (h mi s us : Z) : bool :=
  (0 <=? h) && (h <=? 23) && (0 <=? mi) && (mi <=? 59)
  && (0 <=? s) && (s <=? 59) && (0 <=? us) && (us <=? 999999).

(** datetime(year, month, day, hour, minute, second, microsecond, tzinfo) *)
Definition datetime_new (y m d h mi s us : Z) (tz : option timezone)
  : result datetime :=
  if valid_date (mkdate y m d) && valid_time h mi s us
  then Ok (mkdatetime (mkdate y m d) h mi s us tz)
  else Raise ValueError.

(** datetime.date(): the calendar date, whatever the offset. *)
Definition datetime_date (dt : datetime) : date := dt_date dt.

(** datetime.replace(tzinfo=...) *)
Definition replace_tzinfo (dt : datetime) (tz : option timezone) : datetime :=
  mkdatetime (dt_date dt) (hour dt) (minute dt) (second dt) (microsecond dt) tz.

(** Microseconds since the start of ordinal day 0, offset not applied. *)
Definition datetime_to_us (dt : datetime) : Z :=
  ((toordinal (dt_date dt) * 86400
    + hour dt * 3600 + minute dt * 60 + second dt) * US_PER_SECOND)
  + microsecond dt.

Definition datetime_add (dt : datetime) (t : timedelta) : result datetime :=
  let delta := timedelta_of_us (datetime_to_us dt + timedelta_to_us t) in
  let h := td_seconds delta / 3600 in
  let rem := td_seconds delta mod 3600 in
  let mi := rem / 60 in
  let s := rem mod 60 in
  if (0 <? td_days delta) && (td_days delta <=? MAXORDINAL)
  then Ok (mkdatetime (fromordinal (td_days delta)) h mi s
                      (td_microseconds delta) (tzinfo dt))
  else Raise OverflowError.

Definition offset_of (dt : datetime) : option Z :=
  option_map utcoffset_us (tzinfo dt).

Definition opt_z_eqb (a b : option Z) : bool :=
  match a, b with
  | None, None => true
  | Some x, Some y => x =? y
  | _, _ => false
  end.

(** Naive fields as a tuple, compared lexicographically. *)
Definition fields_compare (a b : datetime) : comparison :=
  match date_compare (dt_date a) (dt_date b) with
  | Eq => match hour a ?= hour b with
          | Eq => match minute a ?= minute b with
                  | Eq => match second a ?= second b with
                          | Eq => microsecond a ?= microsecond b
                          | c => c
                          end
                  | c => c
                  end
          | c => c
          end
  | c => c
  end.

(** datetime._cmp: [None] stands for the naive/aware mismatch, which is
    "not equal" for == and a TypeError for the order comparisons. *)
Definition datetime_compare (a b : datetime) : option comparison :=
  if opt_z_eqb (offset_of a) (offset_of b) then Some (fields_compare a b)
  else
    match offset_of a, offset_of b with
    | Some oa, Some ob =>
        Some ((datetime_to_us a - oa) ?= (datetime_to_us b - ob))
    | _, _ => None
    end.

(** datetime - datetime *)
Definition datetime_sub (a b : datetime) : result timedelta :=
  match offset_of a, offset_of b with
  | None, None => Ok (timedelta_of_us (datetime_to_us a - datetime_to_us b))
  | Some oa, Some ob =>
      Ok (timedelta_of_us ((datetime_to_us a - oa) - (datetime_to_us b - ob)))
  | _, _ => Raise TypeError
  end.

(** datetime.astimezone(tz).  An aware value is moved to UTC and then to
    [tz]; a naive value is taken to be local time, the offset of which is
    the argument [sys_local]. *)
Definition astimezone (sys_local : timezone) (dt : datetime) (tz : timezone)
  : result datetime :=
  let own := match tzinfo dt with Some z => z | None => sys_local end in
  rbind (datetime_add dt (timedelta_of_us (- utcoffset_us own))) (fun utc =>
  rbind (datetime_add utc (timedelta_of_us (utcoffset_us tz))) (fun loc =>
  Ok (replace_tzinfo loc (Some tz)))).

(** ** Python values handled by the module and their operators *)

Inductive pyval : Type :=
| PInt (n : Z)
| PDate (d : date)
| PDatetime (dt : datetime)
| PTimedelta (t : timedelta).

(** a == b *)
Definition py_eq (a b : pyval) : bool :=
  match a, b with
  | PInt x, PInt y => x =? y
  | PDate x, PDate y => date_eqb x y
  | PDatetime x, PDatetime y =>
      match datetime_compare x y with Some Eq => true | _ => false end
  | PTimedelta x, PTimedelta y => timedelta_eqb x y
  | _, _ => false
  end.

(** The order comparisons; [test] reads the three-way outcome.  Values of
    different kinds, and naive against aware datetimes, do not order. *)
Definition py_order (test : comparison -> bool) (a b : pyval) : result bool :=
  match a, b with
  | PInt x, PInt y => Ok (test (x ?= y))
  | PDate x, PDate y => Ok (test (date_compare x y))
  | PDatetime x, PDatetime y =>
      match datetime_compare x y with
      | Some c => Ok (test c)
      | None => Raise TypeError
      end
  | PTimedelta x, PTimedelta y =>
      Ok (test (timedelta_to_us x ?= timedelta_to_us y))
  | _, _ => Raise TypeError
  end.

Definition is_lt (c : comparison) : bool :=
  match c with Lt => true | _ => false end.
Definition is_le (c : comparison) : bool :=
  match c with Gt => false | _ => true end.
Definition is_gt (c : comparison) : bool :=
  match c with Gt => true | _ => false end.
Definition is_ge (c : comparison) : bool :=
  match c with Lt => false | _ => true end.

Definition py_lt := py_order is_lt.
Definition py_le := py_order is_le.
Definition py_gt := py_order is_gt.
Definition py_ge := py_order is_ge.

(** a + b *)
Definition py_add (a b : pyval) : result pyval :=
  match a, b with
  | PInt x, PInt y => Ok (PInt (x + y))
  | PDate d, PTimedelta t => rbind (date_add d t) (fun r => Ok (PDate r))
  | PTimedelta t, PDate d => rbind (date_add d t) (fun r => Ok (PDate r))
  | PDatetime d, PTimedelta t =>
      rbind (datetime_add d t) (fun r => Ok (PDatetime r))
  | PTimedelta t, PDatetime d =>
      rbind (datetime_add d t) (fun r => Ok (PDatetime r))
  | PTimedelta x, PTimedelta y => Ok (PTimedelta (timedelta_add x y))
  | _, _ => Raise TypeError
  end.

(** a - b *)
Definition py_sub (a b : pyval) : result pyval :=
  match a, b with
  | PInt x, PInt y => Ok (PInt (x - y))
  | PDate x, PDate y => Ok (PTimedelta (date_sub x y))
  | PDate d, PTimedelta t =>
      rbind (date_sub_timedelta d t) (fun r => Ok (PDate r))
  | PDatetime x, PDatetime y =>
      rbind (datetime_sub x y) (fun r => Ok (PTimedelta r))
  | PDatetime d, PTimedelta t =>
      rbind (datetime_add d (timedelta_neg t)) (fun r => Ok (PDatetime r))
  | PTimedelta x, PTimedelta y => Ok (PTimedelta (timedelta_sub x y))
  | _, _ => Raise TypeError
  end.

(** ** Strings: lowercasing, prefixes, int(), isoformat() *)

Module Str.

Open Scope string_scope.

Definition code (c : ascii) : nat := nat_of_ascii c.

(** str.lower() on the ASCII letters; other bytes are left alone. *)
Definition lower_ascii (c : ascii) : ascii :=
  if (Nat.leb 65 (code c) && Nat.leb (code c) 90)%bool
  then ascii_of_nat (code c + 32) else c.

Fixpoint lower (s : string) : string :=
  match s with
  | EmptyString => EmptyString
  | String c r => String (lower_ascii c) (lower r)
  end.

Definition startswith (s p : string) : bool := String.prefix p s.

(** [sub in s] *)
Fixpoint contains (sub s : string) : bool :=
  if String.prefix sub s then true
  else match s with
       | EmptyString => false
       | String _ r => contains sub r
       end.

Definition is_space (c : ascii) : bool :=
  let n := code c in
  (Nat.leb 9 n && Nat.leb n 13)%bool || (Nat.leb 28 n && Nat.leb n 32)%bool.

Definition is_digit (c : ascii) : bool :=
  (Nat.leb 48 (code c) && Nat.leb (code c) 57)%bool.

Definition digit_value (c : ascii) : Z := Z.of_nat (code c) - 48.

Fixpoint lstrip (s : string) : string :=
  match s with
  | String c r => if is_space c then lstrip r else s
  | EmptyString => EmptyString
  end.

Fixpoint rev_onto (s acc : string) : string :=
  match s with
  | EmptyString => acc
  | String c r => rev_onto r (String c acc)
  end.

Definition strip (s : string) : string :=
  rev_onto (lstrip (rev_onto (lstrip s) EmptyString)) EmptyString.

(** Decimal digits with single underscores allowed between digits. *)
Fixpoint digits (acc : Z) (after_digit : bool) (s : string) : option Z :=
  match s with
  | EmptyString => if after_digit then Some acc else None
  | String c r =>
      if is_digit c then digits (acc * 10 + digit_value c) true r
      else if (Ascii.eqb c "_" && after_digit)%bool then digits acc false r
      else None
  end.

(** int(string) in base ten, on ASCII text: blanks around the number, a
    sign, digits; [None] stands for ValueError. *)
Definition py_int (s : string) : option Z :=
  match strip s with
  | String "+" r => digits 0 false r
  | String "-" r => option_map Z.opp (digits 0 false r)
  | r => digits 0 false r
  end.

(** Zero-padded decimal rendering, as in "%0<width>d". *)
Definition digit_char (n : Z) : ascii :=
  ascii_of_nat (Z.to_nat (n mod 10) + 48).

Fixpoint pad (width : nat) (n : Z) (acc : string) : string :=
  match width with
  | O => acc
  | S w => pad w (n / 10) (String (digit_char n) acc)
  end.

Definition date_isoformat (d : date) : string :=
  pad 4 (year d) ("-" ++ pad 2 (month d) ("-" ++ pad 2 (day d) "")).

Definition offset_isoformat (off : Z) : string :=
  let sign := if (off <? 0)%Z then "-" else "+" in
  let a := Z.abs off in
  let hh := (a / (3600 * US_PER_SECOND))%Z in
  let mm := ((a / (60 * US_PER_SECOND)) mod 60)%Z in
  let ss := ((a / US_PER_SECOND) mod 60)%Z in
  let us := (a mod US_PER_SECOND)%Z in
  sign ++ pad 2 hh (":" ++ pad 2 mm
    (if ((ss =? 0) && (us =? 0))%Z then ""
     else ":" ++ pad 2 ss (if (us =? 0)%Z then "" else "." ++ pad 6 us ""))).

Definition datetime_isoformat (dt : datetime) : string :=
  date_isoformat (dt_date dt) ++ "T"
  ++ pad 2 (hour dt) (":" ++ pad 2 (minute dt) (":" ++ pad 2 (second dt) ""))
  ++ (if (microsecond dt =? 0)%Z then "" else "." ++ pad 6 (microsecond dt) "")
  ++ match tzinfo dt with
     | None => ""
     | Some z => offset_isoformat (utcoffset_us z)
     end.

End Str.

(** ** Dictionaries built by successive assignments: the last one wins *)

Section Dict.
Context {K V : Type} (eqb : K -> K -> bool).

Definition dict_get (k : K) (items : list (K * V)) : option V :=
  fold_left (fun acc kv => if eqb k (fst kv) then Some (snd kv) else acc)
            items None.

Definition dict_mem (k : K) (items : list (K * V)) : bool :=
  match dict_get k items with Some _ => true | None => false end.
End Dict.

(** ** What the module takes from its host: the standard parsers of the
    datetime module, the translation catalogue, the locale's formats and
    the local timezone resolved once at import time. *)

Class Platform : Type := {
  (** date.fromisoformat, [None] for ValueError *)
  date_fromisoformat : string -> option date;
  (** datetime.fromisoformat *)
  datetime_fromisoformat : string -> option datetime;
  (** datetime.strptime string format *)
  strptime : string -> string -> option datetime;
  (** gettext.gettext *)
  gettext : string -> string;
  (** locale.nl_langinfo(locale.D_T_FMT) and (locale.D_FMT) *)
  D_T_FMT : string;
  D_FMT : string;
  LOCAL_TIMEZONE : timezone
}.

(** ** The system clock: successive readings, consumed one per call *)

Definition clock : Type := nat -> datetime.

Definition M (A : Type) : Type := clock -> nat -> result A * nat.

Definition ret {A} (a : A) : M A := fun _ t => (Ok a, t).
Definition raise {A} (e : exn) : M A := fun _ t => (Raise e, t).
Definition lift {A} (r : result A) : M A := fun _ t => (r, t).

Definition bind {A B} (m : M A) (k : A -> M B) : M B :=
  fun c t =>
    match m c t with
    | (Ok a, t') => k a c t'
    | (Raise e, t') => (Raise e, t')
    end.

(** try: m  except ValueError: h *)
Definition except_ValueError {A} (m : M A) (h : M A) : M A :=
  fun c t =>
    match m c t with
    | (Raise ValueError, t') => h c t'
    | r => r
    end.

Notation "x <- m ;; k" := (bind m (fun x => k))
  (at level 61, m at next level, right associativity).
Notation "' p <- m ;; k" := (bind m (fun x => match x with p => k end))
  (at level 61, p pattern, m at next level, right associativity).

(** datetime.now(): a naive local reading. *)
Definition datetime_now : M datetime :=
  fun c t => (Ok (replace_tzinfo (c t) None), S t).

(** date.today() *)
Definition date_today : M date :=
  fun c t => (Ok (dt_date (c t)), S t).

Definition run {A} (m : M A) (c : clock) (t : nat) : result A := fst (m c t).

(** ** GTG.core.dates *)

Open Scope string_scope.

(** NOW, SOON, SOMEDAY, NODATE = list(range(4)) *)
Definition NOW : Z := 0.
Definition SOON : Z := 1.
Definition SOMEDAY : Z := 2.
Definition NODATE : Z := 3.

Module Accuracy.
Inductive t : Type := fuzzy | date | datetime | timezone.

Definition eqb (a b : t) : bool :=
  match a, b with
  | fuzzy, fuzzy | date, date | datetime, datetime
  | timezone, timezone => true
  | _, _ => false
  end.

(** Accuracy.value *)
Definition value (a : t) : string :=
  match a with
  | fuzzy => "fuzzy" | date => "date"
  | datetime => "datetime" | timezone => "timezone"
  end.
End Accuracy.

(** Keys of the LOOKUP dictionary: integers, strings and None. *)
Inductive key : Type :=
| KInt (n : Z)
| KStr (s : string)
| KNone.

Definition key_eqb (a b : key) : bool :=
  match a, b with
  | KInt x, KInt y => (x =? y)%Z
  | KStr x, KStr y => String.eqb x y
  | KNone, KNone => true
  | _, _ => false
  end.

(** The class: one slot, [dt_value]. *)
Record Date : Type := mkDate { dt_value : pyval }.

(** What a caller may hand to the constructor or to an operator: None, a
    string, an integer, a date, a datetime, a timedelta or a Date. *)
Inductive pyobj : Type :=
| ONone
| OStr (s : string)
| OInt (n : Z)
| ODate (d : date)
| ODatetime (dt : datetime)
| OTimedelta (t : timedelta)
| OGtgDate (d : Date).

Section Dates.
Context {P : Platform}.

(** Localized strings for fuzzy values *)
Definition STRINGS : list (Z * string) :=
  [ (NOW, gettext "now"); (SOON, gettext "soon");
    (SOMEDAY, gettext "someday"); (NODATE, "") ].

Definition LOOKUP : list (key * Z) :=
  [ (KInt NOW, NOW);
    (KStr "now", NOW);
    (KStr (gettext "now"), NOW);
    (KInt SOON, SOON);
    (KStr "soon", SOON);
    (KStr (Str.lower (gettext "soon")), SOON);
    (KInt SOMEDAY, SOMEDAY);
    (KStr "later", SOMEDAY);
    (KStr (Str.lower (gettext "later")), SOMEDAY);
    (KStr "someday", SOMEDAY);
    (KStr (Str.lower (gettext "someday")), SOMEDAY);
    (KInt NODATE, NODATE);
    (KStr "", NODATE);
    (KNone, NODATE);
    (KStr "none", NODATE) ].

Definition DATE_FORMATS : list (string * Accuracy.t) :=
  [ (D_T_FMT, Accuracy.datetime);
    ("%Y-%m-%dT%H:%M%S.%f%z", Accuracy.timezone);
    ("%Y-%m-%d %H:%M%S.%f%z", Accuracy.timezone);
    ("%Y-%m-%dT%H:%M%S.%f", Accuracy.datetime);
    ("%Y-%m-%d %H:%M%S.%f", Accuracy.datetime);
    ("%Y-%m-%dT%H:%M%S", Accuracy.datetime);
    ("%Y-%m-%d %H:%M%S", Accuracy.datetime);
    (D_FMT, Accuracy.date);
    ("%Y-%m-%d", Accuracy.date) ].

(** The second loop of __parse_dt_str: the first format that parses. *)
Fixpoint parse_with_formats (s : string)
         (formats : list (string * Accuracy.t)) : option pyval :=
  match formats with
  | [] => None
  | (date_format, accuracy) :: rest =>
      match strptime s date_format with
      | Some dt =>
          if Accuracy.eqb accuracy Accuracy.date
          then Some (PDate (datetime_date dt))
          else Some (PDatetime dt)
      | None => parse_with_formats s rest
      end
  end.

(** Date.__parse_dt_str: [None] when nothing matches. *)
Definition __parse_dt_str (s : string) : M (option pyval) :=
  match date_fromisoformat s with
  | Some d => ret (Some (PDate d))
  | None =>
  match datetime_fromisoformat s with
  | Some dt => ret (Some (PDatetime dt))
  | None =>
  match parse_with_formats s DATE_FORMATS with
  | Some v => ret (Some v)
  | None =>
      if String.eqb s "now" || String.eqb s (Str.lower (gettext "now"))
      then now <- datetime_now ;; ret (Some (PDatetime now))
      else ret (option_map PInt (dict_get key_eqb (KStr (Str.lower s)) LOOKUP))
  end end end.

(** Date.__init__; the result is the object, ValueError when [dt_value]
    is still None at the end. *)
Definition __init__ (value : pyobj) : M Date :=
  let finish (v : option pyval) : M Date :=
    match v with
    | Some x => ret (mkDate x)
    | None => raise ValueError
    end in
  match value with
  | ODate d => finish (Some (PDate d))
  | ODatetime dt => finish (Some (PDatetime dt))
  | OGtgDate d => finish (Some (dt_value d))
  | ONone => finish (Some (PInt NODATE))
  | OStr s =>
      if String.eqb s "None" || String.eqb s ""
      then finish (Some (PInt NODATE))
      else v <- __parse_dt_str s ;; finish v
  | OInt n =>
      if (n =? 0)%Z
      then now <- datetime_now ;; finish (Some (PDatetime now))
      else finish (option_map PInt (dict_get key_eqb (KInt n) LOOKUP))
  | OTimedelta _ => finish None
  end.

(** Date.accuracy *)
Definition accuracy (self : Date) : Accuracy.t :=
  match dt_value self with
  | PDatetime dt =>
      match tzinfo dt with
      | Some _ => Accuracy.timezone
      | None => Accuracy.datetime
      end
  | PDate _ => Accuracy.date
  | _ => Accuracy.fuzzy
  end.

(** Attribute access on a raw value. *)
Definition date_fields (v : pyval) : result date :=
  match v with
  | PDate d => Ok d
  | PDatetime dt => Ok (dt_date dt)
  | _ => Raise AttributeError
  end.

(** Date._dt_by_accuracy *)
Definition _dt_by_accuracy (v : pyval) (accuracy wanted_accuracy : Accuracy.t)
  : result pyval :=
  if Accuracy.eqb wanted_accuracy Accuracy.timezone then
    if Accuracy.eqb accuracy Accuracy.date then
      rbind (date_fields v) (fun d =>
      rbind (datetime_new (year d) (month d) (day d) 0 0 0 0
                          (Some LOCAL_TIMEZONE)) (fun r =>
      Ok (PDatetime r)))
    else if negb (Accuracy.eqb accuracy Accuracy.datetime) then
      Raise AssertionError
    else
      match v with
      | PDatetime dt => Ok (PDatetime (replace_tzinfo dt (Some LOCAL_TIMEZONE)))
      | PDate _ => Raise TypeError
      | _ => Raise AttributeError
      end
  else if Accuracy.eqb wanted_accuracy Accuracy.datetime then
    if Accuracy.eqb accuracy Accuracy.date then
      rbind (date_fields v) (fun d =>
      rbind (datetime_new (year d) (month d) (day d) 0 0 0 0 None) (fun r =>
      Ok (PDatetime r)))
    else if negb (Accuracy.eqb accuracy Accuracy.timezone) then
      Raise AssertionError
    else
      match v with
      | PDatetime dt =>
          rbind (astimezone LOCAL_TIMEZONE dt LOCAL_TIMEZONE) (fun r =>
          Ok (PDatetime (replace_tzinfo r None)))
      | _ => Raise AttributeError
      end
  else if Accuracy.eqb wanted_accuracy Accuracy.date then
    match v with
    | PDatetime dt => Ok (PDate (datetime_date dt))
    | _ => Raise AttributeError
    end
  else Raise AssertionError.

(** delta_days = {SOON: 15, SOMEDAY: 365, NODATE: 9999} *)
Definition delta_days : list (Z * Z) :=
  [ (SOON, 15%Z); (SOMEDAY, 365%Z); (NODATE, 9999%Z) ].

(** Subscripting a dictionary keyed by the fuzzy codes. *)
Definition subscript {V} (d : list (Z * V)) (v : pyval) : result V :=
  match v with
  | PInt n =>
      match dict_get Z.eqb n d with
      | Some x => Ok x
      | None => Raise KeyError
      end
  | _ => Raise KeyError
  end.

(** Date.dt_by_accuracy *)
Definition dt_by_accuracy (self : Date) (wanted_accuracy : Accuracy.t)
  : M pyval :=
  if Accuracy.eqb wanted_accuracy (accuracy self) then ret (dt_value self)
  else if Accuracy.eqb (accuracy self) Accuracy.fuzzy then
    now <- datetime_now ;;
    days <- lift (subscript delta_days (dt_value self)) ;;
    later <- lift (datetime_add now (timedelta_days days)) ;;
    gtg_date <- __init__ (ODatetime later) ;;
    if Accuracy.eqb (accuracy gtg_date) wanted_accuracy
    then ret (dt_value gtg_date)
    else lift (_dt_by_accuracy (dt_value gtg_date) (accuracy gtg_date)
                               wanted_accuracy)
  else lift (_dt_by_accuracy (dt_value self) (accuracy self) wanted_accuracy).

(** Date.date *)
Definition Date_date (self : Date) : M pyval :=
  dt_by_accuracy self Accuracy.date.

(** The loop of _cast_for_operation over the concrete accuracies, with
    the statement that follows it when no accuracy matches. *)
Fixpoint cast_loop (self other : Date) (accuracies : list Accuracy.t)
  : M (pyval * pyval) :=
  match accuracies with
  | [] =>
      a <- dt_by_accuracy self Accuracy.fuzzy ;;
      b <- dt_by_accuracy other Accuracy.fuzzy ;;
      ret (a, b)
  | acc :: rest =>
      if Accuracy.eqb acc (accuracy self) || Accuracy.eqb acc (accuracy other)
      then
        a <- dt_by_accuracy self acc ;;
        b <- dt_by_accuracy other acc ;;
        ret (a, b)
      else cast_loop self other rest
  end.

(** Date._cast_for_operation *)
Definition _cast_for_operation (self : Date) (other : pyobj)
           (is_comparison : bool) : M (pyval * pyval) :=
  match other with
  | OTimedelta t =>
      if is_comparison then raise ValueError
      else ret (dt_value self, PTimedelta t)
  | _ =>
      other <- match other with
               | OGtgDate d => ret d
               | _ => __init__ other
               end ;;
      if Accuracy.eqb (accuracy self) (accuracy other)
      then ret (dt_value self, dt_value other)
      else cast_loop self other
             [Accuracy.date; Accuracy.datetime; Accuracy.timezone]
  end.

Definition __add__ (self : Date) (other : pyobj) : M pyval :=
  ' (a, b) <- _cast_for_operation self other false ;; lift (py_add a b).

Definition __sub__ (self : Date) (other : pyobj) : M pyval :=
  ' (a, b) <- _cast_for_operation self other false ;; lift (py_sub a b).

Definition __radd__ := __add__.
Definition __rsub__ := __sub__.

Definition __lt__ (self : Date) (other : pyobj) : M bool :=
  ' (a, b) <- _cast_for_operation self other true ;; lift (py_lt a b).

Definition __le__ (self : Date) (other : pyobj) : M bool :=
  ' (a, b) <- _cast_for_operation self other true ;; lift (py_le a b).

Definition __eq__ (self : Date) (other : pyobj) : M bool :=
  ' (a, b) <- _cast_for_operation self other true ;; ret (py_eq a b).

Definition __ne__ (self : Date) (other : pyobj) : M bool :=
  r <- __eq__ self other ;; ret (negb r).

Definition __gt__ (self : Date) (other : pyobj) : M bool :=
  ' (a, b) <- _cast_for_operation self other true ;; lift (py_gt a b).

Definition __ge__ (self : Date) (other : pyobj) : M bool :=
  ' (a, b) <- _cast_for_operation self other true ;; lift (py_ge a b).

(** Date.__str__ *)
Definition __str__ (self : Date) : result string :=
  if Accuracy.eqb (accuracy self) Accuracy.fuzzy then
    subscript [ (SOON, "soon"); (SOMEDAY, "someday"); (NODATE, "") ]
              (dt_value self)
  else
    match dt_value self with
    | PDate d => Ok (Str.date_isoformat d)
    | PDatetime dt => Ok (Str.datetime_isoformat dt)
    | _ => Raise AttributeError
    end.

(** Date.__bool__ *)
Definition __bool__ (self : Date) : bool :=
  negb (py_eq (dt_value self) (PInt NODATE)).

Definition is_fuzzy (self : Date) : bool :=
  Accuracy.eqb (accuracy self) Accuracy.fuzzy.

(** Date.today, Date.tomorrow, Date.now *)
Definition Date_today : M Date :=
  today <- date_today ;; __init__ (ODate today).

Definition Date_tomorrow : M Date :=
  today <- date_today ;;
  d <- lift (date_add today (timedelta_days 1)) ;;
  __init__ (ODate d).

Definition Date_now : M Date := Date_today.

(** *** Parsing relative to today *)

(** The common tail of the two day-of-month parsers, from the line
    [result = today.replace(day=mday)] on; [today] is the anchor. *)
Definition next_month_day (today : date) (mday : Z) : option date :=
  let result :=
    match date_replace_day today mday with
    | Ok r => Some r
    | Raise _ => None
    end in
  let rolls :=
    match result with
    | None => true
    | Some r => date_leb r today
    end in
  if rolls then
    let '(next_month, next_year) :=
      if (month today =? 12)%Z then (1%Z, (year today + 1)%Z)
      else ((month today + 1)%Z, year today) in
    match date_new next_year next_month mday with
    | Ok r => Some r
    | Raise _ => result
    end
  else result.

(** The guard shared by the day-of-month parsers: [int(string)] within
    1..31 and no leading zero. *)
Definition month_day_number (s : string) : option Z :=
  match Str.py_int s with
  | Some mday =>
      if negb ((1 <=? mday)%Z && (mday <=? 31)%Z) || Str.startswith s "0"
      then None else Some mday
  | None => None
  end.

(** Date._parse_only_month_day *)
Definition _parse_only_month_day (s : string) : M (option date) :=
  match month_day_number s with
  | None => ret None
  | Some mday =>
      today <- date_today ;;
      ret (next_month_day today mday)
  end.

(** The loop over the numerical formats; a later format that parses
    replaces an earlier result, one that fails leaves it. *)
Fixpoint numerical_loop (today : date) (s : string) (fmts : list string)
         (result : option date) : option date :=
  match fmts with
  | [] => result
  | fmt :: rest =>
      match strptime s fmt with
      | None => numerical_loop today s rest result
      | Some dt =>
          let r := datetime_date dt in
          if negb (Str.contains "%Y" fmt) then
            let y :=
              if (month today <? month r)%Z
                 || ((month r =? month today)%Z && (day today <=? day r)%Z)
              then year today else (year today + 1)%Z in
            match date_replace_year r y with
            | Ok r' => numerical_loop today s rest (Some r')
            | Raise _ => numerical_loop today s rest (Some r)
            end
          else numerical_loop today s rest (Some r)
      end
  end.

Definition NUMERICAL_FORMATS : list string := ["%Y/%m/%d"; "%Y%m%d"; "%m%d"].

(** Date._parse_numerical_format *)
Definition _parse_numerical_format (s : string) : M (option date) :=
  today <- date_today ;;
  ret (numerical_loop today s NUMERICAL_FORMATS None).

Definition WEEKDAYS : list (Z * string) :=
  [ (0%Z, "Monday"); (1%Z, "Tuesday"); (2%Z, "Wednesday");
    (3%Z, "Thursday"); (4%Z, "Friday"); (5%Z, "Saturday"); (6%Z, "Sunday") ].

(** The week day names, English then local, with their offsets. *)
Definition weekday_items (today : date) : list (string * Z) :=
  flat_map
    (fun ie : Z * string =>
       let i := fst ie in
       let offset := (i - weekday today + 7 * b2z (i <=? weekday today))%Z in
       [ (Str.lower (snd ie), offset);
         (Str.lower (gettext (snd ie)), offset) ])
    WEEKDAYS.

(** The [formats] dictionary of _parse_text_representation. *)
Definition text_formats (today : date) : list (string * Z) :=
  [ ("today", 0%Z);
    (Str.lower (gettext "today"), 0%Z);
    ("tomorrow", 1%Z);
    (Str.lower (gettext "tomorrow"), 1%Z);
    ("next week", 7%Z);
    (Str.lower (gettext "next week"), 7%Z);
    ("next month", at_index mdays (month today));
    (Str.lower (gettext "next month"), at_index mdays (month today));
    ("next year", (365 + b2z (isleap (year today)))%Z);
    (Str.lower (gettext "next year"), (365 + b2z (isleap (year today)))%Z) ]
  ++ weekday_items today.

(** Date._parse_text_representation *)
Definition _parse_text_representation (s : string) : M (option date) :=
  today <- date_today ;;
  match dict_get String.eqb s (text_formats today) with
  | None => ret None
  | Some offset =>
      r <- lift (date_add today (timedelta_days offset)) ;; ret (Some r)
  end.

(** The tail of parse and parse_from_date, after the parsers ran. *)
Definition announce (result : option date) : M Date :=
  match result with
  | Some d => __init__ (ODate d)
  | None => raise ValueError
  end.

(** Date.parse *)
Definition parse (string : option string) : M Date :=
  let string := match string with
                | None => ""
                | Some s => Str.lower s
                end in
  except_ValueError (__init__ (OStr string))
    (result <- _parse_only_month_day string ;;
     result <- match result with
               | None => _parse_numerical_format string
               | Some _ => ret result
               end ;;
     result <- match result with
               | None => _parse_text_representation string
               | Some _ => ret result
               end ;;
     announce result).

(** *** Parsing relative to a given date *)

(** [self.dt_by_accuracy(Accuracy.date)], read as a calendar date. *)
Definition self_date_of (self : Date) : M date :=
  v <- dt_by_accuracy self Accuracy.date ;;
  match v with
  | PDate d => ret d
  | _ => raise AttributeError
  end.

(** Date._parse_only_month_day_for_recurrency *)
Definition _parse_only_month_day_for_recurrency
           (self : Date) (s : string) (newtask : bool) : M (option date) :=
  self_date <- self_date_of self ;;
  self_date <- (if negb newtask
                then lift (date_add self_date (timedelta_days 1))
                else ret self_date) ;;
  match month_day_number s with
  | None => ret None
  | Some mday => ret (next_month_day self_date mday)
  end.

(** Date._parse_numerical_format_for_recurrency *)
Definition _parse_numerical_format_for_recurrency
           (self : Date) (s : string) (newtask : bool) : M (option date) :=
  self_date <- self_date_of self ;;
  self_date <- (if negb newtask
                then lift (date_add self_date (timedelta_days 1))
                else ret self_date) ;;
  ret (numerical_loop self_date s NUMERICAL_FORMATS None).

(** The [formats] dictionary of _parse_text_representation_for_recurrency. *)
Definition recurrency_formats (self_date : date) (newtask : bool)
  : list (string * Z) :=
  [ ("day", if newtask then 0%Z else 1%Z);
    (Str.lower (gettext "day"), if newtask then 0%Z else 1%Z);
    ("other-day", if newtask then 0%Z else 2%Z);
    (Str.lower (gettext "other-day"), if newtask then 0%Z else 2%Z);
    ("week", if newtask then 0%Z else 7%Z);
    (Str.lower (gettext "week"), if newtask then 0%Z else 7%Z);
    ("month", if newtask then 0%Z else at_index mdays (month self_date));
    (Str.lower (gettext "month"),
      if newtask then 0%Z else at_index mdays (month self_date));
    ("year",
      if newtask then 0%Z else (365 + b2z (isleap (year self_date)))%Z);
    (Str.lower (gettext "year"),
      if newtask then 0%Z else (365 + b2z (isleap (year self_date)))%Z) ]
  ++ weekday_items self_date.

(** Date._parse_text_representation_for_recurrency *)
Definition _parse_text_representation_for_recurrency
           (self : Date) (s : string) (newtask : bool) : M (option date) :=
  self_date <- self_date_of self ;;
  match dict_get String.eqb s (recurrency_formats self_date newtask) with
  | None => ret None
  | Some offset =>
      r <- lift (date_add self_date (timedelta_days offset)) ;; ret (Some r)
  end.

(** Date.parse_from_date *)
Definition parse_from_date (self : Date) (string : option string)
           (newtask : bool) : M Date :=
  let string := match string with
                | None => ""
                | Some s => Str.lower s
                end in
  except_ValueError (__init__ (OStr string))
    (result <- _parse_only_month_day_for_recurrency self string newtask ;;
     result <- match result with
               | None =>
                   _parse_numerical_format_for_recurrency self string newtask
               | Some _ => ret result
               end ;;
     result <- match result with
               | None =>
                   _parse_text_representation_for_recurrency
                     self string newtask
               | Some _ => ret result
               end ;;
     announce result).

(** Date.days_left: [None] for no date, else the days from today. *)
Definition days_left (self : Date) : M (option Z) :=
  if py_eq (dt_value self) (PInt NODATE) then ret None
  else
    d <- dt_by_accuracy self Accuracy.date ;;
    today <- date_today ;;
    delta <- lift (py_sub d (PDate today)) ;;
    match delta with
    | PTimedelta td => ret (Some (td_days td))
    | _ => raise AttributeError
    end.

(** _GLOBAL_DATE_SOON, _GLOBAL_DATE_NODATE, _GLOBAL_DATE_SOMEDAY: the
    module builds them with Date(SOON), Date(NODATE), Date(SOMEDAY). *)
Definition _GLOBAL_DATE_SOON : M Date := __init__ (OInt SOON).
Definition _GLOBAL_DATE_NODATE : M Date := __init__ (OInt NODATE).
Definition _GLOBAL_DATE_SOMEDAY : M Date := __init__ (OInt SOMEDAY).

(** Date.__repr__ *)
Definition __repr__ (self : Date) : result string :=
  rbind (__str__ self) (fun s => Ok ("<Date(" ++ s ++ ")>")).

End Dates.

(** ** A concrete host: the C locale, untranslated, in UTC

    The parsers follow the datetime module for the forms this module
    relies on: ISO strings YYYY-MM-DD[?HH[:MM[:SS[.fff[fff]]]]][+HH:MM], and
    strptime with the numeric directives %Y %y %m %d %H %M %S %f %z, literal
    text matched without regard to case, and backtracking over the
    alternatives of each directive in the order of its regular expression.
    Any other directive is refused, as strptime refuses %e. *)

Module CLocale.

Definition obind {A B} (o : option A) (k : A -> option B) : option B :=
  match o with Some a => k a | None => None end.

Fixpoint take_digits (w : nat) (acc : Z) (s : string) : option (Z * string) :=
  match w with
  | O => Some (acc, s)
  | S w' =>
      match s with
      | String c r =>
          if Str.is_digit c
          then take_digits w' (acc * 10 + Str.digit_value c)%Z r
          else None
      | EmptyString => None
      end
  end.

Definition expect (c : ascii) (s : string) : option string :=
  match s with
  | String c' r => if Ascii.eqb c c' then Some r else None
  | EmptyString => None
  end.

Definition iso_date (s : string) : option (date * string) :=
  obind (take_digits 4 0 s) (fun '(y, s) =>
  obind (expect "-" s) (fun s =>
  obind (take_digits 2 0 s) (fun '(m, s) =>
  obind (expect "-" s) (fun s =>
  obind (take_digits 2 0 s) (fun '(d, s) =>
  match date_new y m d with
  | Ok r => Some (r, s)
  | Raise _ => None
  end))))).

Definition iso_date_fromisoformat (s : string) : option date :=
  match iso_date s with
  | Some (d, EmptyString) => Some d
  | _ => None
  end.

(** An optional group introduced by [c]: absent, it yields [dflt]. *)
Definition optional {A} (c : ascii) (dflt : A)
           (p : string -> option (A * string)) (s : string)
  : option (A * string) :=
  match s with
  | String c' r => if Ascii.eqb c c' then p r else Some (dflt, s)
  | EmptyString => Some (dflt, s)
  end.

Definition iso_fraction (s : string) : option (Z * string) :=
  match take_digits 6 0 s with
  | Some r => Some r
  | None => obind (take_digits 3 0 s) (fun '(ms, s) => Some (ms * 1000, s)%Z)
  end.

Definition iso_offset (s : string) : option (option timezone) :=
  match s with
  | EmptyString => Some None
  | String sign r =>
      if Ascii.eqb sign "+" || Ascii.eqb sign "-" then
        obind (take_digits 2 0 r) (fun '(hh, r) =>
        obind (expect ":" r) (fun r =>
        obind (take_digits 2 0 r) (fun '(mm, r) =>
        match r with
        | EmptyString =>
            if (hh <=? 23)%Z && (mm <=? 59)%Z then
              let us := ((hh * 3600 + mm * 60) * US_PER_SECOND)%Z in
              Some (Some (mktimezone
                            (if Ascii.eqb sign "-" then (- us)%Z else us)))
            else None
        | _ => None
        end)))
      else None
  end.

Definition iso_time (d : date) (s : string) : option datetime :=
  obind (take_digits 2 0 s) (fun '(h, s) =>
  obind (optional ":" (0%Z, 0%Z, 0%Z)
           (fun s =>
              obind (take_digits 2 0 s) (fun '(mi, s) =>
              obind (optional ":" (0%Z, 0%Z)
                       (fun s =>
                          obind (take_digits 2 0 s) (fun '(sec, s) =>
                          obind (optional "." 0%Z iso_fraction s)
                                (fun '(us, s) => Some (sec, us, s))))
                       s) (fun '(sec, us, s) => Some (mi, sec, us, s))))
           s) (fun '(mi, sec, us, s) =>
  obind (iso_offset s) (fun tz =>
  match datetime_new (year d) (month d) (day d) h mi sec us tz with
  | Ok r => Some r
  | Raise _ => None
  end))).

Definition iso_datetime_fromisoformat (s : string) : option datetime :=
  match iso_date s with
  | Some (d, EmptyString) => Some (mkdatetime d 0 0 0 0 None)
  | Some (d, String _ r) => iso_time d r
  | None => None
  end.

(** *** strptime *)

Record parsed : Type := mkparsed {
  pY : Z; pm : Z; pd : Z; pH : Z; pM : Z; pS : Z; pf : Z;
  pz : option timezone
}.

Definition parsed_default : parsed := mkparsed 1900 1 1 0 0 0 0 None.

(** The readings of a numeric directive: for each width in turn, that
    many digits whose value passes [ok]. *)
Fixpoint num_alts (widths : list nat) (ok : Z -> bool) (s : string)
  : list (nat * Z * string) :=
  match widths with
  | [] => []
  | w :: rest =>
      match take_digits w 0 s with
      | Some (v, r) =>
          if ok v then (w, v, r) :: num_alts rest ok s
          else num_alts rest ok s
      | None => num_alts rest ok s
      end
  end.

Definition between (lo hi v : Z) : bool := ((lo <=? v) && (v <=? hi))%Z.

Definition z_alts (s : string) : list (option timezone * string) :=
  match s with
  | String sign r =>
      if Ascii.eqb sign "Z" then [(Some (mktimezone 0), r)]
      else if Ascii.eqb sign "+" || Ascii.eqb sign "-" then
        match take_digits 2 0 r with
        | Some (hh, r) =>
            let r := match expect ":" r with Some r' => r' | None => r end in
            match take_digits 2 0 r with
            | Some (mm, r) =>
                if (mm <=? 59)%Z then
                  let us := ((hh * 3600 + mm * 60) * US_PER_SECOND)%Z in
                  [(Some (mktimezone
                            (if Ascii.eqb sign "-" then (- us)%Z else us)), r)]
                else []
            | None => []
            end
        | None => []
        end
      else []
  | EmptyString => []
  end.

Definition with_Y (p : parsed) (v : Z) : parsed :=
  mkparsed v (pm p) (pd p) (pH p) (pM p) (pS p) (pf p) (pz p).
Definition with_m (p : parsed) (v : Z) : parsed :=
  mkparsed (pY p) v (pd p) (pH p) (pM p) (pS p) (pf p) (pz p).
Definition with_d (p : parsed) (v : Z) : parsed :=
  mkparsed (pY p) (pm p) v (pH p) (pM p) (pS p) (pf p) (pz p).
Definition with_H (p : parsed) (v : Z) : parsed :=
  mkparsed (pY p) (pm p) (pd p) v (pM p) (pS p) (pf p) (pz p).
Definition with_M (p : parsed) (v : Z) : parsed :=
  mkparsed (pY p) (pm p) (pd p) (pH p) v (pS p) (pf p) (pz p).
Definition with_S (p : parsed) (v : Z) : parsed :=
  mkparsed (pY p) (pm p) (pd p) (pH p) (pM p) v (pf p) (pz p).
Definition with_f (p : parsed) (v : Z) : parsed :=
  mkparsed (pY p) (pm p) (pd p) (pH p) (pM p) (pS p) v (pz p).
Definition with_z (p : parsed) (z : option timezone) : parsed :=
  mkparsed (pY p) (pm p) (pd p) (pH p) (pM p) (pS p) (pf p) z.

(** Each reading of a numeric directive stored by [f], which is given the
    width read and the value. *)
Definition store (f : nat -> Z -> parsed) (l : list (nat * Z * string))
  : list (parsed * string) :=
  map (fun x : nat * Z * string => (f (fst (fst x)) (snd (fst x)), snd x)) l.

(** The readings of directive [c] on [s], each with the updated fields
    and the rest of the input; [None] for a directive not supported. *)
Definition directive (c : ascii) (acc : parsed) (s : string)
  : option (list (parsed * string)) :=
  if Ascii.eqb c "Y" then
    Some (store (fun _ v => with_Y acc v) (num_alts [4%nat] (fun _ => true) s))
  else if Ascii.eqb c "y" then
    Some (store (fun _ v =>
                   with_Y acc (if (v <=? 68)%Z then 2000 + v else 1900 + v)%Z)
                (num_alts [2%nat] (fun _ => true) s))
  else if Ascii.eqb c "m" then
    Some (store (fun _ v => with_m acc v)
                (num_alts [2%nat; 1%nat] (between 1 12) s))
  else if Ascii.eqb c "d" then
    Some (app (store (fun _ v => with_d acc v)
                     (num_alts [2%nat; 1%nat] (between 1 31) s))
              (match s with
               | String " " r =>
                   store (fun _ v => with_d acc v)
                         (num_alts [1%nat] (between 1 9) r)
               | _ => []
               end))
  else if Ascii.eqb c "H" then
    Some (store (fun _ v => with_H acc v)
                (num_alts [2%nat; 1%nat] (between 0 23) s))
  else if Ascii.eqb c "M" then
    Some (store (fun _ v => with_M acc v)
                (num_alts [2%nat; 1%nat] (between 0 59) s))
  else if Ascii.eqb c "S" then
    Some (store (fun _ v => with_S acc v)
                (num_alts [2%nat; 1%nat] (between 0 61) s))
  else if Ascii.eqb c "f" then
    Some (store (fun w v => with_f acc (v * 10 ^ (6 - Z.of_nat w))%Z)
                (num_alts [6%nat; 5%nat; 4%nat; 3%nat; 2%nat; 1%nat]
                          (fun _ => true) s))
  else if Ascii.eqb c "z" then
    Some (map (fun x : option timezone * string => (with_z acc (fst x), snd x))
              (z_alts s))
  else if Ascii.eqb c "%" then
    match expect "%" s with
    | Some r => Some [(acc, r)]
    | None => Some []
    end
  else None.

(** The rests of [s] after one or more blanks, longest run first. *)
Fixpoint space_alts (s : string) : list string :=
  match s with
  | String c r => if Str.is_space c then app (space_alts r) [r] else []
  | EmptyString => []
  end.

Fixpoint first_some {A B} (f : A -> option B) (l : list A) : option B :=
  match l with
  | [] => None
  | x :: rest =>
      match f x with
      | Some b => Some b
      | None => first_some f rest
      end
  end.

(** Matching the format against the whole input. *)
Fixpoint strptime_match (fmt : string) (after_space : bool)
         (acc : parsed) (s : string) : option parsed :=
  match fmt with
  | EmptyString =>
      match s with EmptyString => Some acc | _ => None end
  | String "%" (String c rest) =>
      match directive c acc s with
      | None => None
      | Some alts =>
          first_some
            (fun x : parsed * string =>
               strptime_match rest false (fst x) (snd x)) alts
      end
  | String c rest =>
      if Ascii.eqb c "%" then None
      else if Str.is_space c then
        if after_space then strptime_match rest true acc s
        else first_some (fun r => strptime_match rest true acc r)
                        (space_alts s)
      else
        match s with
        | String c' r =>
            if Ascii.eqb (Str.lower_ascii c) (Str.lower_ascii c')
            then strptime_match rest false acc r
            else None
        | EmptyString => None
        end
  end.

Definition numeric_strptime (s fmt : string) : option datetime :=
  obind (strptime_match fmt false parsed_default s) (fun p =>
  match datetime_new (pY p) (pm p) (pd p) (pH p) (pM p) (pS p) (pf p) (pz p)
  with
  | Ok r => Some r
  | Raise _ => None
  end).

#[export] Instance platform : Platform := {
  date_fromisoformat := iso_date_fromisoformat;
  datetime_fromisoformat := iso_datetime_fromisoformat;
  strptime := numeric_strptime;
  gettext := fun s => s;
  D_T_FMT := "%a %b %e %H:%M:%S %Y";
  D_FMT := "%m/%d/%y";
  LOCAL_TIMEZONE := mktimezone 0
}.

(** A clock started at [start] that advances one second per reading. *)
Definition ticking (start : datetime) : clock :=
  fun n =>
    match datetime_add start (mktimedelta 0 (Z.of_nat n) 0) with
    | Ok r => r
    | Raise _ => start
    end.

End CLocale.

(** ** Definitions used to state and prove the properties *)

(** The month and day that [ord2ymd] derives from a day of the year. *)
Definition month_day (leapyear : bool) (n : Z) : Z * Z :=
  let month := Z.shiftr (n + 50) 5 in
  let preceding :=
    (at_index DAYS_BEFORE_MONTH month + b2z ((2 <? month) && leapyear))%Z in
  if (n <? preceding)%Z then
    let month := (month - 1)%Z in
    let preceding :=
      (preceding
       - (at_index DAYS_IN_MONTH month + b2z ((month =? 2) && leapyear)))%Z in
    (month, (n - preceding + 1)%Z)
  else (month, (n - preceding + 1)%Z).

(** Day of the year, from 0, of day [dd] of month [m]. *)
Definition yday (leapyear : bool) (m dd : Z) : Z :=
  (at_index DAYS_BEFORE_MONTH m + b2z ((2 <? m) && leapyear) + dd - 1)%Z.

Definition month_length (leapyear : bool) (m : Z) : Z :=
  if ((m =? 2)%Z && leapyear)%bool then 29%Z else at_index DAYS_IN_MONTH m.

(** [month_day] inverts [yday], checked on one month and day. *)
Definition month_day_check (leapyear : bool) (m dd : Z) : bool :=
  implb (dd <=? month_length leapyear m)%Z
    (if (yday leapyear m dd <=? 364)%Z then
       (fst (month_day leapyear (yday leapyear m dd)) =? m)%Z
       && (snd (month_day leapyear (yday leapyear m dd)) =? dd)%Z
     else leapyear && (m =? 12)%Z && (dd =? 31)%Z
          && (yday leapyear m dd =? 365)%Z).

Definition zrange (lo : nat) (len : nat) : list Z := map Z.of_nat (seq lo len).

Definition month_day_table_ok : bool :=
  forallb (fun leap =>
    forallb (fun m =>
      forallb (fun dd => month_day_check leap m dd) (zrange 1 31))
      (zrange 1 12))
    [true; false].

(** Results and computations that do not end in an AssertionError. *)
Definition no_assert {A} (r : result A) : Prop := r <> Raise AssertionError.

Definition never_asserts {A} (m : M A) : Prop :=
  forall (c : clock) (t : nat), no_assert (fst (m c t)).

(** Midnight of a calendar day, naive. *)
Definition midnight (d : date) : datetime := mkdatetime d 0 0 0 0 None.

(** The text of a day number, 1 to 31, without leading zero. *)
Definition day_string (d : Z) : string :=
  if (d <? 10)%Z then String (Str.digit_char d) ""
  else String (Str.digit_char (d / 10)) (String (Str.digit_char d) "").

(** Whether month [m] of year [y] has a day [d]. *)
Definition has_day (y m d : Z) : bool := valid_date (mkdate y m d).

(** Year and month of the month after that of [today]. *)
Definition following_month (today : date) : Z * Z :=
  if (month today =? 12)%Z then ((year today + 1)%Z, 1%Z)
  else (year today, (month today + 1)%Z).

Definition day_strings_ok : bool :=
  forallb (fun d =>
             match month_day_number (day_string d) with
             | Some x => (x =? d)%Z
             | None => false
             end
             && String.eqb (Str.lower (day_string d)) (day_string d))
          (zrange 1 31).

(** A computation whose outcome on clock [c] is [r] at whatever reading
    it starts. *)
Definition steady {A} (m : M A) (c : clock) (r : result A) : Prop :=
  forall t : nat, run m c t = r.

(** The phrases of recurrence-relative parsing, by what they stand for. *)
Inductive phrase : Type :=
| Pday | Pother_day | Pweek | Pmonth | Pyear
| Pweekday (i : Z).

Section Phrases.
Context {P : Platform}.

(** The keys of the [formats] dictionary of
    _parse_text_representation_for_recurrency, in the order in which
    they are assigned, each with the phrase it is assigned for. *)
Definition phrase_table : list (string * phrase) :=
  [ ("day", Pday); (Str.lower (gettext "day"), Pday);
    ("other-day", Pother_day); (Str.lower (gettext "other-day"), Pother_day);
    ("week", Pweek); (Str.lower (gettext "week"), Pweek);
    ("month", Pmonth); (Str.lower (gettext "month"), Pmonth);
    ("year", Pyear); (Str.lower (gettext "year"), Pyear) ]
  ++ flat_map
       (fun ie : Z * string =>
          [ (Str.lower (snd ie), Pweekday (fst ie));
            (Str.lower (gettext (snd ie)), Pweekday (fst ie)) ])
       WEEKDAYS.

(** The phrase a text stands for: the last assignment to that key. *)
Definition phrase_kind (s : string) : option phrase :=
  dict_get String.eqb s phrase_table.
End Phrases.

(** The offset the dictionary holds for a phrase. *)
Definition phrase_offset (self_date : date) (newtask : bool) (p : phrase)
  : Z :=
  match p with
  | Pday => if newtask then 0 else 1
  | Pother_day => if newtask then 0 else 2
  | Pweek => if newtask then 0 else 7
  | Pmonth => if newtask then 0 else at_index mdays (month self_date)
  | Pyear => if newtask then 0 else 365 + b2z (isleap (year self_date))
  | Pweekday i =>
      i - weekday self_date + 7 * b2z (i <=? weekday self_date)
  end%Z.

(** The days that separate the result for an existing task from the
    result for a new task, for the duration phrases. *)
Definition extra_days (d : date) (p : phrase) : Z :=
  match p with
  | Pday => 1
  | Pother_day => 2
  | Pweek => 7
  | Pmonth => days_in_month (year d) (month d)
  | Pyear => 365 + b2z (isleap (year d))
  | Pweekday _ => 0
  end%Z.

Definition is_weekday (p : phrase) : bool :=
  match p with Pweekday _ => true | _ => false end.

(** Date(x) == Date(x), as a program. *)
Definition construct_twice_eq {P : Platform} (x : pyobj) : M bool :=
  a <- __init__ x ;; b <- __init__ x ;; __eq__ a (OGtgDate b).

(** The inputs for which the constructor may read the clock. *)
Definition is_now_form {P : Platform} (x : pyobj) : bool :=
  match x with
  | OInt n => (n =? 0)%Z
  | OStr s => String.eqb s "now" || String.eqb s (Str.lower (gettext "now"))
  | _ => false
  end.

(** [yday] inverts [month_day], checked on one day of the year: the month
    and day derived from it are a valid month and day. *)
Definition yday_check (leapyear : bool) (doy : Z) : bool :=
  let md := month_day leapyear doy in
  (1 <=? fst md)%Z && (fst md <=? 12)%Z
  && (1 <=? snd md)%Z && (snd md <=? month_length leapyear (fst md))%Z
  && (yday leapyear (fst md) (snd md) =? doy)%Z.

Definition yday_table_ok : bool :=
  forallb (fun leap => forallb (fun doy => yday_check leap doy) (zrange 0 365))
          [true; false].

(** The phrases of _parse_text_representation, by what they stand for. *)
Inductive text_phrase : Type :=
| Ttoday | Ttomorrow | Tnext_week | Tnext_month | Tnext_year
| Tweekday (i : Z).

Section TextPhrases.
Context {P : Platform}.

(** The keys of the [formats] dictionary of _parse_text_representation,
    in the order in which they are assigned. *)
Definition text_table : list (string * text_phrase) :=
  [ ("today", Ttoday); (Str.lower (gettext "today"), Ttoday);
    ("tomorrow", Ttomorrow); (Str.lower (gettext "tomorrow"), Ttomorrow);
    ("next week", Tnext_week); (Str.lower (gettext "next week"), Tnext_week);
    ("next month", Tnext_month);
    (Str.lower (gettext "next month"), Tnext_month);
    ("next year", Tnext_year); (Str.lower (gettext "next year"), Tnext_year) ]
  ++ flat_map
       (fun ie : Z * string =>
          [ (Str.lower (snd ie), Tweekday (fst ie));
            (Str.lower (gettext (snd ie)), Tweekday (fst ie)) ])
       WEEKDAYS.

Definition text_kind (s : string) : option text_phrase :=
  dict_get String.eqb s text_table.
End TextPhrases.

Definition text_offset (today : date) (p : text_phrase) : Z :=
  match p with
  | Ttoday => 0
  | Ttomorrow => 1
  | Tnext_week => 7
  | Tnext_month => at_index mdays (month today)
  | Tnext_year => 365 + b2z (isleap (year today))
  | Tweekday i => i - weekday today + 7 * b2z (i <=? weekday today)
  end%Z.

(** A Date that does not hold the Now sentinel and that __str__ renders. *)
Definition renders (d : Date) : Prop :=
  dt_value d <> PInt NOW /\ exists text : string, __str__ d = Ok text.

(** A computation whose results, when it has one, are dates of date
    accuracy. *)
Definition yields_dates (m : M Date) : Prop :=
  forall (c : clock) (t : nat) (res : Date),
    run m c t = Ok res -> exists d : date, res = mkDate (PDate d).

(** The C locale on a host whose local time is at the offset [tz]. *)
Definition platform_at (tz : timezone) : Platform := {|
  date_fromisoformat := CLocale.iso_date_fromisoformat;
  datetime_fromisoformat := CLocale.iso_datetime_fromisoformat;
  strptime := CLocale.numeric_strptime;
  gettext := fun s => s;
  D_T_FMT := "%a %b %e %H:%M:%S %Y";
  D_FMT := "%m/%d/%y";
  LOCAL_TIMEZONE := tz
|}.

(** A clock that stands still. *)
Definition stopped (at_ : datetime) : clock := fun _ => at_.

(** * Properties *)

(** ** The calendar *)

Lemma divmod_unique (a b q r : Z) :
  (0 <= r < b -> a = b * q + r -> a / b = q /\ a mod b = r)%Z.
Proof.
  intros Hr Ha. split; symmetry.
  - apply (Z.div_unique a b q r); auto.
  - apply (Z.mod_unique a b q r); auto.
Qed.

Lemma zrange_In (lo len : nat) (x : Z) :
  (Z.of_nat lo <= x < Z.of_nat lo + Z.of_nat len)%Z -> In x (zrange lo len).
Proof.
  intros H. unfold zrange. apply in_map_iff. exists (Z.to_nat x). split.
  - lia.
  - apply in_seq. lia.
Qed.

Section CalendarFacts.
Open Scope Z_scope.

Variables a b c e : Z.
Hypothesis Hb : 0 <= b <= 3.
Hypothesis Hc : 0 <= c <= 24.
Hypothesis He : 0 <= e <= 3.

Let y := 400 * a + 100 * b + 4 * c + e + 1.
Let base := 146097 * a + 36524 * b + 1461 * c + 365 * e.

Lemma days_before_year_split : days_before_year y = base.
Proof.
  unfold days_before_year, y, base. cbv zeta.
  replace (400 * a + 100 * b + 4 * c + e + 1 - 1)
    with (400 * a + 100 * b + 4 * c + e) by lia.
  destruct (divmod_unique (400 * a + 100 * b + 4 * c + e) 4
              (100 * a + 25 * b + c) e) as [-> _]; try lia.
  destruct (divmod_unique (400 * a + 100 * b + 4 * c + e) 100
              (4 * a + b) (4 * c + e)) as [-> _]; try lia.
  destruct (divmod_unique (400 * a + 100 * b + 4 * c + e) 400
              a (100 * b + 4 * c + e)) as [-> _]; lia.
Qed.

Lemma isleap_split :
  isleap y = (e =? 3) && (negb (c =? 24) || (b =? 3)).
Proof.
  unfold isleap.
  assert (H4 : y mod 4 = 0 <-> e = 3).
  { unfold y. Z.div_mod_to_equations. lia. }
  assert (H100 : y mod 100 = 0 <-> e = 3 /\ c = 24).
  { unfold y. Z.div_mod_to_equations. lia. }
  assert (H400 : y mod 400 = 0 <-> e = 3 /\ c = 24 /\ b = 3).
  { unfold y. Z.div_mod_to_equations. lia. }
  destruct (Z.eqb_spec (y mod 4) 0) as [E4 | E4];
    destruct (Z.eqb_spec e 3) as [E | E]; cbn [andb];
    try reflexivity; try (exfalso; tauto).
  destruct (Z.eqb_spec (y mod 100) 0) as [E100 | E100];
    destruct (Z.eqb_spec c 24) as [C | C]; cbn [negb orb];
    try reflexivity; try (exfalso; tauto).
  destruct (Z.eqb_spec (y mod 400) 0) as [E400 | E400];
    destruct (Z.eqb_spec b 3) as [B | B];
    try reflexivity; exfalso; tauto.
Qed.

Lemma ord2ymd_split (doy : Z) :
  0 <= doy <= 364 ->
  ord2ymd (base + doy + 1)
  = (y, fst (month_day (isleap y) doy), snd (month_day (isleap y) doy)).
Proof.
  intros Hd. rewrite isleap_split.
  unfold ord2ymd, DI400Y, DI100Y, DI4Y, base, y. cbv zeta.
  replace (146097 * a + 36524 * b + 1461 * c + 365 * e + doy + 1 - 1)
    with (146097 * a + 36524 * b + 1461 * c + 365 * e + doy) by lia.
  destruct (divmod_unique
              (146097 * a + 36524 * b + 1461 * c + 365 * e + doy)
              146097 a (36524 * b + 1461 * c + 365 * e + doy))
    as [-> ->]; try lia.
  destruct (divmod_unique (36524 * b + 1461 * c + 365 * e + doy)
              36524 b (1461 * c + 365 * e + doy)) as [-> ->]; try lia.
  destruct (divmod_unique (1461 * c + 365 * e + doy)
              1461 c (365 * e + doy)) as [-> ->]; try lia.
  destruct (divmod_unique (365 * e + doy) 365 e doy) as [-> ->]; try lia.
  replace (e =? 4) with false by (symmetry; apply Z.eqb_neq; lia).
  replace (b =? 4) with false by (symmetry; apply Z.eqb_neq; lia).
  cbn [orb]. unfold month_day. cbv zeta.
  replace (a * 400 + 1 + (b * 100 + c * 4 + e))
    with (400 * a + 100 * b + 4 * c + e + 1) by lia.
  destruct (_ <? _); reflexivity.
Qed.

(** The last day of a leap year takes the special branch. *)
Lemma ord2ymd_split_leap :
  isleap y = true -> ord2ymd (base + 365 + 1) = (y, 12, 31).
Proof.
  rewrite isleap_split. intros Hl.
  apply andb_prop in Hl. destruct Hl as [E Hl]. apply Z.eqb_eq in E.
  unfold ord2ymd, DI400Y, DI100Y, DI4Y, base, y. cbv zeta. rewrite E.
  replace (146097 * a + 36524 * b + 1461 * c + 365 * 3 + 365 + 1 - 1)
    with (146097 * a + 36524 * b + 1461 * c + 1460) by lia.
  destruct (Z.eqb_spec c 24) as [C | C].
  - cbn [negb orb] in Hl. apply Z.eqb_eq in Hl. rewrite C, Hl.
    destruct (divmod_unique (146097 * a + 36524 * 3 + 1461 * 24 + 1460)
                146097 a 146096) as [-> ->]; try lia.
    replace (146096 / 36524) with 4 by reflexivity.
    replace (146096 mod 36524) with 0 by reflexivity.
    replace (4 =? 4) with true by reflexivity. rewrite orb_true_r.
    replace (0 mod 1461) with 0 by reflexivity.
    replace (0 / 1461) with 0 by reflexivity.
    replace (0 / 365) with 0 by reflexivity.
    f_equal. f_equal. lia.
  - destruct (divmod_unique (146097 * a + 36524 * b + 1461 * c + 1460)
                146097 a (36524 * b + 1461 * c + 1460)) as [-> ->];
      try lia.
    destruct (divmod_unique (36524 * b + 1461 * c + 1460)
                36524 b (1461 * c + 1460)) as [-> ->]; try lia.
    destruct (divmod_unique (1461 * c + 1460) 1461 c 1460) as [-> ->];
      try lia.
    replace (1460 / 365) with 4 by reflexivity.
    replace (4 =? 4) with true by reflexivity. cbn [orb].
    f_equal. f_equal. lia.
Qed.

End CalendarFacts.

Lemma year_split (y : Z) :
  exists a b c e : Z,
    (y = 400 * a + 100 * b + 4 * c + e + 1
     /\ 0 <= b <= 3 /\ 0 <= c <= 24 /\ 0 <= e <= 3)%Z.
Proof.
  exists ((y - 1) / 400)%Z, (((y - 1) mod 400) / 100)%Z,
    ((((y - 1) mod 400) mod 100) / 4)%Z, ((((y - 1) mod 400) mod 100) mod 4)%Z.
  Z.div_mod_to_equations. lia.
Qed.

(** Case analysis on a month number known to lie in 1..12. *)
Ltac month_cases m :=
  let H := fresh "Hmonth" in
  assert (H : (m = 1 \/ m = 2 \/ m = 3 \/ m = 4 \/ m = 5 \/ m = 6 \/ m = 7
               \/ m = 8 \/ m = 9 \/ m = 10 \/ m = 11 \/ m = 12)%Z) by lia;
  decompose [or] H; clear H; subst m.

Lemma month_length_bounds (leap : bool) (m : Z) :
  (1 <= m <= 12 -> 28 <= month_length leap m <= 31)%Z.
Proof.
  intros Hm. destruct leap; month_cases m; split; apply Z.leb_le; reflexivity.
Qed.

Lemma yday_nonneg (leap : bool) (m dd : Z) :
  (1 <= m <= 12 -> 1 <= dd -> 0 <= yday leap m dd)%Z.
Proof.
  intros Hm Hd.
  assert (E : (yday leap m dd = yday leap m 1 + (dd - 1))%Z)
    by (unfold yday; lia).
  assert (0 <= yday leap m 1)%Z
    by (destruct leap; month_cases m; apply Z.leb_le; reflexivity).
  lia.
Qed.

Lemma month_day_table : month_day_table_ok = true.
Proof. vm_compute. reflexivity. Qed.

Lemma month_day_yday (leap : bool) (m dd : Z) :
  (1 <= m <= 12 -> 1 <= dd <= month_length leap m ->
   (yday leap m dd <= 364
    /\ month_day leap (yday leap m dd) = (m, dd))
   \/ (leap = true /\ m = 12 /\ dd = 31 /\ yday leap m dd = 365))%Z.
Proof.
  intros Hm Hd.
  assert (Hdd : (dd <= 31)%Z).
  { pose proof (month_length_bounds leap m Hm). lia. }
  pose proof month_day_table as T. unfold month_day_table_ok in T.
  rewrite forallb_forall in T.
  assert (Hl : In leap [true; false]) by (destruct leap; simpl; auto).
  specialize (T leap Hl). rewrite forallb_forall in T.
  specialize (T m (zrange_In 1 12 m ltac:(lia))). rewrite forallb_forall in T.
  specialize (T dd (zrange_In 1 31 dd ltac:(lia))).
  unfold month_day_check in T.
  replace (dd <=? month_length leap m)%Z with true in T
    by (symmetry; apply Z.leb_le; lia).
  cbn [implb] in T.
  destruct (Z.leb_spec (yday leap m dd) 364) as [L | L].
  - left. split; [exact L|].
    apply andb_prop in T. destruct T as [T1 T2].
    apply Z.eqb_eq in T1, T2.
    destruct (month_day leap (yday leap m dd)) as [m' d']. cbn in T1, T2.
    congruence.
  - right.
    repeat (apply andb_prop in T; destruct T as [T ?]).
    repeat match goal with
           | H : (_ =? _)%Z = true |- _ => apply Z.eqb_eq in H
           end.
    auto.
Qed.

Lemma valid_date_bounds (d : date) :
  valid_date d = true ->
  (1 <= year d <= 9999 /\ 1 <= month d <= 12
   /\ 1 <= day d <= month_length (isleap (year d)) (month d))%Z.
Proof.
  unfold valid_date, MINYEAR, MAXYEAR, days_in_month, month_length. intros H.
  repeat (apply andb_prop in H; destruct H as [H ?]).
  repeat match goal with H : (_ <=? _)%Z = true |- _ => apply Z.leb_le in H end.
  lia.
Qed.

Lemma toordinal_split (d : date) :
  toordinal d
  = (days_before_year (year d)
     + yday (isleap (year d)) (month d) (day d) + 1)%Z.
Proof. unfold toordinal, ymd2ord, days_before_month, yday. lia. Qed.

(** Every valid date is the date of its own ordinal. *)
Lemma fromordinal_toordinal (d : date) :
  valid_date d = true -> fromordinal (toordinal d) = d.
Proof.
  intros V. destruct (valid_date_bounds d V) as (Hy & Hm & Hd).
  rewrite toordinal_split. destruct d as [y m dd]. cbn [year month day] in *.
  destruct (year_split y) as (a & b & c & e & Ey & Hb & Hc & He).
  unfold fromordinal.
  destruct (month_day_yday (isleap y) m dd Hm Hd)
    as [[L E] | (Hl & -> & -> & E)].
  - assert (0 <= yday (isleap y) m dd)%Z by (apply yday_nonneg; lia).
    rewrite Ey at 1. rewrite days_before_year_split by assumption.
    rewrite ord2ymd_split by (try assumption; lia).
    rewrite <- Ey, E. reflexivity.
  - rewrite E. rewrite Ey at 1. rewrite days_before_year_split by assumption.
    rewrite ord2ymd_split_leap by (try assumption; rewrite <- Ey; assumption).
    rewrite <- Ey. reflexivity.
Qed.

(** The ordinal of a valid date lies in the range of the datetime module. *)
Lemma toordinal_range (d : date) :
  valid_date d = true -> (1 <= toordinal d <= MAXORDINAL)%Z.
Proof.
  intros V. destruct (valid_date_bounds d V) as (Hy & Hm & Hd).
  rewrite toordinal_split. destruct d as [y m dd]. cbn [year month day] in *.
  destruct (year_split y) as (a & b & c & e & Ey & Hb & Hc & He).
  pose proof (isleap_split a b c e Hb Hc He) as Hleap. rewrite <- Ey in Hleap.
  pose proof (days_before_year_split a b c e Hb Hc He) as Hdby.
  rewrite <- Ey in Hdby. rewrite Hdby. unfold MAXORDINAL.
  assert (0 <= yday (isleap y) m dd)%Z by (apply yday_nonneg; lia).
  destruct (month_day_yday (isleap y) m dd Hm Hd)
    as [[L E] | (Hl & -> & -> & E)].
  - lia.
  - rewrite E. rewrite Hl in Hleap. symmetry in Hleap.
    apply andb_prop in Hleap. destruct Hleap as [E3 _].
    apply Z.eqb_eq in E3. lia.
Qed.

(** ** Small facts about the model *)

Lemma accuracy_eqb_refl (a : Accuracy.t) : Accuracy.eqb a a = true.
Proof. destruct a; reflexivity. Qed.

Lemma accuracy_eqb_eq (a b : Accuracy.t) : Accuracy.eqb a b = true <-> a = b.
Proof. destruct a, b; simpl; split; intros H; congruence. Qed.

Lemma accuracy_eqb_neq (a b : Accuracy.t) : a <> b -> Accuracy.eqb a b = false.
Proof.
  intros H. destruct (Accuracy.eqb a b) eqn:E; [|reflexivity].
  apply accuracy_eqb_eq in E. contradiction.
Qed.

Lemma datetime_add_tzinfo (dt r : datetime) (td : timedelta) :
  datetime_add dt td = Ok r -> tzinfo r = tzinfo dt.
Proof.
  unfold datetime_add.
  generalize (timedelta_of_us (datetime_to_us dt + timedelta_to_us td)).
  intros delta.
  match goal with |- context [if ?b then _ else _] => destruct b end;
    intros H; [|discriminate H].
  apply (f_equal (fun x => match x with
                           | Ok y => tzinfo y
                           | Raise _ => tzinfo dt
                           end)) in H.
  symmetry. exact H.
Qed.

(** Whole days added to a datetime with a valid time of day move its
    date by that many days and leave the time of day and the offset as
    they are. *)
Lemma datetime_add_whole_days (dt : datetime) (k : Z) :
  valid_time (hour dt) (minute dt) (second dt) (microsecond dt) = true ->
  (1 <= toordinal (dt_date dt) + k <= MAXORDINAL)%Z ->
  datetime_add dt (timedelta_days k)
  = Ok (mkdatetime (fromordinal (toordinal (dt_date dt) + k))
                   (hour dt) (minute dt) (second dt) (microsecond dt)
                   (tzinfo dt)).
Proof.
  intros Vt Hrange. unfold valid_time in Vt.
  repeat (apply andb_prop in Vt; destruct Vt as [Vt ?]).
  repeat match goal with
         | H : (_ <=? _)%Z = true |- _ => apply Z.leb_le in H
         end.
  unfold datetime_add, timedelta_of_us, datetime_to_us, timedelta_to_us,
    timedelta_days.
  change US_PER_DAY with 86400000000%Z. change US_PER_SECOND with 1000000%Z.
  cbn [td_days td_seconds td_microseconds]. cbv zeta.
  generalize dependent (toordinal (dt_date dt)). intros o Hrange.
  set (sec := (hour dt * 3600 + minute dt * 60 + second dt)%Z).
  set (total := (((o * 86400 + hour dt * 3600 + minute dt * 60 + second dt)
                  * 1000000 + microsecond dt
                  + ((k * 86400 + 0) * 1000000 + 0))%Z)).
  destruct (divmod_unique total 86400000000 (o + k)
              (sec * 1000000 + microsecond dt)) as [Hq Hr];
    [unfold sec; lia | unfold total, sec; lia |].
  destruct (divmod_unique total 1000000 ((o + k) * 86400 + sec)
              (microsecond dt)) as [_ Hus];
    [lia | unfold total, sec; lia |].
  destruct (divmod_unique (sec * 1000000 + microsecond dt) 1000000 sec
              (microsecond dt)) as [Hs _]; [lia | lia |].
  destruct (divmod_unique sec 3600 (hour dt) (minute dt * 60 + second dt))
    as [Hh Hrem]; [lia | unfold sec; lia |].
  destruct (divmod_unique (minute dt * 60 + second dt) 60 (minute dt)
              (second dt)) as [Hmi Hse]; [lia | lia |].
  rewrite Hq, Hr, Hus, Hs, Hh, Hrem, Hmi, Hse.
  replace ((0 <? o + k)%Z && (o + k <=? MAXORDINAL)%Z) with true
    by (symmetry; apply andb_true_intro;
        split; [apply Z.ltb_lt | apply Z.leb_le]; lia).
  reflexivity.
Qed.

Lemma date_compare_refl (d : date) : date_compare d d = Eq.
Proof. unfold date_compare. now rewrite !Z.compare_refl. Qed.

Lemma fields_compare_refl (dt : datetime) : fields_compare dt dt = Eq.
Proof.
  unfold fields_compare. now rewrite date_compare_refl, !Z.compare_refl.
Qed.

Lemma opt_z_eqb_refl (o : option Z) : opt_z_eqb o o = true.
Proof. destruct o; simpl; [apply Z.eqb_refl | reflexivity]. Qed.

(** == is reflexive on every raw value. *)
Lemma py_eq_refl (v : pyval) : py_eq v v = true.
Proof.
  destruct v as [n | d | dt | td]; simpl.
  - apply Z.eqb_refl.
  - unfold date_eqb. now rewrite date_compare_refl.
  - unfold datetime_compare.
    now rewrite opt_z_eqb_refl, fields_compare_refl.
  - unfold timedelta_eqb. now rewrite !Z.eqb_refl.
Qed.

Section Claims.
Context {P : Platform}.

(** C6: every comparison of a Date with a bare timedelta raises
    (ValueError), whereas for + and - the normalization hands back the
    stored value of the Date and the duration as they are, and the
    operator is applied to that pair directly. *)
Theorem timedelta_operand (self : Date) (td : timedelta)
        (c : clock) (t : nat) :
  __lt__ self (OTimedelta td) c t = (Raise ValueError, t)
  /\ __le__ self (OTimedelta td) c t = (Raise ValueError, t)
  /\ __eq__ self (OTimedelta td) c t = (Raise ValueError, t)
  /\ __ne__ self (OTimedelta td) c t = (Raise ValueError, t)
  /\ __gt__ self (OTimedelta td) c t = (Raise ValueError, t)
  /\ __ge__ self (OTimedelta td) c t = (Raise ValueError, t)
  /\ _cast_for_operation self (OTimedelta td) false c t
     = (Ok (dt_value self, PTimedelta td), t)
  /\ __add__ self (OTimedelta td) c t
     = (py_add (dt_value self) (PTimedelta td), t)
  /\ __sub__ self (OTimedelta td) c t
     = (py_sub (dt_value self) (PTimedelta td), t)
  /\ __radd__ self (OTimedelta td) c t
     = (py_add (dt_value self) (PTimedelta td), t)
  /\ __rsub__ self (OTimedelta td) c t
     = (py_sub (dt_value self) (PTimedelta td), t).
Proof. repeat split; reflexivity. Qed.

(** What dt_by_accuracy returns has the accuracy that was asked for. *)
Lemma dt_by_accuracy_delivers (self : Date) (acc : Accuracy.t)
      (c : clock) (t t' : nat) (v : pyval) :
  dt_by_accuracy self acc c t = (Ok v, t') -> accuracy (mkDate v) = acc.
Proof.
  unfold dt_by_accuracy.
  destruct (Accuracy.eqb acc (accuracy self)) eqn:Esame.
  { apply accuracy_eqb_eq in Esame. unfold ret. intros H.
    assert (v = dt_value self) by congruence. subst v.
    destruct self as [x]. cbn [dt_value]. now symmetry. }
  destruct (Accuracy.eqb (accuracy self) Accuracy.fuzzy) eqn:Efuzzy.
  - unfold bind at 1. unfold datetime_now.
    unfold bind at 1. unfold lift at 1.
    destruct (subscript delta_days (dt_value self)) as [days | e];
      [|discriminate].
    unfold bind at 1. unfold lift at 1.
    destruct (datetime_add (replace_tzinfo (c t) None) (timedelta_days days))
      as [later | e] eqn:E; [|discriminate].
    apply datetime_add_tzinfo in E. cbn [replace_tzinfo tzinfo] in E.
    unfold __init__, bind, ret, lift, accuracy. cbn [dt_value]. rewrite E.
    destruct acc; cbn [Accuracy.eqb]; unfold _dt_by_accuracy;
      cbn [Accuracy.eqb negb datetime_date];
      intros H;
      try discriminate H;
      apply (f_equal (fun x => match fst x with
                               | Ok y => y
                               | Raise _ => PInt 0
                               end)) in H;
      cbn [fst] in H; subst v; cbn [replace_tzinfo tzinfo];
      try rewrite E; reflexivity.
  - unfold lift. intros H.
    assert (Hv : _dt_by_accuracy (dt_value self) (accuracy self) acc = Ok v)
      by congruence.
    clear H. revert Hv. unfold _dt_by_accuracy, accuracy in *.
    destruct self as [[n | d | dt | td]]; cbn [dt_value] in *;
      try discriminate Efuzzy.
    + destruct acc; cbn [Accuracy.eqb negb date_fields rbind];
        try discriminate; unfold datetime_new;
        match goal with
        | |- context [if ?b then _ else _] => destruct b
        end; cbn [rbind]; intros H; try discriminate H;
        apply (f_equal (fun x => match x with
                                 | Ok y => y
                                 | Raise _ => PInt 0
                                 end)) in H;
        subst v; reflexivity.
    + destruct (tzinfo dt) as [z |] eqn:Ez;
        destruct acc; cbn [Accuracy.eqb negb] in *;
        try discriminate; intros H.
      * apply (f_equal (fun x => match x with
                                 | Ok y => y
                                 | Raise _ => PInt 0
                                 end)) in H.
        subst v. reflexivity.
      * destruct (astimezone LOCAL_TIMEZONE dt LOCAL_TIMEZONE) as [r | e];
          cbn [rbind] in H; [|discriminate H].
        apply (f_equal (fun x => match x with
                                 | Ok y => y
                                 | Raise _ => PInt 0
                                 end)) in H.
        subst v. reflexivity.
      * apply (f_equal (fun x => match x with
                                 | Ok y => y
                                 | Raise _ => PInt 0
                                 end)) in H.
        subst v. reflexivity.
      * apply (f_equal (fun x => match x with
                                 | Ok y => y
                                 | Raise _ => PInt 0
                                 end)) in H.
        subst v. reflexivity.
Qed.

(** C1: for two Date operands, equal accuracies give back the two stored
    values untouched; otherwise both operands are cast to the first
    accuracy of the list date, datetime, timezone that one of them has,
    and the two values handed back have that accuracy.  A date against a
    datetime, naive or aware, is the date against the calendar date of the
    datetime; a naive datetime against an aware one is the naive datetime
    against the aware one moved to local time, its timezone dropped.
    A date-accuracy Date against a timezone-accuracy Date therefore never
    raises, under any of the six comparisons, and is compared with the
    calendar date of the timezone-accuracy side. *)
Theorem cast_for_operation_accuracy (self other : Date)
        (is_comparison : bool) (c : clock) (t : nat) :
  (accuracy self = accuracy other ->
   _cast_for_operation self (OGtgDate other) is_comparison c t
   = (Ok (dt_value self, dt_value other), t))
  /\ (accuracy self <> accuracy other ->
      exists (acc : Accuracy.t) (before after : list Accuracy.t),
        [Accuracy.date; Accuracy.datetime; Accuracy.timezone]
        = (before ++ acc :: after)%list
        /\ (acc = accuracy self \/ acc = accuracy other)
        /\ (forall x, In x before ->
                      x <> accuracy self /\ x <> accuracy other)
        /\ _cast_for_operation self (OGtgDate other) is_comparison c t
           = (a <- dt_by_accuracy self acc ;;
              b <- dt_by_accuracy other acc ;;
              ret (a, b)) c t
        /\ (forall (a b : pyval) (t' : nat),
               _cast_for_operation self (OGtgDate other) is_comparison c t
               = (Ok (a, b), t') ->
               accuracy (mkDate a) = acc /\ accuracy (mkDate b) = acc))
  /\ (forall (d : date) (dt : datetime) (z : timezone),
        tzinfo dt = Some z ->
        (dt_value self = PDate d -> dt_value other = PDatetime dt ->
         _cast_for_operation self (OGtgDate other) true c t
         = (Ok (PDate d, PDate (dt_date dt)), t)
         /\ __eq__ self (OGtgDate other) c t
            = (Ok (date_eqb d (dt_date dt)), t)
         /\ __ne__ self (OGtgDate other) c t
            = (Ok (negb (date_eqb d (dt_date dt))), t)
         /\ __lt__ self (OGtgDate other) c t
            = (Ok (is_lt (date_compare d (dt_date dt))), t)
         /\ __le__ self (OGtgDate other) c t
            = (Ok (is_le (date_compare d (dt_date dt))), t)
         /\ __gt__ self (OGtgDate other) c t
            = (Ok (is_gt (date_compare d (dt_date dt))), t)
         /\ __ge__ self (OGtgDate other) c t
            = (Ok (is_ge (date_compare d (dt_date dt))), t))
        /\ (dt_value self = PDatetime dt -> dt_value other = PDate d ->
            _cast_for_operation self (OGtgDate other) true c t
            = (Ok (PDate (dt_date dt), PDate d), t)
            /\ __eq__ self (OGtgDate other) c t
               = (Ok (date_eqb (dt_date dt) d), t)
            /\ __ne__ self (OGtgDate other) c t
               = (Ok (negb (date_eqb (dt_date dt) d)), t)
            /\ __lt__ self (OGtgDate other) c t
               = (Ok (is_lt (date_compare (dt_date dt) d)), t)
            /\ __le__ self (OGtgDate other) c t
               = (Ok (is_le (date_compare (dt_date dt) d)), t)
            /\ __gt__ self (OGtgDate other) c t
               = (Ok (is_gt (date_compare (dt_date dt) d)), t)
            /\ __ge__ self (OGtgDate other) c t
               = (Ok (is_ge (date_compare (dt_date dt) d)), t)))
  /\ (forall (d : date) (dt : datetime),
        (dt_value self = PDate d -> dt_value other = PDatetime dt ->
         _cast_for_operation self (OGtgDate other) is_comparison c t
         = (Ok (PDate d, PDate (dt_date dt)), t))
        /\ (dt_value self = PDatetime dt -> dt_value other = PDate d ->
            _cast_for_operation self (OGtgDate other) is_comparison c t
            = (Ok (PDate (dt_date dt), PDate d), t)))
  /\ (forall (naive aware : datetime) (z : timezone),
        tzinfo naive = None -> tzinfo aware = Some z ->
        (dt_value self = PDatetime naive ->
         dt_value other = PDatetime aware ->
         _cast_for_operation self (OGtgDate other) is_comparison c t
         = (rbind (astimezone LOCAL_TIMEZONE aware LOCAL_TIMEZONE)
                  (fun r => Ok (PDatetime naive,
                                PDatetime (replace_tzinfo r None))), t))
        /\ (dt_value self = PDatetime aware ->
            dt_value other = PDatetime naive ->
            _cast_for_operation self (OGtgDate other) is_comparison c t
            = (rbind (astimezone LOCAL_TIMEZONE aware LOCAL_TIMEZONE)
                     (fun r => Ok (PDatetime (replace_tzinfo r None),
                                   PDatetime naive)), t))).
Proof.
  split; [|split; [|split; [|split]]].
  - intros E. unfold _cast_for_operation, bind, ret.
    rewrite E, accuracy_eqb_refl. reflexivity.
  - intros N.
    assert (Hloop :
      _cast_for_operation self (OGtgDate other) is_comparison c t
      = cast_loop self other
          [Accuracy.date; Accuracy.datetime; Accuracy.timezone] c t).
    { unfold _cast_for_operation, bind, ret.
      now rewrite (accuracy_eqb_neq _ _ N). }
    rewrite Hloop. clear Hloop.
    assert (Hpair : forall (acc : Accuracy.t) (a b : pyval) (t' : nat),
               (a <- dt_by_accuracy self acc ;;
                b <- dt_by_accuracy other acc ;;
                ret (a, b)) c t = (Ok (a, b), t') ->
               accuracy (mkDate a) = acc /\ accuracy (mkDate b) = acc).
    { intros acc a b t'. unfold bind, ret.
      destruct (dt_by_accuracy self acc c t) as [[x | e] t1] eqn:E1;
        [|discriminate].
      destruct (dt_by_accuracy other acc c t1) as [[y | e] t2] eqn:E2;
        [|discriminate].
      intros H. assert (x = a /\ y = b) as [-> ->] by (split; congruence).
      split; eapply dt_by_accuracy_delivers; eassumption. }
    destruct (accuracy self) eqn:Hs, (accuracy other) eqn:Ho;
      try congruence;
      first
        [ exists Accuracy.date, [], [Accuracy.datetime; Accuracy.timezone];
          split; [reflexivity|]; split; [auto; fail|];
          split; [intros x []|];
          cbn [cast_loop]; rewrite Hs, Ho;
          split; [reflexivity | apply Hpair]
        | exists Accuracy.datetime, [Accuracy.date], [Accuracy.timezone];
          split; [reflexivity|]; split; [auto; fail|];
          split; [intros x [<- | []]; split; discriminate|];
          cbn [cast_loop]; rewrite Hs, Ho;
          split; [reflexivity | apply Hpair]
        | exists Accuracy.timezone, [Accuracy.date; Accuracy.datetime], [];
          split; [reflexivity|]; split; [auto; fail|];
          split; [intros x [<- | [<- | []]]; split; discriminate|];
          cbn [cast_loop]; rewrite Hs, Ho;
          split; [reflexivity | apply Hpair] ].
  - intros d dt z Hz.
    destruct self as [vs], other as [vo], dt as [dd h mi s us tz].
    cbn [dt_value tzinfo dt_date] in *. subst tz.
    split; intros -> ->; repeat split; reflexivity.
  - intros d dt.
    destruct self as [vs], other as [vo], dt as [dd h mi s us [z |]].
    + cbn [dt_value]. split; intros -> ->; reflexivity.
    + cbn [dt_value]. split; intros -> ->; reflexivity.
  - intros naive aware z Hn Ha.
    destruct self as [vs], other as [vo]. cbn [dt_value].
    split; intros -> ->;
      unfold _cast_for_operation, bind, ret, accuracy; cbn [dt_value];
      rewrite Hn, Ha; cbn [Accuracy.eqb cast_loop orb];
      unfold bind, ret, dt_by_accuracy, accuracy; cbn [dt_value];
      rewrite ?Hn, ?Ha; cbn [Accuracy.eqb];
      unfold lift, _dt_by_accuracy; cbn [Accuracy.eqb negb];
      destruct (astimezone LOCAL_TIMEZONE aware LOCAL_TIMEZONE);
      reflexivity.
Qed.

(** C5: casting a fuzzy Date to a concrete accuracy reads the clock
    once, adds 15 days for Soon, 365 for Someday and 9999 for NoDate, and
    casts the datetime so obtained to the accuracy that was asked for:
    its calendar date for date, the naive datetime itself for datetime,
    and the datetime with the local timezone attached for timezone.  The
    sum is the reading of the clock moved by that many days, the time of
    day unchanged; when the sum leaves the calendar its exception is what
    the cast raises. *)
Theorem fuzzy_cast_offsets (tag offset : Z) (wanted : Accuracy.t)
        (c : clock) (t : nat) :
  In (tag, offset) [(SOON, 15%Z); (SOMEDAY, 365%Z); (NODATE, 9999%Z)] ->
  wanted <> Accuracy.fuzzy ->
  dt_by_accuracy (mkDate (PInt tag)) wanted c t
  = (now <- datetime_now ;;
     later <- lift (datetime_add now (timedelta_days offset)) ;;
     dt_by_accuracy (mkDate (PDatetime later)) wanted) c t
  /\ (forall later : datetime,
         datetime_add (replace_tzinfo (c t) None) (timedelta_days offset)
         = Ok later ->
         tzinfo later = None
         /\ (wanted = Accuracy.date ->
             dt_by_accuracy (mkDate (PInt tag)) wanted c t
             = (Ok (PDate (dt_date later)), S t))
         /\ (wanted = Accuracy.datetime ->
             dt_by_accuracy (mkDate (PInt tag)) wanted c t
             = (Ok (PDatetime later), S t))
         /\ (wanted = Accuracy.timezone ->
             dt_by_accuracy (mkDate (PInt tag)) wanted c t
             = (Ok (PDatetime (replace_tzinfo later (Some LOCAL_TIMEZONE))),
                S t)))
  /\ (forall e : exn,
         datetime_add (replace_tzinfo (c t) None) (timedelta_days offset)
         = Raise e ->
         dt_by_accuracy (mkDate (PInt tag)) wanted c t = (Raise e, S t))
  /\ (valid_time (hour (c t)) (minute (c t)) (second (c t))
                 (microsecond (c t)) = true ->
      (1 <= toordinal (dt_date (c t)) + offset <= MAXORDINAL)%Z ->
      datetime_add (replace_tzinfo (c t) None) (timedelta_days offset)
      = Ok (mkdatetime (fromordinal (toordinal (dt_date (c t)) + offset))
                       (hour (c t)) (minute (c t)) (second (c t))
                       (microsecond (c t)) None)).
Proof.
  intros Hin Hw.
  assert (Hsub : subscript delta_days (PInt tag) = Ok offset).
  { destruct Hin as [E | [E | [E | []]]]; inversion E; reflexivity. }
  assert (Hrun :
    dt_by_accuracy (mkDate (PInt tag)) wanted c t
    = (rbind (datetime_add (replace_tzinfo (c t) None)
                           (timedelta_days offset))
             (fun later =>
                match wanted with
                | Accuracy.date => Ok (PDate (dt_date later))
                | Accuracy.timezone =>
                    Ok (PDatetime (replace_tzinfo later (Some LOCAL_TIMEZONE)))
                | _ => Ok (PDatetime later)
                end), S t)).
  { unfold dt_by_accuracy at 1. cbn [accuracy dt_value].
    rewrite (accuracy_eqb_neq _ _ Hw). cbn [Accuracy.eqb].
    unfold bind, lift, datetime_now. rewrite Hsub.
    destruct (datetime_add (replace_tzinfo (c t) None)
                           (timedelta_days offset))
      as [later | e] eqn:E; [|reflexivity].
    apply datetime_add_tzinfo in E. cbn [replace_tzinfo tzinfo] in E.
    unfold __init__, ret, accuracy. cbn [dt_value rbind]. rewrite E.
    destruct wanted; try congruence; reflexivity. }
  split; [|split; [|split]].
  - rewrite Hrun. unfold bind, lift, datetime_now.
    destruct (datetime_add (replace_tzinfo (c t) None)
                           (timedelta_days offset))
      as [later | e] eqn:E; [|reflexivity].
    apply datetime_add_tzinfo in E. cbn [replace_tzinfo tzinfo] in E.
    unfold dt_by_accuracy, accuracy. cbn [dt_value rbind]. rewrite E.
    destruct wanted; try congruence; reflexivity.
  - intros later E. rewrite Hrun, E. cbn [rbind].
    apply datetime_add_tzinfo in E. cbn [replace_tzinfo tzinfo] in E.
    split; [exact E|]. repeat split; intros ->; reflexivity.
  - intros e E. rewrite Hrun, E. reflexivity.
  - intros Vt Hrange.
    apply (datetime_add_whole_days (replace_tzinfo (c t) None) offset);
      [exact Vt | exact Hrange].
Qed.

(** C8: a date-accuracy value cast to datetime accuracy is midnight of
    that day, and casting that back to date accuracy gives the original
    date; a naive datetime cast to date accuracy and back comes out as
    midnight of its day, hence differs from the original as soon as its
    time of day is not midnight. *)
Theorem date_datetime_round_trip (c : clock) (t : nat) :
  (forall d : date,
      valid_date d = true ->
      dt_by_accuracy (mkDate (PDate d)) Accuracy.datetime c t
      = (Ok (PDatetime (midnight d)), t)
      /\ dt_by_accuracy (mkDate (PDatetime (midnight d))) Accuracy.date c t
         = (Ok (PDate d), t))
  /\ (forall dt : datetime,
         tzinfo dt = None ->
         valid_date (dt_date dt) = true ->
         dt_by_accuracy (mkDate (PDatetime dt)) Accuracy.date c t
         = (Ok (PDate (dt_date dt)), t)
         /\ dt_by_accuracy (mkDate (PDate (dt_date dt))) Accuracy.datetime c t
            = (Ok (PDatetime (midnight (dt_date dt))), t)
         /\ ((hour dt, minute dt, second dt, microsecond dt)
             <> (0, 0, 0, 0)%Z ->
             midnight (dt_date dt) <> dt)).
Proof.
  assert (To : forall d : date,
             valid_date d = true ->
             dt_by_accuracy (mkDate (PDate d)) Accuracy.datetime c t
             = (Ok (PDatetime (midnight d)), t)).
  { intros [y m dd] V. unfold dt_by_accuracy, lift, _dt_by_accuracy.
    cbn [accuracy dt_value Accuracy.eqb date_fields rbind year month day].
    unfold datetime_new. rewrite V. reflexivity. }
  split.
  - intros d V. split; [apply To, V | reflexivity].
  - intros [d h mi s us tz] Hz V. cbn [tzinfo dt_date] in *. subst tz.
    split; [reflexivity|]. split; [apply To, V|].
    cbn [hour minute second microsecond]. unfold midnight.
    intros N E. apply N. congruence.
Qed.

(** *** No AssertionError from the operators *)

Lemma no_assert_rbind {A B} (r : result A) (k : A -> result B) :
  no_assert r -> (forall a, no_assert (k a)) -> no_assert (rbind r k).
Proof.
  unfold no_assert. intros Hr Hk. destruct r as [a | e]; cbn; [apply Hk|].
  congruence.
Qed.

Lemma never_asserts_ret {A} (a : A) : never_asserts (ret a).
Proof. intros c t. cbn. discriminate. Qed.

Lemma never_asserts_lift {A} (r : result A) :
  no_assert r -> never_asserts (lift r).
Proof. intros H c t. exact H. Qed.

Lemma never_asserts_bind {A B} (m : M A) (k : A -> M B) :
  never_asserts m -> (forall a, never_asserts (k a)) ->
  never_asserts (bind m k).
Proof.
  intros Hm Hk c t. unfold bind. specialize (Hm c t).
  destruct (m c t) as [[a | e] t']; cbn in *; [apply Hk|].
  unfold no_assert in *. congruence.
Qed.

Lemma never_asserts_bind_ret {A B} (a : A) (k : A -> M B) :
  never_asserts (k a) -> never_asserts (bind (ret a) k).
Proof. intros H c t. exact (H c t). Qed.

Lemma no_assert_datetime_add (dt : datetime) (td : timedelta) :
  no_assert (datetime_add dt td).
Proof.
  unfold datetime_add, no_assert.
  generalize (timedelta_of_us (datetime_to_us dt + timedelta_to_us td)).
  intros delta.
  match goal with |- context [if ?b then _ else _] => destruct b end;
    discriminate.
Qed.

Lemma no_assert_date_add (d : date) (td : timedelta) :
  no_assert (date_add d td).
Proof.
  unfold date_add, no_assert.
  generalize (toordinal d + td_days td)%Z. intros o.
  match goal with |- context [if ?b then _ else _] => destruct b end;
    discriminate.
Qed.

Lemma no_assert_datetime_new (y m d h mi s us : Z) (tz : option timezone) :
  no_assert (datetime_new y m d h mi s us tz).
Proof.
  unfold datetime_new, no_assert.
  match goal with |- context [if ?b then _ else _] => destruct b end;
    discriminate.
Qed.

Lemma no_assert_astimezone (l : timezone) (dt : datetime) (tz : timezone) :
  no_assert (astimezone l dt tz).
Proof.
  unfold astimezone.
  apply no_assert_rbind; [apply no_assert_datetime_add|]. intros utc.
  apply no_assert_rbind; [apply no_assert_datetime_add|]. intros loc.
  discriminate.
Qed.

Lemma no_assert_py_order (test : comparison -> bool) (a b : pyval) :
  no_assert (py_order test a b).
Proof.
  unfold no_assert.
  destruct a, b; cbn; try discriminate.
  destruct (datetime_compare dt dt0); discriminate.
Qed.

Lemma no_assert_py_add (a b : pyval) : no_assert (py_add a b).
Proof.
  destruct a, b; cbn [py_add]; try discriminate;
    (apply no_assert_rbind;
     [first [apply no_assert_date_add | apply no_assert_datetime_add]
     | intros; discriminate]).
Qed.

Lemma no_assert_py_sub (a b : pyval) : no_assert (py_sub a b).
Proof.
  destruct a, b; cbn [py_sub]; try discriminate;
    apply no_assert_rbind; try (intros; discriminate).
  - apply no_assert_date_add.
  - unfold datetime_sub.
    destruct (offset_of dt), (offset_of dt0); discriminate.
  - apply no_assert_datetime_add.
Qed.

Lemma never_asserts_raise {A} (e : exn) :
  e <> AssertionError -> never_asserts (@raise A e).
Proof. intros H c t. cbn. unfold no_assert. congruence. Qed.

Lemma never_asserts_now : never_asserts datetime_now.
Proof. intros c t. cbn. discriminate. Qed.

Lemma never_asserts_parse_dt_str (s : string) :
  never_asserts (__parse_dt_str s).
Proof.
  unfold __parse_dt_str.
  destruct (date_fromisoformat s); [apply never_asserts_ret|].
  destruct (datetime_fromisoformat s); [apply never_asserts_ret|].
  destruct (parse_with_formats s DATE_FORMATS); [apply never_asserts_ret|].
  destruct (String.eqb s "now" || String.eqb s (Str.lower (gettext "now")));
    [|apply never_asserts_ret].
  apply never_asserts_bind; [apply never_asserts_now|].
  intros now. apply never_asserts_ret.
Qed.

Lemma never_asserts_init (value : pyobj) : never_asserts (__init__ value).
Proof.
  assert (Hfinish : forall v : option pyval,
             never_asserts
               (match v with
                | Some x => ret (mkDate x)
                | None => raise ValueError
                end)).
  { intros [x|]; [apply never_asserts_ret|].
    apply never_asserts_raise. discriminate. }
  unfold __init__.
  destruct value as [| s | n | d | dt | td | d]; cbv beta zeta;
    try apply never_asserts_ret;
    try (apply never_asserts_raise; discriminate).
  - destruct (String.eqb s "None" || String.eqb s "");
      [apply never_asserts_ret|].
    apply never_asserts_bind; [apply never_asserts_parse_dt_str|].
    apply Hfinish.
  - destruct (n =? 0)%Z; [|apply Hfinish].
    apply never_asserts_bind; [apply never_asserts_now|].
    intros now. apply never_asserts_ret.
Qed.

(** Between two distinct concrete accuracies the low-level caster takes
    none of its assertion branches. *)
Lemma no_assert_dt_by_accuracy_concrete (self : Date) (wanted : Accuracy.t) :
  accuracy self <> Accuracy.fuzzy ->
  wanted <> Accuracy.fuzzy ->
  wanted <> accuracy self ->
  no_assert (_dt_by_accuracy (dt_value self) (accuracy self) wanted).
Proof.
  destruct self as [[n | d | dt | td]]; unfold accuracy; cbn [dt_value];
    try congruence.
  - intros _ Hw Hn. destruct wanted; try congruence;
      unfold _dt_by_accuracy; cbn [Accuracy.eqb negb date_fields rbind];
      (apply no_assert_rbind; [apply no_assert_datetime_new|]);
      intros; discriminate.
  - destruct (tzinfo dt) as [z|]; intros _ Hw Hn;
      destruct wanted; try congruence;
      unfold _dt_by_accuracy; cbn [Accuracy.eqb negb];
      try discriminate.
    apply no_assert_rbind; [apply no_assert_astimezone|].
    intros; discriminate.
Qed.

Lemma never_asserts_dt_by_accuracy (self : Date) (wanted : Accuracy.t) :
  wanted <> Accuracy.fuzzy -> never_asserts (dt_by_accuracy self wanted).
Proof.
  intros Hw. unfold dt_by_accuracy.
  destruct (Accuracy.eqb wanted (accuracy self)) eqn:Ew;
    [apply never_asserts_ret|].
  assert (Hn : wanted <> accuracy self).
  { intros E. rewrite E, accuracy_eqb_refl in Ew. discriminate. }
  destruct (Accuracy.eqb (accuracy self) Accuracy.fuzzy) eqn:Ef.
  - apply never_asserts_bind; [apply never_asserts_now|]. intros now.
    apply never_asserts_bind.
    { apply never_asserts_lift. unfold subscript, no_assert.
      destruct (dt_value self); try discriminate.
      destruct (dict_get Z.eqb n delta_days); discriminate. }
    intros days. apply never_asserts_bind.
    { apply never_asserts_lift, no_assert_datetime_add. }
    intros later.
    apply (never_asserts_bind_ret (mkDate (PDatetime later))).
    destruct (Accuracy.eqb (accuracy (mkDate (PDatetime later))) wanted)
      eqn:Eg; [apply never_asserts_ret|].
    apply never_asserts_lift, no_assert_dt_by_accuracy_concrete; auto.
    * unfold accuracy. cbn [dt_value]. destruct (tzinfo later); discriminate.
    * intros E. rewrite E, accuracy_eqb_refl in Eg. discriminate.
  - apply never_asserts_lift, no_assert_dt_by_accuracy_concrete; auto.
    intros E. rewrite E in Ef. discriminate.
Qed.

Lemma never_asserts_cast_loop (self other : Date) :
  accuracy self <> accuracy other ->
  never_asserts
    (cast_loop self other
       [Accuracy.date; Accuracy.datetime; Accuracy.timezone]).
Proof.
  intros N.
  assert (Hpair : forall acc, acc <> Accuracy.fuzzy ->
            never_asserts (a <- dt_by_accuracy self acc ;;
                           b <- dt_by_accuracy other acc ;; ret (a, b))).
  { intros acc Ha.
    apply never_asserts_bind; [now apply never_asserts_dt_by_accuracy|].
    intros a.
    apply never_asserts_bind; [now apply never_asserts_dt_by_accuracy|].
    intros b. apply never_asserts_ret. }
  cbn [cast_loop].
  destruct (accuracy self) eqn:Hs, (accuracy other) eqn:Ho;
    try congruence; cbn [Accuracy.eqb orb];
    apply Hpair; discriminate.
Qed.

Lemma never_asserts_cast_for_operation (self : Date) (other : pyobj)
      (is_comparison : bool) :
  never_asserts (_cast_for_operation self other is_comparison).
Proof.
  assert (Hd : forall m : M Date,
             never_asserts m ->
             never_asserts
               (other <- m ;;
                if Accuracy.eqb (accuracy self) (accuracy other)
                then ret (dt_value self, dt_value other)
                else cast_loop self other
                       [Accuracy.date; Accuracy.datetime;
                        Accuracy.timezone])).
  { intros m Hm. apply never_asserts_bind; [exact Hm|]. intros o.
    destruct (Accuracy.eqb (accuracy self) (accuracy o)) eqn:E;
      [apply never_asserts_ret|].
    apply never_asserts_cast_loop. intros E'.
    rewrite E', accuracy_eqb_refl in E. discriminate. }
  unfold _cast_for_operation.
  destruct other as [| s | n | d | dt | td | d];
    try (apply Hd, never_asserts_init).
  - destruct is_comparison; intros c t; cbn; discriminate.
  - apply Hd, never_asserts_ret.
Qed.

(** The assertion branches are there: the low-level caster fails in this
    way on a fuzzy accuracy on either side, and the public cast reaches it
    when a concrete Date is cast to fuzzy. *)
Lemma caster_assertion_branches (d : date) (c : clock) (t : nat) :
  _dt_by_accuracy (PInt SOON) Accuracy.fuzzy Accuracy.timezone
  = Raise AssertionError
  /\ _dt_by_accuracy (PInt SOON) Accuracy.fuzzy Accuracy.datetime
     = Raise AssertionError
  /\ _dt_by_accuracy (PDate d) Accuracy.date Accuracy.fuzzy
     = Raise AssertionError
  /\ run (dt_by_accuracy (mkDate (PDate d)) Accuracy.fuzzy) c t
     = Raise AssertionError.
Proof. repeat split; reflexivity. Qed.

(** C9: whatever the operands, operand normalization and the operators
    built on it never end in the AssertionError of the low-level caster:
    the casts they request stay within the pairs that it handles. *)
Theorem assertion_unreachable (self : Date) (other : pyobj)
        (c : clock) (t : nat) :
  (forall is_comparison : bool,
      run (_cast_for_operation self other is_comparison) c t
      <> Raise AssertionError)
  /\ run (__add__ self other) c t <> Raise AssertionError
  /\ run (__sub__ self other) c t <> Raise AssertionError
  /\ run (__radd__ self other) c t <> Raise AssertionError
  /\ run (__rsub__ self other) c t <> Raise AssertionError
  /\ run (__lt__ self other) c t <> Raise AssertionError
  /\ run (__le__ self other) c t <> Raise AssertionError
  /\ run (__eq__ self other) c t <> Raise AssertionError
  /\ run (__ne__ self other) c t <> Raise AssertionError
  /\ run (__gt__ self other) c t <> Raise AssertionError
  /\ run (__ge__ self other) c t <> Raise AssertionError.
Proof.
  assert (Hop : forall (B : Type) (cmp : bool) (k : pyval * pyval -> M B),
             (forall ab, never_asserts (k ab)) ->
             never_asserts (bind (_cast_for_operation self other cmp) k)).
  { intros B cmp k Hk.
    apply never_asserts_bind;
      [apply never_asserts_cast_for_operation | exact Hk]. }
  assert (Heq : never_asserts (__eq__ self other)).
  { apply Hop. intros [a b]. apply never_asserts_ret. }
  unfold run.
  split; [intros cmp; apply never_asserts_cast_for_operation|].
  repeat split;
    try (apply Hop; intros [a b];
         first [ apply never_asserts_lift;
                 first [ apply no_assert_py_add | apply no_assert_py_sub
                       | apply no_assert_py_order ]
               | apply never_asserts_ret ]).
  apply never_asserts_bind; [exact Heq|]. intros r. apply never_asserts_ret.
Qed.

(** *** Computations that do not depend on the reading they start at *)

Lemma steady_ret {A} (a : A) (c : clock) : steady (ret a) c (Ok a).
Proof. intros t. reflexivity. Qed.

Lemma steady_lift {A} (r : result A) (c : clock) : steady (lift r) c r.
Proof. intros t. reflexivity. Qed.

Lemma steady_raise {A} (e : exn) (c : clock) :
  steady (@raise A e) c (Raise e).
Proof. intros t. reflexivity. Qed.

Lemma steady_bind {A B} (m : M A) (k : A -> M B) (c : clock)
      (a : A) (r : result B) :
  steady m c (Ok a) -> steady (k a) c r -> steady (bind m k) c r.
Proof.
  intros Hm Hk t. unfold run, bind. specialize (Hm t). unfold run in Hm.
  destruct (m c t) as [x t']. cbn in Hm. subst x. apply Hk.
Qed.

Lemma steady_bind_raise {A B} (m : M A) (k : A -> M B) (c : clock)
      (e : exn) :
  steady m c (Raise e) -> steady (bind m k) c (Raise e).
Proof.
  intros Hm t. unfold run, bind. specialize (Hm t). unfold run in Hm.
  destruct (m c t) as [x t']. cbn in Hm. subst x. reflexivity.
Qed.

Lemma steady_except {A} (m h : M A) (c : clock) (r : result A) :
  steady m c (Raise ValueError) -> steady h c r ->
  steady (except_ValueError m h) c r.
Proof.
  intros Hm Hh t. unfold run, except_ValueError. specialize (Hm t).
  unfold run in Hm. destruct (m c t) as [x t']. cbn in Hm. subst x.
  apply Hh.
Qed.

(** *** The bare day of the month *)

Lemma day_strings : day_strings_ok = true.
Proof. vm_compute. reflexivity. Qed.

Lemma day_string_number (d : Z) :
  (1 <= d <= 31)%Z ->
  month_day_number (day_string d) = Some d
  /\ Str.lower (day_string d) = day_string d.
Proof.
  intros Hd. pose proof day_strings as T. unfold day_strings_ok in T.
  rewrite forallb_forall in T.
  specialize (T d (zrange_In 1 31 d ltac:(lia))).
  apply andb_prop in T. destruct T as [T1 T2].
  apply String.eqb_eq in T2. split; [|exact T2].
  destruct (month_day_number (day_string d)) as [x|]; [|discriminate].
  apply Z.eqb_eq in T1. now subst x.
Qed.

(** Day [mday] of the anchor's month, when it exists and lies after the
    anchor. *)
Lemma next_month_day_this_month (today : date) (mday : Z) :
  (day today < mday)%Z ->
  has_day (year today) (month today) mday = true ->
  next_month_day today mday
  = Some (mkdate (year today) (month today) mday).
Proof.
  intros Hlt Hv. unfold next_month_day, date_replace_day, date_new.
  unfold has_day in Hv. rewrite Hv.
  unfold date_leb, date_compare. cbn [year month day].
  rewrite !Z.compare_refl.
  replace (mday ?= day today)%Z with Gt
    by (symmetry; apply Z.compare_gt_iff; lia).
  reflexivity.
Qed.

(** Day [mday] of the following month, when the anchor's month has no
    such day or has it no later than the anchor. *)
Lemma next_month_day_rolls (today : date) (mday : Z) :
  (mday <= day today)%Z
  \/ has_day (year today) (month today) mday = false ->
  has_day (fst (following_month today)) (snd (following_month today)) mday
  = true ->
  next_month_day today mday
  = Some (mkdate (fst (following_month today))
                 (snd (following_month today)) mday).
Proof.
  intros Hroll Hv. unfold next_month_day, date_replace_day, date_new.
  unfold has_day, following_month in *.
  assert (Hnext :
    (let '(next_month, next_year) :=
       if (month today =? 12)%Z then (1%Z, (year today + 1)%Z)
       else ((month today + 1)%Z, year today) in
     if valid_date (mkdate next_year next_month mday)
     then Ok (mkdate next_year next_month mday)
     else Raise ValueError)
    = Ok (if (month today =? 12)%Z
          then mkdate (year today + 1) 1 mday
          else mkdate (year today) (month today + 1) mday)).
  { destruct (month today =? 12)%Z; cbn [fst snd] in Hv; now rewrite Hv. }
  destruct (valid_date (mkdate (year today) (month today) mday)) eqn:V.
  - destruct Hroll as [Hle | Hf]; [|discriminate].
    unfold date_leb, date_compare. cbn [year month day].
    rewrite !Z.compare_refl.
    destruct (Z.compare_spec mday (day today)) as [E | L | G]; try lia;
      destruct (month today =? 12)%Z; cbn [fst snd] in *;
      rewrite Hv; reflexivity.
  - destruct (month today =? 12)%Z; cbn [fst snd] in *;
      rewrite Hv; reflexivity.
Qed.

(** C7 (amended): for a day number d of 1..31 written without leading
    zero, which direct construction does not accept, parse resolves d
    against today: when today's day of the month is before d and this
    month has a day d, the result is day d of this month; when today's
    day of the month is d or later, or this month has no day d, and the
    following month (January of the next year after December) has a
    day d, the result is day d of that following month. *)
Theorem bare_day_of_month (d : Z) (c : clock) (t : nat) :
  (1 <= d <= 31)%Z ->
  __init__ (OStr (day_string d)) c t = (Raise ValueError, t) ->
  let today := dt_date (c t) in
  ((day today < d)%Z ->
   has_day (year today) (month today) d = true ->
   run (parse (Some (day_string d))) c t
   = Ok (mkDate (PDate (mkdate (year today) (month today) d))))
  /\ ((d <= day today)%Z \/ has_day (year today) (month today) d = false ->
      has_day (fst (following_month today)) (snd (following_month today)) d
      = true ->
      run (parse (Some (day_string d))) c t
      = Ok (mkDate (PDate (mkdate (fst (following_month today))
                                  (snd (following_month today)) d)))).
Proof.
  intros Hd Hinit today.
  destruct (day_string_number d Hd) as [Hnum Hlow].
  assert (Hparse : forall r : date,
             next_month_day today d = Some r ->
             run (parse (Some (day_string d))) c t = Ok (mkDate (PDate r))).
  { intros r Hr. unfold run, parse. rewrite Hlow.
    unfold except_ValueError. rewrite Hinit.
    unfold bind, _parse_only_month_day. rewrite Hnum.
    unfold bind, date_today, ret. fold today. rewrite Hr. reflexivity. }
  split.
  - intros Hlt Hv. apply Hparse. now apply next_month_day_this_month.
  - intros Hroll Hv. apply Hparse. now apply next_month_day_rolls.
Qed.

(** *** Parsing relative to a date *)

Lemma dict_get_map {K V W : Type} (eqb : K -> K -> bool) (f : V -> W)
      (k : K) (l : list (K * V)) :
  dict_get eqb k (map (fun kv => (fst kv, f (snd kv))) l)
  = option_map f (dict_get eqb k l).
Proof.
  unfold dict_get.
  change (@None W) with (option_map f None). generalize (@None V).
  induction l as [| [k' v] l IH]; intros acc; cbn [map fold_left fst snd].
  - reflexivity.
  - rewrite <- IH. destruct (eqb k k'); reflexivity.
Qed.

Lemma dict_get_In {K V : Type} (eqb : K -> K -> bool)
      (k : K) (l : list (K * V)) (v : V) :
  dict_get eqb k l = Some v -> exists k', In (k', v) l.
Proof.
  unfold dict_get.
  assert (H : forall acc,
             fold_left (fun acc kv =>
                          if eqb k (fst kv) then Some (snd kv) else acc)
                       l acc = Some v ->
             acc = Some v \/ exists k', In (k', v) l).
  { induction l as [| [k' v'] l IH]; intros acc E; cbn [fold_left] in E.
    - now left.
    - destruct (IH _ E) as [Hacc | [k'' Hin]].
      + cbn [fst snd] in Hacc. destruct (eqb k k').
        * inversion Hacc. subst. right. exists k'. now left.
        * now left.
      + right. exists k''. now right. }
  intros E. destruct (H None E) as [Hn | Hin]; [discriminate | exact Hin].
Qed.

(** The dictionary of the recurrence parser is the phrase table with
    each phrase replaced by its offset. *)
Lemma recurrency_formats_table (self_date : date) (newtask : bool) :
  recurrency_formats self_date newtask
  = map (fun kp => (fst kp, phrase_offset self_date newtask (snd kp)))
        phrase_table.
Proof. reflexivity. Qed.

Lemma recurrency_formats_get (self_date : date) (newtask : bool)
      (s : string) :
  dict_get String.eqb s (recurrency_formats self_date newtask)
  = option_map (phrase_offset self_date newtask) (phrase_kind s).
Proof. rewrite recurrency_formats_table. apply dict_get_map. Qed.

Lemma phrase_kind_weekday (s : string) (i : Z) :
  phrase_kind s = Some (Pweekday i) -> (0 <= i <= 6)%Z.
Proof.
  intros H. apply dict_get_In in H. destruct H as [k H].
  unfold phrase_table in H. cbn [app flat_map WEEKDAYS fst snd] in H.
  cbn [In] in H.
  repeat (destruct H as [H | H]; [inversion H; subst; lia |]).
  contradiction.
Qed.

Lemma weekday_range (d : date) : (0 <= weekday d <= 6)%Z.
Proof.
  unfold weekday. pose proof (Z.mod_pos_bound (toordinal d + 6) 7). lia.
Qed.

Lemma date_add_zero (d : date) :
  valid_date d = true -> date_add d (timedelta_days 0) = Ok d.
Proof.
  intros V. unfold date_add. cbn [timedelta_days td_days].
  rewrite Z.add_0_r. pose proof (toordinal_range d V) as R.
  replace ((0 <? toordinal d)%Z && (toordinal d <=? MAXORDINAL)%Z) with true.
  - now rewrite fromordinal_toordinal.
  - symmetry. apply andb_true_intro.
    split; [apply Z.ltb_lt | apply Z.leb_le]; lia.
Qed.

(** Past the last day by one day, past it by any more days. *)
Lemma date_add_overflow (d : date) (e : exn) (k : Z) :
  valid_date d = true ->
  date_add d (timedelta_days 1) = Raise e -> (1 <= k)%Z ->
  date_add d (timedelta_days k) = Raise e.
Proof.
  intros V. pose proof (toordinal_range d V) as R.
  unfold date_add. cbn [timedelta_days td_days].
  generalize dependent (toordinal d). intros o R.
  destruct ((0 <? o + 1)%Z && (o + 1 <=? MAXORDINAL)%Z) eqn:E1;
    [discriminate|].
  intros He Hk.
  replace ((0 <? o + k)%Z && (o + k <=? MAXORDINAL)%Z) with false;
    [exact He|].
  symmetry. apply andb_false_iff. right. apply Z.leb_gt.
  apply andb_false_iff in E1.
  destruct E1 as [E1 | E1]; [apply Z.ltb_ge in E1 | apply Z.leb_gt in E1];
    lia.
Qed.

Lemma mdays_days_in_month (y m : Z) :
  (1 <= m <= 12)%Z ->
  (m = 2%Z -> isleap y = false) ->
  at_index mdays m = days_in_month y m.
Proof.
  intros Hm Hleap. unfold days_in_month.
  destruct (Z.eqb_spec m 2) as [E | N].
  - rewrite (Hleap E). subst m. reflexivity.
  - cbn [andb]. month_cases m; reflexivity.
Qed.

Lemma steady_self_date_of_date (d : date) (c : clock) :
  steady (self_date_of (mkDate (PDate d))) c (Ok d).
Proof. intros t. reflexivity. Qed.

(** With an anchor whose calendar date is [anchor] at every reading and
    a text that direct construction refuses, parse_from_date is the
    cascade of its three parsers on that date. *)
Lemma parse_from_date_cascade (self : Date) (anchor : date) (s : string)
      (newtask : bool) (c : clock) :
  steady (self_date_of self) c (Ok anchor) ->
  steady (__init__ (OStr (Str.lower s))) c (Raise ValueError) ->
  steady (parse_from_date self (Some s) newtask) c
    (rbind (if negb newtask then date_add anchor (timedelta_days 1)
            else Ok anchor) (fun self_date =>
     match match month_day_number (Str.lower s) with
           | Some mday => next_month_day self_date mday
           | None => None
           end with
     | Some r => Ok (mkDate (PDate r))
     | None =>
     match numerical_loop self_date (Str.lower s) NUMERICAL_FORMATS None with
     | Some r => Ok (mkDate (PDate r))
     | None =>
     match dict_get String.eqb (Str.lower s)
                    (recurrency_formats anchor newtask) with
     | Some offset =>
         rbind (date_add anchor (timedelta_days offset)) (fun r =>
         Ok (mkDate (PDate r)))
     | None => Raise ValueError
     end end end)).
Proof.
  intros Hanchor Hinit. unfold parse_from_date.
  set (s' := Str.lower s) in *.
  apply steady_except; [exact Hinit|].
  set (adv := if negb newtask then date_add anchor (timedelta_days 1)
              else Ok anchor).
  assert (Hadv : forall sd : date,
             steady (if negb newtask
                     then lift (date_add sd (timedelta_days 1))
                     else ret sd) c
                    (if negb newtask then date_add sd (timedelta_days 1)
                     else Ok sd)).
  { intros sd. destruct newtask; cbn [negb];
      [apply steady_ret | apply steady_lift]. }
  assert (Hann : forall r : date,
             steady (announce (Some r)) c (Ok (mkDate (PDate r)))).
  { intros r t. reflexivity. }
  destruct adv as [self_date | e] eqn:Eadv; cbn [rbind].
  - (* the anchor, advanced when the task is not new *)
    assert (H1 : steady (_parse_only_month_day_for_recurrency self s' newtask)
                   c (Ok match month_day_number s' with
                         | Some mday => next_month_day self_date mday
                         | None => None
                         end)).
    { unfold _parse_only_month_day_for_recurrency.
      eapply steady_bind; [exact Hanchor|].
      eapply steady_bind; [fold adv in Eadv; rewrite <- Eadv; apply Hadv|].
      destruct (month_day_number s'); apply steady_ret. }
    assert (H2 : steady (_parse_numerical_format_for_recurrency
                           self s' newtask)
                   c (Ok (numerical_loop self_date s' NUMERICAL_FORMATS None))).
    { unfold _parse_numerical_format_for_recurrency.
      eapply steady_bind; [exact Hanchor|].
      eapply steady_bind; [fold adv in Eadv; rewrite <- Eadv; apply Hadv|].
      apply steady_ret. }
    eapply steady_bind; [exact H1|].
    destruct (match month_day_number s' with
              | Some mday => next_month_day self_date mday
              | None => None
              end) as [r1|].
    { eapply steady_bind; [apply steady_ret|].
      eapply steady_bind; [apply steady_ret|]. apply Hann. }
    eapply steady_bind; [exact H2|].
    destruct (numerical_loop self_date s' NUMERICAL_FORMATS None) as [r2|].
    { eapply steady_bind; [apply steady_ret|]. apply Hann. }
    unfold _parse_text_representation_for_recurrency.
    destruct (dict_get String.eqb s' (recurrency_formats anchor newtask))
      as [offset|] eqn:Eoff.
    + destruct (date_add anchor (timedelta_days offset)) as [r3 | e3] eqn:E3;
        cbn [rbind].
      * apply steady_bind with (a := Some r3); [|apply Hann].
        eapply steady_bind; [exact Hanchor|]. rewrite Eoff.
        eapply steady_bind; [rewrite <- E3; apply steady_lift|].
        apply steady_ret.
      * apply steady_bind_raise.
        eapply steady_bind; [exact Hanchor|]. rewrite Eoff.
        apply steady_bind_raise. rewrite <- E3. apply steady_lift.
    + apply steady_bind with (a := None); [|intros t; reflexivity].
      eapply steady_bind; [exact Hanchor|]. rewrite Eoff. apply steady_ret.
  - apply steady_bind_raise. unfold _parse_only_month_day_for_recurrency.
    eapply steady_bind; [exact Hanchor|].
    apply steady_bind_raise. fold adv in Eadv. rewrite <- Eadv. apply Hadv.
Qed.

Lemma extra_days_positive (d : date) (p : phrase) :
  valid_date d = true -> is_weekday p = false -> (1 <= extra_days d p)%Z.
Proof.
  intros V Hp. destruct (valid_date_bounds d V) as (_ & _ & Hd).
  destruct p; cbn [extra_days]; try lia; try discriminate.
  - unfold month_length in Hd. unfold days_in_month. lia.
  - destruct (isleap (year d)); cbn; lia.
Qed.

(** C3 (amended): let the anchor have calendar date d and the text be one
    that direct construction refuses.  For the duration phrases the
    result for a new task is d itself and the result for an existing
    task is d plus 1 day for day, 2 for other-day, 7 for week, the
    length of d's month for month (February of a leap year apart) and
    the length of d's year for year; for the week day names both
    settings give the same result; for a bare day of the month, the
    result for an existing task is the result for a new task anchored
    one day after d. *)
Theorem recurrence_new_task_shift (self : Date) (d : date) (s : string)
        (c : clock) (t : nat) :
  steady (self_date_of self) c (Ok d) ->
  valid_date d = true ->
  steady (__init__ (OStr (Str.lower s))) c (Raise ValueError) ->
  (forall p : phrase,
      month_day_number (Str.lower s) = None ->
      (forall anchor : date,
          numerical_loop anchor (Str.lower s) NUMERICAL_FORMATS None = None) ->
      phrase_kind (Str.lower s) = Some p ->
      (is_weekday p = true ->
       run (parse_from_date self (Some s) false) c t
       = run (parse_from_date self (Some s) true) c t)
      /\ (is_weekday p = false ->
          (p = Pmonth -> month d = 2%Z -> isleap (year d) = false) ->
          run (parse_from_date self (Some s) true) c t
          = Ok (mkDate (PDate d))
          /\ run (parse_from_date self (Some s) false) c t
             = rbind (date_add d (timedelta_days (extra_days d p)))
                     (fun r => Ok (mkDate (PDate r)))))
  /\ (forall (mday : Z) (d1 r : date),
         month_day_number (Str.lower s) = Some mday ->
         date_add d (timedelta_days 1) = Ok d1 ->
         next_month_day d1 mday = Some r ->
         run (parse_from_date self (Some s) false) c t
         = Ok (mkDate (PDate r))
         /\ run (parse_from_date (mkDate (PDate d1)) (Some s) true) c t
            = Ok (mkDate (PDate r))).
Proof.
  intros Hanchor V Hinit.
  pose proof (parse_from_date_cascade self d s true c Hanchor Hinit t) as Ht.
  pose proof (parse_from_date_cascade self d s false c Hanchor Hinit t) as Hf.
  cbn [negb rbind] in Ht, Hf.
  split.
  - intros p Hnum Hloop Hkind.
    rewrite Hnum, Hloop, recurrency_formats_get, Hkind in Ht.
    cbn [option_map] in Ht.
    assert (Hf' :
      run (parse_from_date self (Some s) false) c t
      = rbind (date_add d (timedelta_days 1)) (fun _ =>
        rbind (date_add d (timedelta_days (phrase_offset d false p)))
              (fun r => Ok (mkDate (PDate r))))).
    { rewrite Hf. destruct (date_add d (timedelta_days 1)); [|reflexivity].
      cbn [rbind]. rewrite Hnum, Hloop, recurrency_formats_get, Hkind.
      reflexivity. }
    clear Hf. split.
    + intros Hw. destruct p as [| | | | | i]; try discriminate.
      rewrite Ht, Hf'. cbn [phrase_offset].
      destruct (date_add d (timedelta_days 1)) as [d1 | e] eqn:E1;
        [reflexivity|].
      cbn [rbind]. rewrite (date_add_overflow d e _ V E1); [reflexivity|].
      pose proof (phrase_kind_weekday _ _ Hkind).
      pose proof (weekday_range d).
      destruct (Z.leb_spec i (weekday d)); cbn [b2z]; lia.
    + intros Hw Hfeb. split.
      * rewrite Ht.
        replace (phrase_offset d true p) with 0%Z
          by (destruct p; try reflexivity; discriminate).
        now rewrite (date_add_zero d V).
      * rewrite Hf'.
        assert (E : phrase_offset d false p = extra_days d p).
        { destruct p; try reflexivity; try discriminate.
          cbn [phrase_offset extra_days].
          destruct (valid_date_bounds d V) as (_ & Hm & _).
          apply mdays_days_in_month; [exact Hm | now apply Hfeb]. }
        rewrite E.
        destruct (date_add d (timedelta_days 1)) as [d1 | e] eqn:E1;
          [reflexivity|].
        cbn [rbind].
        rewrite (date_add_overflow d e _ V E1); [reflexivity|].
        now apply extra_days_positive.
  - intros mday d1 r Hnum E1 Hr. split.
    + rewrite Hf, E1. cbn [rbind]. now rewrite Hnum, Hr.
    + rewrite (parse_from_date_cascade (mkDate (PDate d1)) d1 s true c
                 (steady_self_date_of_date d1 c) Hinit t).
      cbn [negb rbind]. now rewrite Hnum, Hr.
Qed.

(** *** Constructing twice and comparing *)

(** The constructor either ignores the clock altogether, or is given a
    now form and stores the reading it takes. *)
Lemma init_clock_cases (x : pyobj) :
  (exists r : result Date, forall c t, __init__ x c t = (r, t))
  \/ (is_now_form x = true
      /\ forall c t,
           __init__ x c t
           = (Ok (mkDate (PDatetime (replace_tzinfo (c t) None))), S t)).
Proof.
  destruct x as [| s | n | d | dt | td | d];
    try (left; eexists; intros c t; reflexivity).
  - unfold __init__, is_now_form.
    destruct (String.eqb s "None" || String.eqb s "") eqn:E0;
      [left; eexists; intros c t; reflexivity|].
    unfold bind, __parse_dt_str.
    destruct (date_fromisoformat s);
      [left; eexists; intros c t; reflexivity|].
    destruct (datetime_fromisoformat s);
      [left; eexists; intros c t; reflexivity|].
    destruct (parse_with_formats s DATE_FORMATS);
      [left; eexists; intros c t; reflexivity|].
    destruct (String.eqb s "now" || String.eqb s (Str.lower (gettext "now"))).
    + right. split; [reflexivity|]. intros c t. reflexivity.
    + left.
      destruct (dict_get key_eqb (KStr (Str.lower s)) LOOKUP);
        eexists; intros c t; reflexivity.
  - unfold __init__, is_now_form. destruct (n =? 0)%Z.
    + right. split; [reflexivity|]. intros c t. reflexivity.
    + left. destruct (dict_get key_eqb (KInt n) LOOKUP);
        eexists; intros c t; reflexivity.
Qed.

Lemma eq_same_value (a : Date) (c : clock) (t : nat) :
  __eq__ a (OGtgDate a) c t = (Ok true, t).
Proof.
  unfold __eq__, _cast_for_operation, bind, ret.
  rewrite accuracy_eqb_refl, py_eq_refl. reflexivity.
Qed.

(** C4 (amended): for every input x that the constructor accepts,
    Date(x) == Date(x) is true when x is not a now form (the now code 0,
    the token now or its localized lowercase form); for a now form each
    construction stores its own reading of the clock, and the comparison
    is true when the two readings are the same instant. *)
Theorem construct_twice_equal (x : pyobj) (a : Date) (c : clock) (t : nat) :
  run (__init__ x) c t = Ok a ->
  is_now_form x = false
  \/ replace_tzinfo (c t) None = replace_tzinfo (c (S t)) None ->
  run (construct_twice_eq x) c t = Ok true.
Proof.
  intros Hacc Hcase. unfold run, construct_twice_eq, bind in *.
  destruct (init_clock_cases x) as [[r Hr] | [Hnow Hr]].
  - rewrite Hr in Hacc. cbn [fst] in Hacc. subst r.
    rewrite !Hr. now rewrite eq_same_value.
  - destruct Hcase as [Hn | Hsame]; [congruence|].
    rewrite !Hr, Hsame. now rewrite eq_same_value.
Qed.

End Claims.

(** ** Ordinals and dates: the other direction *)

Lemma yday_table : yday_table_ok = true.
Proof. vm_compute. reflexivity. Qed.

Lemma month_day_valid (leap : bool) (doy : Z) :
  (0 <= doy <= 364)%Z ->
  (1 <= fst (month_day leap doy) <= 12
   /\ 1 <= snd (month_day leap doy)
          <= month_length leap (fst (month_day leap doy))
   /\ yday leap (fst (month_day leap doy)) (snd (month_day leap doy)) = doy)%Z.
Proof.
  intros Hd. pose proof yday_table as T. unfold yday_table_ok in T.
  rewrite forallb_forall in T.
  assert (Hl : In leap [true; false]) by (destruct leap; simpl; auto).
  specialize (T leap Hl). rewrite forallb_forall in T.
  specialize (T doy (zrange_In 0 365 doy ltac:(lia))).
  unfold yday_check in T. cbv zeta in T.
  repeat (apply andb_prop in T; destruct T as [T ?]).
  repeat match goal with
         | H : (_ <=? _)%Z = true |- _ => apply Z.leb_le in H
         | H : (_ =? _)%Z = true |- _ => apply Z.eqb_eq in H
         end.
  lia.
Qed.

(** Every ordinal from 1 on is a day of some year, counted from 0. *)
Lemma ordinal_split (n : Z) :
  exists a b c e doy : Z,
    (n = 146097 * a + 36524 * b + 1461 * c + 365 * e + doy + 1
     /\ 0 <= b <= 3 /\ 0 <= c <= 24 /\ 0 <= e <= 3
     /\ (0 <= doy <= 364
         \/ (doy = 365 /\ e = 3 /\ (c <> 24 \/ b = 3))))%Z.
Proof.
  set (n0 := (n - 1)%Z).
  set (a := (n0 / 146097)%Z). set (r := (n0 mod 146097)%Z).
  assert (Hr : (n0 = 146097 * a + r /\ 0 <= r < 146097)%Z).
  { unfold a, r. pose proof (Z.div_mod n0 146097 ltac:(lia)).
    pose proof (Z.mod_pos_bound n0 146097 ltac:(lia)). lia. }
  destruct (Z.eq_dec r 146096) as [E | NE].
  { exists a, 3%Z, 24%Z, 3%Z, 365%Z. unfold n0 in Hr. lia. }
  set (b := (r / 36524)%Z). set (r1 := (r mod 36524)%Z).
  assert (Hr1 : (r = 36524 * b + r1 /\ 0 <= r1 < 36524)%Z).
  { unfold b, r1. pose proof (Z.div_mod r 36524 ltac:(lia)).
    pose proof (Z.mod_pos_bound r 36524 ltac:(lia)). lia. }
  set (c := (r1 / 1461)%Z). set (r2 := (r1 mod 1461)%Z).
  assert (Hr2 : (r1 = 1461 * c + r2 /\ 0 <= r2 < 1461)%Z).
  { unfold c, r2. pose proof (Z.div_mod r1 1461 ltac:(lia)).
    pose proof (Z.mod_pos_bound r1 1461 ltac:(lia)). lia. }
  destruct (Z.eq_dec r2 1460) as [E2 | NE2].
  { exists a, b, c, 3%Z, 365%Z. unfold n0 in Hr. lia. }
  set (e := (r2 / 365)%Z). set (doy := (r2 mod 365)%Z).
  assert (Hr3 : (r2 = 365 * e + doy /\ 0 <= doy < 365)%Z).
  { unfold e, doy. pose proof (Z.div_mod r2 365 ltac:(lia)).
    pose proof (Z.mod_pos_bound r2 365 ltac:(lia)). lia. }
  exists a, b, c, e, doy. unfold n0 in Hr. lia.
Qed.

(** The date of an ordinal in range is a valid date with that ordinal. *)
Lemma toordinal_fromordinal (n : Z) :
  (1 <= n <= MAXORDINAL)%Z ->
  toordinal (fromordinal n) = n /\ valid_date (fromordinal n) = true.
Proof.
  intros Hn. unfold MAXORDINAL in Hn.
  destruct (ordinal_split n) as (a & b & c & e & doy & En & Hb & Hc & He & Hd).
  pose proof (isleap_split a b c e Hb Hc He) as Hleap.
  pose proof (days_before_year_split a b c e Hb Hc He) as Hdby.
  set (y := (400 * a + 100 * b + 4 * c + e + 1)%Z) in *.
  assert (Hy : (1 <= y <= 9999)%Z) by (unfold y; lia).
  assert (Hvalid : forall m dd : Z,
             (1 <= m <= 12)%Z -> (1 <= dd <= month_length (isleap y) m)%Z ->
             valid_date (mkdate y m dd) = true).
  { intros m dd Hm Hdd. unfold valid_date, MINYEAR, MAXYEAR, days_in_month.
    cbn [year month day]. unfold month_length in Hdd.
    repeat (apply andb_true_intro; split); apply Z.leb_le; lia. }
  destruct Hd as [Hd | (Ed & Ee & Hcb)].
  - pose proof (ord2ymd_split a b c e Hb Hc He doy Hd) as Hord.
    fold y in Hord.
    destruct (month_day_valid (isleap y) doy Hd) as (Hm & Hdd & Hyd).
    unfold fromordinal. rewrite En, Hord. split.
    + rewrite toordinal_split. cbn [year month day]. rewrite Hyd.
      fold y in Hdby. rewrite Hdby. reflexivity.
    + apply Hvalid; assumption.
  - assert (Hl : isleap y = true).
    { rewrite Hleap, Ee. cbn [Z.eqb Pos.eqb andb].
      destruct (Z.eqb_spec c 24), (Z.eqb_spec b 3); cbn; try reflexivity.
      lia. }
    pose proof (ord2ymd_split_leap a b c e Hb Hc He Hl) as Hord.
    fold y in Hord. unfold fromordinal. rewrite En, Ed, Hord. split.
    + rewrite toordinal_split. cbn [year month day]. rewrite Hl.
      fold y in Hdby. rewrite Hdby. reflexivity.
    + apply Hvalid; rewrite ?Hl; [lia|]. split; apply Z.leb_le; reflexivity.
Qed.

(** date + timedelta moves the ordinal by the days of the duration. *)
Lemma date_add_ordinal (d r : date) (td : timedelta) :
  date_add d td = Ok r ->
  toordinal r = (toordinal d + td_days td)%Z /\ valid_date r = true.
Proof.
  unfold date_add. generalize (toordinal d + td_days td)%Z. intros o.
  destruct ((0 <? o)%Z && (o <=? MAXORDINAL)%Z) eqn:E; [|discriminate].
  intros H.
  apply (f_equal (fun x => match x with Ok v => v | Raise _ => d end)) in H.
  subst r. apply andb_prop in E. destruct E as [E1 E2].
  apply Z.ltb_lt in E1. apply Z.leb_le in E2.
  apply toordinal_fromordinal. lia.
Qed.

(** A valid date is determined by its ordinal. *)
Lemma toordinal_injective (a b : date) :
  valid_date a = true -> valid_date b = true ->
  toordinal a = toordinal b -> a = b.
Proof.
  intros Va Vb E.
  rewrite <- (fromordinal_toordinal a Va), <- (fromordinal_toordinal b Vb).
  now rewrite E.
Qed.

(** ** Further properties of the operators and the parsers *)

Section Further.
Context {P : Platform}.

(** For a Date of date accuracy, adding a duration and then taking the
    same duration away gives the date back, and the difference between the
    sum and the date is the whole days of the duration. *)
Theorem add_then_subtract (d r : date) (td : timedelta)
        (c : clock) (t : nat) :
  valid_date d = true ->
  run (__add__ (mkDate (PDate d)) (OTimedelta td)) c t = Ok (PDate r) ->
  run (__sub__ (mkDate (PDate r)) (OTimedelta td)) c t = Ok (PDate d)
  /\ run (__sub__ (mkDate (PDate r)) (OGtgDate (mkDate (PDate d)))) c t
     = Ok (PTimedelta (timedelta_days (td_days td))).
Proof.
  intros V Hadd.
  assert (E : date_add d td = Ok r).
  { unfold run, __add__, _cast_for_operation, bind, ret, lift in Hadd.
    cbn [fst dt_value py_add] in Hadd.
    destruct (date_add d td) as [r' | e]; cbn [rbind] in Hadd;
      [congruence | discriminate]. }
  destruct (date_add_ordinal d r td E) as [Hord Vr].
  pose proof (toordinal_range d V) as R. split.
  - unfold run, __sub__, _cast_for_operation, bind, ret, lift.
    cbn [fst dt_value py_sub]. unfold date_sub_timedelta, date_add.
    cbn [timedelta_days td_days]. rewrite Hord.
    replace (toordinal d + td_days td + - td_days td)%Z with (toordinal d)
      by lia.
    replace ((0 <? toordinal d)%Z && (toordinal d <=? MAXORDINAL)%Z)
      with true
      by (symmetry; apply andb_true_intro;
          split; [apply Z.ltb_lt | apply Z.leb_le]; lia).
    cbn [rbind]. now rewrite (fromordinal_toordinal d V).
  - unfold run, __sub__, _cast_for_operation, bind, ret, lift.
    cbn [fst dt_value accuracy Accuracy.eqb py_sub]. unfold date_sub.
    rewrite Hord. do 3 f_equal. lia.
Qed.

(** Months shorter than 31 days are followed by a month of 31 days. *)
Lemma short_month_followed_by_long (leap : bool) (m mday : Z) :
  (1 <= m <= 12)%Z -> (1 <= mday <= 31)%Z ->
  (month_length leap m < mday)%Z ->
  (m <= 11)%Z /\ month_length leap (m + 1) = 31%Z.
Proof.
  intros Hm Hd Hlt.
  destruct leap; month_cases m;
    match type of Hlt with
    | (?x < _)%Z =>
        let v := eval vm_compute in x in change x with v in Hlt
    end;
    first [ split; [lia | reflexivity] | lia ].
Qed.

Lemma month_day_number_range (s : string) (mday : Z) :
  month_day_number s = Some mday -> (1 <= mday <= 31)%Z.
Proof.
  unfold month_day_number. destruct (Str.py_int s) as [n|]; [|discriminate].
  destruct ((1 <=? n)%Z && (n <=? 31)%Z) eqn:E; cbn [negb orb];
    [|discriminate].
  destruct (Str.startswith s "0"); [discriminate|].
  intros H. assert (n = mday) by congruence. subst n.
  apply andb_prop in E. destruct E as [E1 E2].
  apply Z.leb_le in E1, E2. lia.
Qed.

Lemma has_day_iff (y m mday : Z) :
  (1 <= y <= 9999)%Z -> (1 <= m <= 12)%Z -> (1 <= mday)%Z ->
  has_day y m mday = true <-> (mday <= month_length (isleap y) m)%Z.
Proof.
  intros Hy Hm Hd.
  unfold has_day, valid_date, MINYEAR, MAXYEAR, days_in_month, month_length.
  cbn [year month day]. split.
  - intros H. repeat (apply andb_prop in H; destruct H as [H ?]).
    now apply Z.leb_le.
  - intros H. repeat (apply andb_true_intro; split); apply Z.leb_le; lia.
Qed.

(** When the following month has no such day, the day of the current
    month, which is not after the anchor, stays. *)
Lemma next_month_day_stays (today : date) (mday : Z) :
  (mday <= day today)%Z ->
  has_day (year today) (month today) mday = true ->
  has_day (fst (following_month today)) (snd (following_month today)) mday
  = false ->
  next_month_day today mday
  = Some (mkdate (year today) (month today) mday).
Proof.
  intros Hle Hv Hn. unfold next_month_day, date_replace_day, date_new.
  unfold has_day, following_month in *. rewrite Hv.
  unfold date_leb, date_compare. cbn [year month day].
  rewrite !Z.compare_refl.
  destruct (Z.compare_spec mday (day today)) as [E | L | G]; try lia;
    destruct (month today =? 12)%Z; cbn [fst snd] in *;
    rewrite Hn; reflexivity.
Qed.

(** A bare day number always resolves: _parse_only_month_day returns a
    valid date with that day of the month.  It is day mday of the current
    or of the following month, strictly after today, except when mday is
    not after today's day and the following month has no such day: then
    it is day mday of the current month, today or earlier. *)
Theorem bare_day_always_resolves (s : string) (mday : Z)
        (c : clock) (t : nat) :
  valid_date (dt_date (c t)) = true ->
  month_day_number s = Some mday ->
  exists r : date,
    run (_parse_only_month_day s) c t = Ok (Some r)
    /\ valid_date r = true
    /\ day r = mday
    /\ (((mday <= day (dt_date (c t)))%Z
         /\ has_day (fst (following_month (dt_date (c t))))
                    (snd (following_month (dt_date (c t)))) mday = false) ->
        r = mkdate (year (dt_date (c t))) (month (dt_date (c t))) mday
        /\ date_leb r (dt_date (c t)) = true)
    /\ (~ ((mday <= day (dt_date (c t)))%Z
           /\ has_day (fst (following_month (dt_date (c t))))
                      (snd (following_month (dt_date (c t)))) mday = false) ->
        date_ltb (dt_date (c t)) r = true
        /\ ((year r, month r)
            = (year (dt_date (c t)), month (dt_date (c t)))
            \/ (year r, month r) = following_month (dt_date (c t)))).
Proof.
  set (today := dt_date (c t)). intros V Hnum.
  pose proof (month_day_number_range s mday Hnum) as Hd.
  destruct (valid_date_bounds today V) as (Hy & Hm & Hday).
  assert (Hrun : run (_parse_only_month_day s) c t
                 = Ok (next_month_day today mday)).
  { unfold run, _parse_only_month_day. rewrite Hnum. reflexivity. }
  rewrite Hrun.
  pose proof (has_day_iff (year today) (month today) mday Hy Hm
                ltac:(lia)) as Hthis.
  destruct (has_day (fst (following_month today))
                    (snd (following_month today)) mday) eqn:Hnext.
  - (* the following month has the day *)
    destruct (Z.lt_ge_cases (day today) mday) as [Hlt | Hge].
    + destruct (has_day (year today) (month today) mday) eqn:Ht.
      * exists (mkdate (year today) (month today) mday).
        rewrite (next_month_day_this_month today mday Hlt Ht).
        split; [reflexivity|]. split; [exact Ht|]. split; [reflexivity|].
        split; [intros [_ F]; discriminate|]. intros _. split; [|now left].
        unfold date_ltb, date_compare. cbn [year month day].
        rewrite !Z.compare_refl.
        now replace (day today ?= mday)%Z with Lt
          by (symmetry; apply Z.compare_lt_iff; lia).
      * exists (mkdate (fst (following_month today))
                       (snd (following_month today)) mday).
        rewrite (next_month_day_rolls today mday (or_intror Ht) Hnext).
        split; [reflexivity|]. split; [exact Hnext|]. split; [reflexivity|].
        split; [intros [_ F]; discriminate|]. intros _. split;
          [|right; cbn [year month]; destruct (following_month today);
            reflexivity].
        unfold date_ltb, date_compare, following_month.
        destruct (month today =? 12)%Z; cbn [fst snd year month day].
        -- now replace (year today ?= year today + 1)%Z with Lt
             by (symmetry; apply Z.compare_lt_iff; lia).
        -- rewrite Z.compare_refl.
           now replace (month today ?= month today + 1)%Z with Lt
             by (symmetry; apply Z.compare_lt_iff; lia).
    + exists (mkdate (fst (following_month today))
                     (snd (following_month today)) mday).
      rewrite (next_month_day_rolls today mday (or_introl Hge) Hnext).
      split; [reflexivity|]. split; [exact Hnext|]. split; [reflexivity|].
      split; [intros [_ F]; discriminate|]. intros _. split;
          [|right; cbn [year month]; destruct (following_month today);
            reflexivity].
      unfold date_ltb, date_compare, following_month.
      destruct (month today =? 12)%Z; cbn [fst snd year month day].
      * now replace (year today ?= year today + 1)%Z with Lt
          by (symmetry; apply Z.compare_lt_iff; lia).
      * rewrite Z.compare_refl.
        now replace (month today ?= month today + 1)%Z with Lt
          by (symmetry; apply Z.compare_lt_iff; lia).
  - (* the following month lacks the day: the current month has it *)
    assert (Ht : has_day (year today) (month today) mday = true).
    { apply Hthis.
      destruct (Z.le_gt_cases mday (month_length (isleap (year today))
                                                 (month today)))
        as [Hle | Hgt]; [exact Hle | exfalso].
      destruct (short_month_followed_by_long (isleap (year today))
                  (month today) mday Hm Hd ltac:(lia)) as [Hm11 H31].
      assert (Hn : has_day (year today) (month today + 1) mday = true).
      { apply has_day_iff; lia. }
      unfold following_month in Hnext.
      replace (month today =? 12)%Z with false in Hnext
        by (symmetry; apply Z.eqb_neq; lia).
      cbn [fst snd] in Hnext. congruence. }
    exists (mkdate (year today) (month today) mday).
    destruct (Z.lt_ge_cases (day today) mday) as [Hlt | Hge].
    + rewrite (next_month_day_this_month today mday Hlt Ht).
      split; [reflexivity|]. split; [exact Ht|]. split; [reflexivity|].
      split; [intros [F _]; lia|]. intros _. split; [|now left].
      unfold date_ltb, date_compare. cbn [year month day].
      rewrite !Z.compare_refl.
      now replace (day today ?= mday)%Z with Lt
        by (symmetry; apply Z.compare_lt_iff; lia).
    + rewrite (next_month_day_stays today mday Hge Ht Hnext).
      split; [reflexivity|]. split; [exact Ht|]. split; [reflexivity|].
      split; [|intros F; exfalso; apply F; split; [lia | reflexivity]].
      intros _. split; [reflexivity|].
      unfold date_leb, date_compare. cbn [year month day].
      rewrite !Z.compare_refl.
      destruct (Z.compare_spec mday (day today)); try reflexivity; lia.
Qed.

Lemma numerical_loop_yearless (today : date) (s : string)
      (dt : datetime) (r : date) :
  strptime s "%Y/%m/%d" = None ->
  strptime s "%Y%m%d" = None ->
  strptime s "%m%d" = Some dt ->
  date_replace_year
    (datetime_date dt)
    (if (month today <? month (datetime_date dt))%Z
        || ((month (datetime_date dt) =? month today)%Z
            && (day today <=? day (datetime_date dt))%Z)
     then year today else (year today + 1)%Z) = Ok r ->
  numerical_loop today s NUMERICAL_FORMATS None = Some r
  /\ month r = month (datetime_date dt)
  /\ day r = day (datetime_date dt)
  /\ date_leb today r = true
  /\ (year today <= year r <= year today + 1)%Z.
Proof.
  intros H1 H2 H3 Hrep.
  assert (Hloop : numerical_loop today s NUMERICAL_FORMATS None = Some r).
  { unfold NUMERICAL_FORMATS. cbn [numerical_loop]. rewrite H1, H2, H3.
    replace (Str.contains "%Y" "%m%d") with false by reflexivity.
    cbn [negb]. now rewrite Hrep. }
  split; [exact Hloop|].
  set (r0 := datetime_date dt) in *.
  unfold date_replace_year, date_new in Hrep.
  match type of Hrep with
  | (if ?b then _ else _) = _ => destruct b; [|discriminate Hrep]
  end.
  assert (Er : r = mkdate
                 (if (month today <? month r0)%Z
                     || ((month r0 =? month today)%Z
                         && (day today <=? day r0)%Z)
                  then year today else (year today + 1)%Z)
                 (month r0) (day r0)) by congruence.
  clear Hrep. subst r. cbn [year month day].
  split; [reflexivity|]. split; [reflexivity|].
  unfold date_leb, date_compare. cbn [year month day].
  destruct (Z.ltb_spec (month today) (month r0)) as [Lm | Gm]; cbn [orb].
  - rewrite Z.compare_refl.
    replace (month today ?= month r0)%Z with Lt
      by (symmetry; apply Z.compare_lt_iff; lia).
    split; [reflexivity | lia].
  - destruct (Z.eqb_spec (month r0) (month today)) as [Em | Nm]; cbn [andb].
    + destruct (Z.leb_spec (day today) (day r0)) as [Ld | Gd].
      * rewrite Z.compare_refl, Em, Z.compare_refl.
        split; [|lia].
        destruct (Z.compare_spec (day today) (day r0)); try reflexivity; lia.
      * replace (year today ?= year today + 1)%Z with Lt
          by (symmetry; apply Z.compare_lt_iff; lia).
        split; [reflexivity | lia].
    + replace (year today ?= year today + 1)%Z with Lt
        by (symmetry; apply Z.compare_lt_iff; lia).
      split; [reflexivity | lia].
Qed.

(** The numeric shorthand without a year, MMDD, is given this year when
    its month and day are not before today's, the next year otherwise: the
    date that _parse_numerical_format yields is never before today and at
    most one year number ahead. *)
Theorem yearless_shorthand_not_past (s : string) (dt : datetime) (r : date)
        (c : clock) (t : nat) :
  strptime s "%Y/%m/%d" = None ->
  strptime s "%Y%m%d" = None ->
  strptime s "%m%d" = Some dt ->
  date_replace_year
    (datetime_date dt)
    (if (month (dt_date (c t)) <? month (datetime_date dt))%Z
        || ((month (datetime_date dt) =? month (dt_date (c t)))%Z
            && (day (dt_date (c t)) <=? day (datetime_date dt))%Z)
     then year (dt_date (c t)) else (year (dt_date (c t)) + 1)%Z) = Ok r ->
  run (_parse_numerical_format s) c t = Ok (Some r)
  /\ month r = month (datetime_date dt)
  /\ day r = day (datetime_date dt)
  /\ date_leb (dt_date (c t)) r = true
  /\ (year (dt_date (c t)) <= year r <= year (dt_date (c t)) + 1)%Z.
Proof.
  intros H1 H2 H3 Hrep.
  destruct (numerical_loop_yearless (dt_date (c t)) s dt r H1 H2 H3 Hrep)
    as (Hloop & Hrest).
  split; [|exact Hrest].
  unfold run, _parse_numerical_format, bind, date_today, ret. cbn [fst].
  now rewrite Hloop.
Qed.

(** *** Relative phrases and week day names *)

Lemma dict_get_In_key {K V : Type} (eqb : K -> K -> bool)
      (k : K) (l : list (K * V)) (v : V) :
  dict_get eqb k l = Some v ->
  exists k', In (k', v) l /\ eqb k k' = true.
Proof.
  unfold dict_get.
  assert (H : forall acc,
             fold_left (fun acc kv =>
                          if eqb k (fst kv) then Some (snd kv) else acc)
                       l acc = Some v ->
             acc = Some v \/ exists k', In (k', v) l /\ eqb k k' = true).
  { induction l as [| [k' v'] l IH]; intros acc E; cbn [fold_left] in E.
    - now left.
    - destruct (IH _ E) as [Hacc | (k'' & Hin & Hk)].
      + cbn [fst snd] in Hacc. destruct (eqb k k') eqn:Ek.
        * assert (v' = v) by congruence. subst v'.
          right. exists k'. split; [now left | exact Ek].
        * now left.
      + right. exists k''. split; [now right | exact Hk]. }
  intros E. destruct (H None E) as [Hn | Hin]; [discriminate | exact Hin].
Qed.

Lemma text_formats_get (today : date) (s : string) :
  dict_get String.eqb s (text_formats today)
  = option_map (text_offset today) (text_kind s).
Proof.
  change (text_formats today)
    with (map (fun kp => (fst kp, text_offset today (snd kp))) text_table).
  apply dict_get_map.
Qed.

Lemma text_kind_weekday (s : string) (i : Z) :
  text_kind s = Some (Tweekday i) -> (0 <= i <= 6)%Z.
Proof.
  intros H. apply dict_get_In in H. destruct H as [k H].
  unfold text_table in H. cbn [app flat_map WEEKDAYS fst snd] in H.
  cbn [In] in H.
  repeat (destruct H as [H | H]; [inversion H; subst; lia |]).
  contradiction.
Qed.

(** Adding whole days returns whenever the sum of the ordinals is within
    range. *)
Lemma date_add_in_range (d : date) (k : Z) :
  (1 <= toordinal d + k <= MAXORDINAL)%Z ->
  date_add d (timedelta_days k) = Ok (fromordinal (toordinal d + k)).
Proof.
  intros H. unfold date_add. cbn [timedelta_days td_days]. cbv zeta.
  replace ((0 <? toordinal d + k)%Z && (toordinal d + k <=? MAXORDINAL)%Z)
    with true
    by (symmetry; apply andb_true_intro;
        split; [apply Z.ltb_lt | apply Z.leb_le]; lia).
  reflexivity.
Qed.

(** The offset of a week day name stays within a week. *)
Lemma weekday_offset_range (d : date) (i : Z) :
  (0 <= i <= 6)%Z ->
  (1 <= i - weekday d + 7 * b2z (i <=? weekday d) <= 7)%Z.
Proof.
  intros Hi. pose proof (weekday_range d) as Hw.
  destruct (Z.leb_spec i (weekday d)); cbn [b2z]; lia.
Qed.

(** The offset of a week day name leads to the next day of that name,
    strictly after the anchor and at most a week later. *)
Lemma weekday_offset_lands (d r : date) (i : Z) :
  valid_date d = true -> (0 <= i <= 6)%Z ->
  date_add d (timedelta_days (i - weekday d + 7 * b2z (i <=? weekday d))%Z)
  = Ok r ->
  weekday r = i
  /\ (1 <= toordinal r - toordinal d <= 7)%Z
  /\ valid_date r = true.
Proof.
  intros V Hi E. destruct (date_add_ordinal d r _ E) as [Hord Vr].
  cbn [timedelta_days td_days] in Hord.
  pose proof (weekday_range d) as Hw.
  assert (Hwd : weekday d = ((toordinal d + 6) mod 7)%Z) by reflexivity.
  split; [|split; [|exact Vr]].
  - unfold weekday at 1. rewrite Hord.
    destruct (Z.leb_spec i (weekday d)); cbn [b2z];
      rewrite Hwd in *; Z.div_mod_to_equations; lia.
  - rewrite Hord. destruct (Z.leb_spec i (weekday d)); cbn [b2z]; lia.
Qed.

(** With a clock that stays on the day [today] and a text that direct
    construction refuses, parse is the cascade of its three parsers. *)
Lemma parse_cascade (today : date) (s : string) (c : clock) :
  (forall t, dt_date (c t) = today) ->
  steady (__init__ (OStr (Str.lower s))) c (Raise ValueError) ->
  steady (parse (Some s)) c
    match match month_day_number (Str.lower s) with
          | Some mday => next_month_day today mday
          | None => None
          end with
    | Some r => Ok (mkDate (PDate r))
    | None =>
    match numerical_loop today (Str.lower s) NUMERICAL_FORMATS None with
    | Some r => Ok (mkDate (PDate r))
    | None =>
    match dict_get String.eqb (Str.lower s) (text_formats today) with
    | Some offset =>
        rbind (date_add today (timedelta_days offset)) (fun r =>
        Ok (mkDate (PDate r)))
    | None => Raise ValueError
    end end end.
Proof.
  intros Hday Hinit. unfold parse. set (s' := Str.lower s) in *.
  apply steady_except; [exact Hinit|].
  assert (Htoday : steady date_today c (Ok today)).
  { intros t. unfold run, date_today. cbn [fst]. now rewrite Hday. }
  assert (Hann : forall r : date,
             steady (announce (Some r)) c (Ok (mkDate (PDate r)))).
  { intros r t. reflexivity. }
  assert (H1 : steady (_parse_only_month_day s') c
                 (Ok match month_day_number s' with
                     | Some mday => next_month_day today mday
                     | None => None
                     end)).
  { unfold _parse_only_month_day.
    destruct (month_day_number s'); [|apply steady_ret].
    eapply steady_bind; [exact Htoday | apply steady_ret]. }
  assert (H2 : steady (_parse_numerical_format s') c
                 (Ok (numerical_loop today s' NUMERICAL_FORMATS None))).
  { unfold _parse_numerical_format.
    eapply steady_bind; [exact Htoday | apply steady_ret]. }
  eapply steady_bind; [exact H1|].
  destruct (match month_day_number s' with
            | Some mday => next_month_day today mday
            | None => None
            end) as [r1|].
  { eapply steady_bind; [apply steady_ret|].
    eapply steady_bind; [apply steady_ret|]. apply Hann. }
  eapply steady_bind; [exact H2|].
  destruct (numerical_loop today s' NUMERICAL_FORMATS None) as [r2|].
  { eapply steady_bind; [apply steady_ret|]. apply Hann. }
  unfold _parse_text_representation.
  destruct (dict_get String.eqb s' (text_formats today))
    as [offset|] eqn:Eoff.
  - destruct (date_add today (timedelta_days offset)) as [r3 | e3] eqn:E3;
      cbn [rbind].
    + apply steady_bind with (a := Some r3); [|apply Hann].
      eapply steady_bind; [exact Htoday|]. rewrite Eoff.
      eapply steady_bind; [rewrite <- E3; apply steady_lift|].
      apply steady_ret.
    + apply steady_bind_raise.
      eapply steady_bind; [exact Htoday|]. rewrite Eoff.
      apply steady_bind_raise. rewrite <- E3. apply steady_lift.
  - apply steady_bind with (a := None); [|intros t; reflexivity].
    eapply steady_bind; [exact Htoday|]. rewrite Eoff. apply steady_ret.
Qed.

(** For a text that the earlier strategies of parse refuse, with a clock
    that stays on one valid day: the phrase for today parses to what
    Date.today() returns and the phrase for tomorrow to what
    Date.tomorrow() returns; the phrase for next week lands 7 days after
    today and the phrase for next year 365 days after, 366 when this year
    is a leap year, and both return as long as a year from today is within
    the calendar. *)
Theorem relative_phrases (today : date) (s : string) (p : text_phrase)
        (c : clock) (t : nat) :
  (forall t', dt_date (c t') = today) ->
  valid_date today = true ->
  steady (__init__ (OStr (Str.lower s))) c (Raise ValueError) ->
  month_day_number (Str.lower s) = None ->
  numerical_loop today (Str.lower s) NUMERICAL_FORMATS None = None ->
  text_kind (Str.lower s) = Some p ->
  (p = Ttoday ->
   run (parse (Some s)) c t = Ok (mkDate (PDate today))
   /\ run (parse (Some s)) c t = run Date_today c t)
  /\ (p = Ttomorrow ->
      run (parse (Some s)) c t = run Date_tomorrow c t)
  /\ (p = Tnext_week \/ p = Tnext_year ->
      (toordinal today + 366 <= MAXORDINAL)%Z ->
      exists r : date,
        run (parse (Some s)) c t = Ok (mkDate (PDate r))
        /\ valid_date r = true
        /\ toordinal r
           = (toordinal today
              + match p with
                | Tnext_week => 7
                | _ => 365 + b2z (isleap (year today))
                end)%Z).
Proof.
  intros Hday V Hinit Hnum Hloop Hkind.
  pose proof (parse_cascade today s c Hday Hinit t) as Hp.
  rewrite Hnum, Hloop, text_formats_get, Hkind in Hp. cbn [option_map] in Hp.
  split; [|split].
  - intros ->. cbn [text_offset] in Hp.
    rewrite (date_add_zero today V) in Hp. cbn [rbind] in Hp.
    split; [exact Hp|]. rewrite Hp.
    unfold run, Date_today, bind, date_today. cbn [fst]. now rewrite Hday.
  - intros ->. cbn [text_offset] in Hp. rewrite Hp.
    unfold run, Date_tomorrow, bind, date_today, lift. rewrite Hday.
    destruct (date_add today (timedelta_days 1)); reflexivity.
  - intros Hcase Hmax. pose proof (toordinal_range today V) as R.
    assert (Hoff : (text_offset today p
                    = match p with
                      | Tnext_week => 7
                      | _ => 365 + b2z (isleap (year today))
                      end)%Z)
      by (destruct Hcase as [-> | ->]; reflexivity).
    assert (Hb : (0 <= b2z (isleap (year today)) <= 1)%Z)
      by (destruct (isleap (year today)); cbn [b2z]; lia).
    assert (Hrange : (1 <= toordinal today + text_offset today p
                      <= MAXORDINAL)%Z)
      by (rewrite Hoff; destruct Hcase as [-> | ->]; lia).
    pose proof (date_add_in_range today _ Hrange) as E.
    rewrite E in Hp. cbn [rbind] in Hp.
    destruct (date_add_ordinal today _ _ E) as [Hord Vr].
    eexists. split; [exact Hp|]. split; [exact Vr|].
    rewrite Hord, Hoff. reflexivity.
Qed.

(** A week day name, in parse: as long as a week from today is within the
    calendar, parse returns the next day of that name, strictly after today
    and at most seven days later, so that today's own name means a week
    from today. *)
Theorem weekday_name_absolute (today : date) (s : string) (i : Z)
        (c : clock) (t : nat) :
  (forall t', dt_date (c t') = today) ->
  valid_date today = true ->
  (toordinal today + 7 <= MAXORDINAL)%Z ->
  steady (__init__ (OStr (Str.lower s))) c (Raise ValueError) ->
  month_day_number (Str.lower s) = None ->
  numerical_loop today (Str.lower s) NUMERICAL_FORMATS None = None ->
  text_kind (Str.lower s) = Some (Tweekday i) ->
  exists r : date,
    run (parse (Some s)) c t = Ok (mkDate (PDate r))
    /\ weekday r = i
    /\ (1 <= toordinal r - toordinal today <= 7)%Z
    /\ valid_date r = true.
Proof.
  intros Hday V Hmax Hinit Hnum Hloop Hkind.
  pose proof (parse_cascade today s c Hday Hinit t) as Hp.
  rewrite Hnum, Hloop, text_formats_get, Hkind in Hp.
  cbn [option_map text_offset] in Hp.
  pose proof (text_kind_weekday _ _ Hkind) as Hi.
  pose proof (weekday_offset_range today i Hi) as Hoff.
  pose proof (toordinal_range today V) as R.
  pose proof (date_add_in_range today
                (i - weekday today + 7 * b2z (i <=? weekday today))%Z
                ltac:(lia)) as E.
  rewrite E in Hp. cbn [rbind] in Hp.
  eexists. split; [exact Hp|].
  apply (weekday_offset_lands today _ i V Hi E).
Qed.

(** A week day name, in parse_from_date, whether the task is new or not:
    as long as a week from the anchor is within the calendar, the result
    is the next day of that name strictly after the anchor's date, at most
    seven days later. *)
Theorem weekday_name_recurrence (self : Date) (d : date) (s : string)
        (i : Z) (newtask : bool) (c : clock) (t : nat) :
  steady (self_date_of self) c (Ok d) ->
  valid_date d = true ->
  (toordinal d + 7 <= MAXORDINAL)%Z ->
  steady (__init__ (OStr (Str.lower s))) c (Raise ValueError) ->
  month_day_number (Str.lower s) = None ->
  (forall anchor : date,
      numerical_loop anchor (Str.lower s) NUMERICAL_FORMATS None = None) ->
  phrase_kind (Str.lower s) = Some (Pweekday i) ->
  exists r : date,
    run (parse_from_date self (Some s) newtask) c t = Ok (mkDate (PDate r))
    /\ weekday r = i
    /\ (1 <= toordinal r - toordinal d <= 7)%Z
    /\ valid_date r = true.
Proof.
  intros Hanchor V Hmax Hinit Hnum Hloop Hkind.
  pose proof (parse_from_date_cascade self d s newtask c Hanchor Hinit t)
    as Hp.
  pose proof (phrase_kind_weekday _ _ Hkind) as Hi.
  pose proof (weekday_offset_range d i Hi) as Hoff.
  pose proof (toordinal_range d V) as R.
  pose proof (date_add_in_range d 1 ltac:(lia)) as E1.
  pose proof (date_add_in_range d
                (i - weekday d + 7 * b2z (i <=? weekday d))%Z
                ltac:(lia)) as E.
  assert (Hsd : exists sd : date,
             (if negb newtask then date_add d (timedelta_days 1) else Ok d)
             = Ok sd).
  { destruct newtask; cbn [negb]; eexists; [reflexivity | exact E1]. }
  destruct Hsd as [sd Hsd]. rewrite Hsd in Hp. cbn [rbind] in Hp.
  rewrite Hnum, Hloop, recurrency_formats_get, Hkind in Hp.
  cbn [option_map phrase_offset] in Hp.
  rewrite E in Hp. cbn [rbind] in Hp.
  eexists. split; [exact Hp|].
  apply (weekday_offset_lands d _ i V Hi E).
Qed.

(** *** Where the Now sentinel can come from *)

Lemma lower_ascii_idempotent (a : ascii) :
  Str.lower_ascii (Str.lower_ascii a) = Str.lower_ascii a.
Proof.
  destruct a as [b0 b1 b2 b3 b4 b5 b6 b7].
  destruct b0, b1, b2, b3, b4, b5, b6, b7; reflexivity.
Qed.

Lemma lower_idempotent (s : string) : Str.lower (Str.lower s) = Str.lower s.
Proof.
  induction s as [| a s IH]; cbn [Str.lower]; [reflexivity|].
  now rewrite lower_ascii_idempotent, IH.
Qed.

(** What LOOKUP holds for a string key: one of the four codes, and the
    Now code only for the token now or the catalogue's word for it. *)
Lemma LOOKUP_string (k : string) (v : Z) :
  dict_get key_eqb (KStr k) LOOKUP = Some v ->
  (v = NOW /\ (k = "now" \/ k = gettext "now"))
  \/ v = SOON \/ v = SOMEDAY \/ v = NODATE.
Proof.
  intros H. apply dict_get_In_key in H. destruct H as (k' & Hin & Hk).
  unfold LOOKUP in Hin. cbn [In] in Hin.
  repeat (destruct Hin as [Hin | Hin];
          [ injection Hin as <- <-; cbn [key_eqb] in Hk;
            first [ discriminate Hk
                  | apply String.eqb_eq in Hk; subst k; auto 6
                  | auto 6 ]
          | ]).
  contradiction.
Qed.

(** What LOOKUP holds for an integer key: the key itself, a code. *)
Lemma LOOKUP_int (n v : Z) :
  dict_get key_eqb (KInt n) LOOKUP = Some v ->
  v = n /\ (n = NOW \/ n = SOON \/ n = SOMEDAY \/ n = NODATE).
Proof.
  intros H. apply dict_get_In_key in H. destruct H as (k' & Hin & Hk).
  unfold LOOKUP in Hin. cbn [In] in Hin.
  repeat (destruct Hin as [Hin | Hin];
          [ injection Hin as <- <-; cbn [key_eqb] in Hk;
            first [ discriminate Hk
                  | apply Z.eqb_eq in Hk; subst n; auto 6 ]
          | ]).
  contradiction.
Qed.

Lemma parse_with_formats_concrete (s : string)
      (formats : list (string * Accuracy.t)) (v : pyval) :
  parse_with_formats s formats = Some v ->
  (exists d, v = PDate d) \/ (exists dt, v = PDatetime dt).
Proof.
  induction formats as [| [f a] rest IH]; cbn [parse_with_formats];
    [discriminate|].
  destruct (strptime s f) as [dt|]; [|exact IH].
  destruct (Accuracy.eqb a Accuracy.date); intros H;
    [left; exists (datetime_date dt) | right; exists dt]; congruence.
Qed.

(** What __parse_dt_str returns: a date, a datetime or a code, and the Now
    code only for a text that is not the token now, nor the lowercase of
    the catalogue's word, but has one of them as its lowercase. *)
Lemma parse_dt_str_values (s : string) (v : pyval) (c : clock) (t : nat) :
  run (__parse_dt_str s) c t = Ok (Some v) ->
  (exists d, v = PDate d) \/ (exists dt, v = PDatetime dt)
  \/ v = PInt SOON \/ v = PInt SOMEDAY \/ v = PInt NODATE
  \/ (v = PInt NOW
      /\ String.eqb s "now" || String.eqb s (Str.lower (gettext "now")) = false
      /\ (Str.lower s = "now" \/ Str.lower s = gettext "now")).
Proof.
  unfold run, __parse_dt_str.
  destruct (date_fromisoformat s) as [d|];
    [cbn; intros H; left; exists d; congruence|].
  destruct (datetime_fromisoformat s) as [dt|];
    [cbn; intros H; right; left; exists dt; congruence|].
  destruct (parse_with_formats s DATE_FORMATS) as [w|] eqn:Ef.
  { cbn. intros H. assert (w = v) by congruence. subst w.
    destruct (parse_with_formats_concrete _ _ _ Ef); auto. }
  destruct (String.eqb s "now" || String.eqb s (Str.lower (gettext "now")))
    eqn:Enow.
  { cbn. intros H. right. left. exists (replace_tzinfo (c t) None).
    congruence. }
  cbn [ret fst].
  destruct (dict_get key_eqb (KStr (Str.lower s)) LOOKUP) as [n|] eqn:El;
    cbn [option_map]; [|discriminate].
  intros H. assert (v = PInt n) by congruence. subst v.
  destruct (LOOKUP_string _ _ El) as [[-> Hk] | [-> | [-> | ->]]]; auto 8.
Qed.

(** The constructor stores the Now sentinel only when it copies it from
    another Date, or when it is given a text that is neither the token
    now nor the lowercase of the catalogue's word for it, but whose
    lowercase is that token or that word.  The now code 0 and the token
    itself never store it. *)
Theorem now_sentinel_origin (x : pyobj) (d : Date) (c : clock) (t : nat) :
  run (__init__ x) c t = Ok d ->
  dt_value d = PInt NOW ->
  (exists d0 : Date, x = OGtgDate d0 /\ dt_value d0 = PInt NOW)
  \/ (exists s : string,
         x = OStr s
         /\ s <> "now" /\ s <> Str.lower (gettext "now")
         /\ (Str.lower s = "now" \/ Str.lower s = gettext "now")).
Proof.
  intros Hrun Hnow. destruct x as [| s | n | d0 | dt | td | d0];
    unfold run, __init__ in Hrun.
  - cbn in Hrun. assert (d = mkDate (PInt NODATE)) by congruence. subst d.
    discriminate Hnow.
  - right. exists s.
    destruct (String.eqb s "None" || String.eqb s "") eqn:E0.
    { cbn in Hrun. assert (d = mkDate (PInt NODATE)) by congruence.
      subst d. discriminate Hnow. }
    unfold bind in Hrun.
    pose proof (parse_dt_str_values s (dt_value d) c t) as Hv.
    unfold run in Hv.
    destruct (__parse_dt_str s c t) as [[[v|] | e] t']; cbn in Hrun;
      try discriminate.
    assert (d = mkDate v) by congruence. subst d. cbn [dt_value] in *.
    specialize (Hv eq_refl). rewrite Hnow in Hv.
    destruct Hv as [[? Hv] | [[? Hv] | [Hv | [Hv | [Hv | Hv]]]]];
      try discriminate.
    destruct Hv as (_ & Hneq & Hlow). apply orb_false_iff in Hneq.
    destruct Hneq as [N1 N2]. apply String.eqb_neq in N1, N2. auto.
  - destruct (n =? 0)%Z eqn:E0.
    { cbn in Hrun.
      assert (E : d = mkDate (PDatetime (replace_tzinfo (c t) None)))
        by congruence.
      subst d. discriminate Hnow. }
    destruct (dict_get key_eqb (KInt n) LOOKUP) as [v|] eqn:El;
      cbn in Hrun; [|discriminate].
    assert (d = mkDate (PInt v)) by congruence. subst d.
    cbn [dt_value] in Hnow. destruct (LOOKUP_int _ _ El) as [-> _].
    assert (n = NOW) by congruence. subst n. discriminate E0.
  - cbn in Hrun. assert (d = mkDate (PDate d0)) by congruence. subst d.
    discriminate Hnow.
  - cbn in Hrun. assert (d = mkDate (PDatetime dt)) by congruence. subst d.
    discriminate Hnow.
  - cbn in Hrun. discriminate.
  - left. exists d0. cbn in Hrun.
    assert (d = mkDate (dt_value d0)) by congruence. subst d.
    split; [reflexivity | exact Hnow].
Qed.

(** *** What parse and parse_from_date return can always be rendered *)

Lemma yields_dates_announce (r : option date) : yields_dates (announce r).
Proof.
  intros c t res. destruct r as [d|]; unfold run; cbn; [|discriminate].
  intros H. exists d. congruence.
Qed.

Lemma yields_dates_bind {A : Type} (m : M A) (k : A -> M Date) :
  (forall a, yields_dates (k a)) -> yields_dates (bind m k).
Proof.
  intros Hk c t res. unfold run, bind.
  destruct (m c t) as [[a | e] t']; [apply Hk | discriminate].
Qed.

Lemma renders_date (d : date) : renders (mkDate (PDate d)).
Proof.
  split; [discriminate|]. exists (Str.date_isoformat d). reflexivity.
Qed.

Lemma renders_datetime (dt : datetime) : renders (mkDate (PDatetime dt)).
Proof.
  split; [discriminate|]. exists (Str.datetime_isoformat dt).
  unfold __str__, accuracy. cbn [dt_value]. destruct (tzinfo dt); reflexivity.
Qed.

(** The constructor on a lowercased text never stores the Now sentinel. *)
Lemma init_lowercase_renders (s : string) (res : Date)
      (c : clock) (t : nat) :
  run (__init__ (OStr (Str.lower s))) c t = Ok res -> renders res.
Proof.
  unfold run, __init__.
  assert (Hnone : renders (mkDate (PInt NODATE))).
  { split; [discriminate|]. exists "". reflexivity. }
  destruct (String.eqb (Str.lower s) "None" || String.eqb (Str.lower s) "").
  { cbn. intros H. assert (res = mkDate (PInt NODATE)) by congruence.
    now subst res. }
  unfold bind.
  pose proof (parse_dt_str_values (Str.lower s) (dt_value res) c t) as Hv.
  unfold run in Hv.
  destruct (__parse_dt_str (Str.lower s) c t) as [[[v|] | e] t']; cbn;
    try discriminate.
  intros H. assert (res = mkDate v) by congruence. subst res.
  cbn [dt_value] in Hv.
  destruct (Hv eq_refl)
    as [[d ->] | [[dt ->] | [-> | [-> | [-> | (-> & Hneq & Hlow)]]]]].
  - apply renders_date.
  - apply renders_datetime.
  - split; [discriminate|]. exists "soon". reflexivity.
  - split; [discriminate|]. exists "someday". reflexivity.
  - exact Hnone.
  - exfalso. rewrite lower_idempotent in Hlow.
    apply orb_false_iff in Hneq. destruct Hneq as [N1 N2].
    apply String.eqb_neq in N1, N2. destruct Hlow as [E | E].
    + contradiction.
    + apply N2. rewrite <- E. symmetry. apply lower_idempotent.
Qed.

(** Whatever parse or parse_from_date returns can be rendered: the result
    never holds the Now sentinel, and __str__ succeeds on it. *)
Theorem parsed_dates_render :
  (forall (s : option string) (res : Date) (c : clock) (t : nat),
      run (parse s) c t = Ok res -> renders res)
  /\ (forall (self : Date) (s : option string) (newtask : bool)
             (res : Date) (c : clock) (t : nat),
         run (parse_from_date self s newtask) c t = Ok res -> renders res).
Proof.
  assert (Hexcept : forall (s : option string) (h : M Date) (res : Date)
                           (c : clock) (t : nat),
             yields_dates h ->
             run (except_ValueError
                    (__init__ (OStr match s with
                                    | None => ""
                                    | Some x => Str.lower x
                                    end)) h) c t = Ok res ->
             renders res).
  { intros s h res c t Hh. unfold run, except_ValueError.
    assert (El : match s with None => "" | Some x => Str.lower x end
                 = Str.lower match s with None => "" | Some x => x end)
      by (destruct s; reflexivity).
    rewrite El.
    pose proof (init_lowercase_renders
                  match s with None => "" | Some x => x end res c t) as Hi.
    unfold run in Hi.
    destruct (__init__
                (OStr (Str.lower match s with None => "" | Some x => x end))
                c t) as [[a | e] t'].
    - exact Hi.
    - destruct e; try discriminate.
      intros H. destruct (Hh c t' res H) as [d ->]. apply renders_date. }
  split.
  - intros s res c t. unfold parse. apply Hexcept.
    repeat (apply yields_dates_bind; intros ?). apply yields_dates_announce.
  - intros self s newtask res c t. unfold parse_from_date. apply Hexcept.
    repeat (apply yields_dates_bind; intros ?). apply yields_dates_announce.
Qed.

(** *** Comparisons read from either side *)

Lemma date_compare_antisym (a b : date) :
  date_compare b a = CompOpp (date_compare a b).
Proof.
  unfold date_compare.
  rewrite (Z.compare_antisym (year a) (year b)),
          (Z.compare_antisym (month a) (month b)),
          (Z.compare_antisym (day a) (day b)).
  destruct (year a ?= year b)%Z, (month a ?= month b)%Z; reflexivity.
Qed.

Lemma fields_compare_antisym (a b : datetime) :
  fields_compare b a = CompOpp (fields_compare a b).
Proof.
  unfold fields_compare.
  rewrite (date_compare_antisym (dt_date a) (dt_date b)),
          (Z.compare_antisym (hour a) (hour b)),
          (Z.compare_antisym (minute a) (minute b)),
          (Z.compare_antisym (second a) (second b)),
          (Z.compare_antisym (microsecond a) (microsecond b)).
  destruct (date_compare (dt_date a) (dt_date b)), (hour a ?= hour b)%Z,
    (minute a ?= minute b)%Z, (second a ?= second b)%Z; reflexivity.
Qed.

Lemma opt_z_eqb_sym (x y : option Z) : opt_z_eqb x y = opt_z_eqb y x.
Proof. destruct x, y; cbn; try reflexivity. apply Z.eqb_sym. Qed.

Lemma datetime_compare_antisym (a b : datetime) :
  datetime_compare b a = option_map CompOpp (datetime_compare a b).
Proof.
  unfold datetime_compare.
  rewrite (opt_z_eqb_sym (offset_of b) (offset_of a)).
  destruct (opt_z_eqb (offset_of a) (offset_of b)).
  - cbn. now rewrite fields_compare_antisym.
  - destruct (offset_of a), (offset_of b); cbn; try reflexivity.
    now rewrite Z.compare_antisym.
Qed.

Lemma py_eq_sym (x y : pyval) : py_eq x y = py_eq y x.
Proof.
  destruct x as [n | d | dt | td], y as [n' | d' | dt' | td'];
    cbn [py_eq]; try reflexivity.
  - apply Z.eqb_sym.
  - unfold date_eqb. rewrite (date_compare_antisym d d').
    destruct (date_compare d d'); reflexivity.
  - rewrite (datetime_compare_antisym dt dt').
    destruct (datetime_compare dt dt') as [[| |]|]; reflexivity.
  - unfold timedelta_eqb.
    now rewrite (Z.eqb_sym (td_days td)), (Z.eqb_sym (td_seconds td)),
      (Z.eqb_sym (td_microseconds td)).
Qed.

Lemma py_order_flip (test test' : comparison -> bool) (x y : pyval) :
  (forall k, test' (CompOpp k) = test k) ->
  py_order test' y x = py_order test x y.
Proof.
  intros Hflip.
  destruct x as [n | d | dt | td], y as [n' | d' | dt' | td'];
    cbn [py_order]; try reflexivity.
  - now rewrite (Z.compare_antisym n n'), Hflip.
  - now rewrite (date_compare_antisym d d'), Hflip.
  - rewrite (datetime_compare_antisym dt dt').
    destruct (datetime_compare dt dt'); cbn; [now rewrite Hflip | reflexivity].
  - now rewrite (Z.compare_antisym (timedelta_to_us td)), Hflip.
Qed.

Lemma dt_by_accuracy_same (self : Date) (acc : Accuracy.t) :
  accuracy self = acc -> dt_by_accuracy self acc = ret (dt_value self).
Proof.
  intros <-. unfold dt_by_accuracy. now rewrite accuracy_eqb_refl.
Qed.

Lemma accuracy_eqb_sym (a b : Accuracy.t) :
  Accuracy.eqb a b = Accuracy.eqb b a.
Proof. destruct a, b; reflexivity. Qed.

(** Operand normalization with the operands exchanged gives the same
    pair, exchanged, or the same exception, after the same readings of the
    clock. *)
Lemma cast_for_operation_swap (a b : Date) (is_comparison : bool)
      (c : clock) (t : nat) :
  _cast_for_operation a (OGtgDate b) is_comparison c t
  = (match fst (_cast_for_operation b (OGtgDate a) is_comparison c t) with
     | Ok yx => Ok (snd yx, fst yx)
     | Raise e => Raise e
     end,
     snd (_cast_for_operation b (OGtgDate a) is_comparison c t)).
Proof.
  unfold _cast_for_operation, bind, ret.
  rewrite (accuracy_eqb_sym (accuracy b) (accuracy a)).
  destruct (Accuracy.eqb (accuracy a) (accuracy b)) eqn:E; [reflexivity|].
  assert (Hleft : forall acc, accuracy a = acc ->
            (x <- dt_by_accuracy a acc ;; y <- dt_by_accuracy b acc ;;
             ret (x, y)) c t
            = (match fst ((y <- dt_by_accuracy b acc ;;
                           x <- dt_by_accuracy a acc ;; ret (y, x)) c t) with
               | Ok yx => Ok (snd yx, fst yx)
               | Raise e => Raise e
               end,
               snd ((y <- dt_by_accuracy b acc ;;
                     x <- dt_by_accuracy a acc ;; ret (y, x)) c t))).
  { intros acc Ha. rewrite (dt_by_accuracy_same a acc Ha).
    unfold bind, ret.
    destruct (dt_by_accuracy b acc c t) as [[y | e] t']; reflexivity. }
  assert (Hright : forall acc, accuracy b = acc ->
            (x <- dt_by_accuracy a acc ;; y <- dt_by_accuracy b acc ;;
             ret (x, y)) c t
            = (match fst ((y <- dt_by_accuracy b acc ;;
                           x <- dt_by_accuracy a acc ;; ret (y, x)) c t) with
               | Ok yx => Ok (snd yx, fst yx)
               | Raise e => Raise e
               end,
               snd ((y <- dt_by_accuracy b acc ;;
                     x <- dt_by_accuracy a acc ;; ret (y, x)) c t))).
  { intros acc Hb. rewrite (dt_by_accuracy_same b acc Hb).
    unfold bind, ret.
    destruct (dt_by_accuracy a acc c t) as [[x | e] t']; reflexivity. }
  cbn [cast_loop].
  destruct (accuracy a) eqn:Ha, (accuracy b) eqn:Hb;
    try discriminate E; cbn [Accuracy.eqb orb];
    first [ apply Hleft; reflexivity | apply Hright; reflexivity ].
Qed.

(** Between two Dates, == and != give the same answer from either side,
    a < b is b > a and a <= b is b >= a, exceptions included. *)
Theorem comparisons_mirror (a b : Date) (c : clock) (t : nat) :
  run (__eq__ a (OGtgDate b)) c t = run (__eq__ b (OGtgDate a)) c t
  /\ run (__ne__ a (OGtgDate b)) c t = run (__ne__ b (OGtgDate a)) c t
  /\ run (__lt__ a (OGtgDate b)) c t = run (__gt__ b (OGtgDate a)) c t
  /\ run (__le__ a (OGtgDate b)) c t = run (__ge__ b (OGtgDate a)) c t
  /\ run (__gt__ a (OGtgDate b)) c t = run (__lt__ b (OGtgDate a)) c t
  /\ run (__ge__ a (OGtgDate b)) c t = run (__le__ b (OGtgDate a)) c t.
Proof.
  assert (Heq : run (__eq__ a (OGtgDate b)) c t
                = run (__eq__ b (OGtgDate a)) c t).
  { unfold run, __eq__, bind. rewrite (cast_for_operation_swap a b true c t).
    destruct (_cast_for_operation b (OGtgDate a) true c t)
      as [[[y x] | e] t']; cbn; [|reflexivity].
    now rewrite py_eq_sym. }
  assert (Hord : forall test test' : comparison -> bool,
             (forall k, test' (CompOpp k) = test k) ->
             fst ((' (x, y) <- _cast_for_operation a (OGtgDate b) true ;;
                   lift (py_order test x y)) c t)
             = fst ((' (x, y) <- _cast_for_operation b (OGtgDate a) true ;;
                     lift (py_order test' x y)) c t)).
  { intros test test' Hflip. unfold bind.
    rewrite (cast_for_operation_swap a b true c t).
    destruct (_cast_for_operation b (OGtgDate a) true c t)
      as [[[y x] | e] t']; cbn; [|reflexivity].
    symmetry. now apply py_order_flip. }
  split; [exact Heq|]. split.
  { unfold run, __ne__, bind in *.
    destruct (__eq__ a (OGtgDate b) c t) as [[r | e] t1],
             (__eq__ b (OGtgDate a) c t) as [[r' | e'] t2];
      cbn in *; congruence. }
  unfold run, __lt__, __le__, __gt__, __ge__, py_lt, py_le, py_gt, py_ge.
  repeat split; apply Hord; intros [| |]; reflexivity.
Qed.

(** *** Days left *)

(** The day count of a datetime with a valid time of day, moved by whole
    days. *)
Lemma datetime_add_days_count (dt : datetime) (k : Z) :
  valid_time (hour dt) (minute dt) (second dt) (microsecond dt) = true ->
  td_days (timedelta_of_us
             (datetime_to_us dt + timedelta_to_us (timedelta_days k)))
  = (toordinal (dt_date dt) + k)%Z.
Proof.
  intros Vt. unfold valid_time in Vt.
  repeat (apply andb_prop in Vt; destruct Vt as [Vt ?]).
  repeat match goal with
         | H : (_ <=? _)%Z = true |- _ => apply Z.leb_le in H
         end.
  unfold timedelta_of_us, datetime_to_us, timedelta_to_us, timedelta_days,
    US_PER_DAY, US_PER_SECOND.
  cbn [td_days td_seconds td_microseconds].
  generalize (toordinal (dt_date dt)). intros o.
  match goal with
  | |- (?a / ?b)%Z = _ =>
      destruct (divmod_unique a b (o + k)
                  ((hour dt * 3600 + minute dt * 60 + second dt) * 1000000
                   + microsecond dt)%Z) as [Hq _];
      [lia | lia | exact Hq]
  end.
Qed.

(** Adding whole days to a datetime with a valid time of day succeeds
    exactly within the range of ordinals, and moves the calendar date by
    that many days. *)
Lemma datetime_add_days (dt : datetime) (k : Z) :
  valid_time (hour dt) (minute dt) (second dt) (microsecond dt) = true ->
  (1 <= toordinal (dt_date dt) + k <= MAXORDINAL)%Z ->
  exists r : datetime,
    datetime_add dt (timedelta_days k) = Ok r
    /\ dt_date r = fromordinal (toordinal (dt_date dt) + k)
    /\ tzinfo r = tzinfo dt.
Proof.
  intros Vt Hrange. pose proof (datetime_add_days_count dt k Vt) as Ediv.
  unfold datetime_add.
  generalize dependent (timedelta_of_us
                          (datetime_to_us dt
                           + timedelta_to_us (timedelta_days k))).
  intros delta Ediv. rewrite Ediv.
  replace ((0 <? toordinal (dt_date dt) + k)%Z
           && (toordinal (dt_date dt) + k <=? MAXORDINAL)%Z) with true
    by (symmetry; apply andb_true_intro;
        split; [apply Z.ltb_lt | apply Z.leb_le]; lia).
  eexists. split; [reflexivity|]. split; reflexivity.
Qed.

(** days_left is None for no date; for a date k days after today it is k
    (0 for today, 1 for tomorrow, negative in the past); and for Soon and
    Someday, as long as the clock stays on the same day, it is the 15 and
    365 days of their resolution. *)
Theorem days_left_counts (c : clock) (t : nat) :
  days_left (mkDate (PInt NODATE)) c t = (Ok None, t)
  /\ (forall (k : Z) (d : date),
         valid_date (dt_date (c t)) = true ->
         date_add (dt_date (c t)) (timedelta_days k) = Ok d ->
         days_left (mkDate (PDate d)) c t = (Ok (Some k), S t))
  /\ (forall tag k : Z,
         In (tag, k) [(SOON, 15%Z); (SOMEDAY, 365%Z)] ->
         valid_date (dt_date (c t)) = true ->
         valid_time (hour (c t)) (minute (c t)) (second (c t))
                    (microsecond (c t)) = true ->
         dt_date (c (S t)) = dt_date (c t) ->
         (toordinal (dt_date (c t)) + k <= MAXORDINAL)%Z ->
         days_left (mkDate (PInt tag)) c t = (Ok (Some k), S (S t))).
Proof.
  split; [reflexivity|]. split.
  - intros k d V E. destruct (date_add_ordinal _ _ _ E) as [Hord _].
    cbn [timedelta_days td_days] in Hord.
    unfold days_left, dt_by_accuracy.
    cbn [dt_value py_eq accuracy Accuracy.eqb].
    unfold bind, lift, ret, date_today. cbn [py_sub]. unfold date_sub.
    cbn [td_days timedelta_days]. rewrite Hord. do 3 f_equal. lia.
  - intros tag k Hin V Vt Hday Hmax.
    assert (Hsub : subscript delta_days (PInt tag) = Ok k).
    { destruct Hin as [E | [E | []]]; inversion E; reflexivity. }
    assert (Hne : py_eq (PInt tag) (PInt NODATE) = false).
    { destruct Hin as [E | [E | []]]; inversion E; reflexivity. }
    pose proof (toordinal_range _ V) as R.
    assert (Hk : (0 <= k)%Z)
      by (destruct Hin as [E | [E | []]]; inversion E; lia).
    assert (Vn : valid_time (hour (replace_tzinfo (c t) None))
                            (minute (replace_tzinfo (c t) None))
                            (second (replace_tzinfo (c t) None))
                            (microsecond (replace_tzinfo (c t) None)) = true)
      by exact Vt.
    assert (Hrange : (1 <= toordinal (dt_date (replace_tzinfo (c t) None)) + k
                      <= MAXORDINAL)%Z)
      by (cbn [replace_tzinfo dt_date]; lia).
    destruct (datetime_add_days (replace_tzinfo (c t) None) k Vn Hrange)
      as (later & E & Hdate & Htz).
    cbn [replace_tzinfo dt_date tzinfo] in Hdate, Htz, Hrange.
    unfold days_left. cbn [dt_value]. rewrite Hne.
    unfold bind at 1. unfold dt_by_accuracy.
    cbn [accuracy dt_value Accuracy.eqb].
    unfold bind at 1. unfold datetime_now. unfold bind at 1. unfold lift at 1.
    rewrite Hsub. unfold bind at 1. unfold lift at 1. rewrite E.
    unfold __init__, bind, ret, lift, accuracy, date_today.
    cbn [dt_value]. rewrite Htz. cbn [Accuracy.eqb].
    unfold _dt_by_accuracy. cbn [Accuracy.eqb datetime_date py_sub].
    unfold date_sub. cbn [td_days timedelta_days].
    unfold datetime_date. rewrite Hday, Hdate.
    destruct (toordinal_fromordinal _ Hrange) as [-> _].
    do 3 f_equal. lia.
Qed.

End Further.

(** ** Order, differences and the casts between datetimes *)

Section Ordering.
Context {P : Platform}.
Open Scope Z_scope.

(** A later year starts at least one whole year of days later. *)
Lemma days_before_year_monotone (y y' : Z) :
  y < y' -> days_before_year y + 365 + b2z (isleap y) <= days_before_year y'.
Proof.
  intros H.
  assert (Hstep : days_before_year (y + 1)
                  = days_before_year y + 365 + b2z (isleap y)).
  { unfold days_before_year, isleap. cbv zeta.
    replace (y + 1 - 1) with y by lia.
    assert (H4 : y / 4 - (y - 1) / 4 = b2z (y mod 4 =? 0)).
    { destruct (Z.eqb_spec (y mod 4) 0); cbn [b2z];
        Z.div_mod_to_equations; lia. }
    assert (H100 : y / 100 - (y - 1) / 100 = b2z (y mod 100 =? 0)).
    { destruct (Z.eqb_spec (y mod 100) 0); cbn [b2z];
        Z.div_mod_to_equations; lia. }
    assert (H400 : y / 400 - (y - 1) / 400 = b2z (y mod 400 =? 0)).
    { destruct (Z.eqb_spec (y mod 400) 0); cbn [b2z];
        Z.div_mod_to_equations; lia. }
    assert (Himp : (y mod 400 = 0 -> y mod 100 = 0)
                   /\ (y mod 100 = 0 -> y mod 4 = 0)).
    { Z.div_mod_to_equations. lia. }
    destruct (Z.eqb_spec (y mod 4) 0), (Z.eqb_spec (y mod 100) 0),
      (Z.eqb_spec (y mod 400) 0); cbn [b2z andb orb negb] in *; lia. }
  rewrite <- Hstep.
  assert (Hmono : days_before_year (y + 1) <= days_before_year y').
  { unfold days_before_year. cbv zeta. Z.div_mod_to_equations. lia. }
  exact Hmono.
Qed.

(** Within a year, every day of a later month comes after every day of
    an earlier one. *)
Lemma yday_month_monotone (leap : bool) (m1 m2 d1 d2 : Z) :
  1 <= m1 -> m1 < m2 -> m2 <= 12 ->
  d1 <= month_length leap m1 -> 1 <= d2 ->
  yday leap m1 d1 < yday leap m2 d2.
Proof.
  intros H1 H12 H2 Hd1 Hd2.
  assert (E1 : yday leap m1 d1 = yday leap m1 1 + (d1 - 1))
    by (unfold yday; lia).
  assert (E2 : yday leap m2 d2 = yday leap m2 1 + (d2 - 1))
    by (unfold yday; lia).
  assert (G : yday leap m1 1 + month_length leap m1 <= yday leap m2 1).
  { clear E1 E2 Hd1 Hd2 d1 d2.
    destruct leap; month_cases m1; month_cases m2;
      first [ lia | apply Z.leb_le; vm_compute; reflexivity ]. }
  lia.
Qed.

(** The order of the (year, month, day) tuples is the order of the
    ordinals. *)
Lemma toordinal_lt (a b : date) :
  valid_date a = true -> valid_date b = true ->
  date_compare a b = Lt -> toordinal a < toordinal b.
Proof.
  intros Va Vb. destruct (valid_date_bounds a Va) as (Hya & Hma & Hda).
  destruct (valid_date_bounds b Vb) as (Hyb & Hmb & Hdb).
  rewrite !toordinal_split. unfold date_compare.
  destruct (Z.compare_spec (year a) (year b)) as [Ey | Ly | Gy];
    [| intros _ | discriminate].
  - rewrite Ey in *.
    destruct (Z.compare_spec (month a) (month b)) as [Em | Lm | Gm];
      [| intros _ | discriminate].
    + rewrite Em. intros L. rewrite Z.compare_lt_iff in L. unfold yday. lia.
    + pose proof (yday_month_monotone (isleap (year b)) (month a) (month b)
                    (day a) (day b)). lia.
  - pose proof (days_before_year_monotone _ _ Ly).
    pose proof (yday_nonneg (isleap (year b)) (month b) (day b)).
    destruct (month_day_yday (isleap (year a)) (month a) (day a) Hma Hda)
      as [[L _] | (Hl & _ & _ & E)].
    + assert (0 <= b2z (isleap (year a)))
        by (destruct (isleap (year a)); cbn; lia).
      lia.
    + rewrite E, Hl in *. cbn [b2z] in *. lia.
Qed.

(** Valid dates compare as their ordinals. *)
Lemma date_compare_ordinal (a b : date) :
  valid_date a = true -> valid_date b = true ->
  date_compare a b = (toordinal a ?= toordinal b).
Proof.
  intros Va Vb. destruct (date_compare a b) eqn:E; symmetry.
  - apply Z.compare_eq_iff. f_equal.
    unfold date_compare in E.
    destruct (Z.compare_spec (year a) (year b)); try discriminate.
    destruct (Z.compare_spec (month a) (month b)); try discriminate.
    apply Z.compare_eq_iff in E. destruct a, b; cbn in *; congruence.
  - apply Z.compare_lt_iff. now apply toordinal_lt.
  - apply Z.compare_gt_iff. apply toordinal_lt; try assumption.
    rewrite date_compare_antisym, E. reflexivity.
Qed.


(** Between two Dates of date accuracy the six comparisons read the sign
    of the difference in days that subtraction returns: a < b exactly when
    b - a is a positive number of days, a == b exactly when it is zero. *)
Theorem comparisons_follow_difference (a b : date) (c : clock) (t : nat) :
  valid_date a = true -> valid_date b = true ->
  exists k : Z,
    run (__sub__ (mkDate (PDate b)) (OGtgDate (mkDate (PDate a)))) c t
    = Ok (PTimedelta (timedelta_days k))
    /\ run (__lt__ (mkDate (PDate a)) (OGtgDate (mkDate (PDate b)))) c t
       = Ok (0 <? k)
    /\ run (__le__ (mkDate (PDate a)) (OGtgDate (mkDate (PDate b)))) c t
       = Ok (0 <=? k)
    /\ run (__eq__ (mkDate (PDate a)) (OGtgDate (mkDate (PDate b)))) c t
       = Ok (k =? 0)
    /\ run (__ne__ (mkDate (PDate a)) (OGtgDate (mkDate (PDate b)))) c t
       = Ok (negb (k =? 0))
    /\ run (__gt__ (mkDate (PDate a)) (OGtgDate (mkDate (PDate b)))) c t
       = Ok (k <? 0)
    /\ run (__ge__ (mkDate (PDate a)) (OGtgDate (mkDate (PDate b)))) c t
       = Ok (k <=? 0).
Proof.
  intros Va Vb. exists (toordinal b - toordinal a).
  pose proof (date_compare_ordinal a b Va Vb) as E.
  unfold run, __sub__, __lt__, __le__, __ne__, __eq__, __gt__, __ge__,
    _cast_for_operation, bind, ret, lift, py_lt, py_le, py_gt, py_ge.
  cbn [fst accuracy dt_value Accuracy.eqb py_order py_eq py_sub].
  unfold date_sub, date_eqb. rewrite E.
  generalize (toordinal a) (toordinal b). intros x y.
  split; [reflexivity|].
  destruct (Z.compare_spec x y) as [H | H | H];
    cbn [is_lt is_le is_gt is_ge negb];
    repeat split; f_equal; symmetry;
    first [ apply Z.ltb_lt; lia | apply Z.leb_le; lia | apply Z.eqb_eq; lia
          | apply Z.ltb_ge; lia | apply Z.leb_gt; lia
          | apply negb_true_iff, Z.eqb_neq; lia
          | apply negb_false_iff, Z.eqb_eq; lia
          | apply Z.eqb_neq; lia ].
Qed.


(** A fuzzy Date cast to date accuracy is the calendar date of the clock
    moved by the days of delta_days; the clock is read once. *)
Lemma fuzzy_as_date (tag k : Z) (c : clock) (t : nat) :
  In (tag, k) delta_days ->
  valid_time (hour (c t)) (minute (c t)) (second (c t))
             (microsecond (c t)) = true ->
  (1 <= toordinal (dt_date (c t)) + k <= MAXORDINAL)%Z ->
  dt_by_accuracy (mkDate (PInt tag)) Accuracy.date c t
  = (Ok (PDate (fromordinal (toordinal (dt_date (c t)) + k))), S t).
Proof.
  intros Hin Vt Hrange.
  assert (Hsub : subscript delta_days (PInt tag) = Ok k).
  { destruct Hin as [E | [E | [E | []]]]; inversion E; reflexivity. }
  assert (Vn : valid_time (hour (replace_tzinfo (c t) None))
                          (minute (replace_tzinfo (c t) None))
                          (second (replace_tzinfo (c t) None))
                          (microsecond (replace_tzinfo (c t) None)) = true)
    by exact Vt.
  destruct (datetime_add_days (replace_tzinfo (c t) None) k Vn Hrange)
    as (later & E & Hdate & Htz).
  cbn [replace_tzinfo dt_date tzinfo] in Hdate, Htz.
  unfold dt_by_accuracy. cbn [accuracy dt_value Accuracy.eqb].
  unfold bind at 1. unfold datetime_now. unfold bind at 1. unfold lift at 1.
  rewrite Hsub. unfold bind at 1. unfold lift at 1. rewrite E.
  unfold __init__, bind, ret, lift, accuracy.
  cbn [dt_value]. rewrite Htz. cbn [Accuracy.eqb].
  unfold _dt_by_accuracy. cbn [Accuracy.eqb]. unfold datetime_date.
  now rewrite Hdate.
Qed.

(** A Date of date accuracy against Soon, Someday or NoDate: the fuzzy
    side stands for today plus 15, 365 or 9999 days, from either side of
    the operator, and the comparisons and the difference are those of the
    calendar days. *)
Theorem date_against_fuzzy (d : date) (tag k : Z) (c : clock) (t : nat) :
  In (tag, k) delta_days ->
  valid_date d = true ->
  valid_date (dt_date (c t)) = true ->
  valid_time (hour (c t)) (minute (c t)) (second (c t))
             (microsecond (c t)) = true ->
  (toordinal (dt_date (c t)) + k <= MAXORDINAL)%Z ->
  let due := (toordinal (dt_date (c t)) + k)%Z in
  run (__lt__ (mkDate (PDate d)) (OGtgDate (mkDate (PInt tag)))) c t
  = Ok (toordinal d <? due)
  /\ run (__eq__ (mkDate (PDate d)) (OGtgDate (mkDate (PInt tag)))) c t
     = Ok (toordinal d =? due)
  /\ run (__gt__ (mkDate (PDate d)) (OGtgDate (mkDate (PInt tag)))) c t
     = Ok (due <? toordinal d)
  /\ run (__lt__ (mkDate (PInt tag)) (OGtgDate (mkDate (PDate d)))) c t
     = Ok (due <? toordinal d)
  /\ run (__sub__ (mkDate (PInt tag)) (OGtgDate (mkDate (PDate d)))) c t
     = Ok (PTimedelta (timedelta_days (due - toordinal d))).
Proof.
  intros Hin V Vc Vt Hmax due.
  pose proof (toordinal_range _ Vc) as R.
  assert (Hk : (0 <= k)%Z).
  { destruct Hin as [E | [E | [E | []]]]; inversion E; lia. }
  assert (Hrange : (1 <= due <= MAXORDINAL)%Z) by (unfold due; lia).
  pose proof (fuzzy_as_date tag k c t Hin Vt Hrange) as Hcast.
  fold due in Hcast.
  destruct (toordinal_fromordinal due Hrange) as [Hord Vdue].
  pose proof (date_compare_ordinal d (fromordinal due) V Vdue) as E1.
  pose proof (date_compare_ordinal (fromordinal due) d Vdue V) as E2.
  rewrite Hord in E1, E2.
  assert (Hleft : forall b : bool,
             _cast_for_operation (mkDate (PDate d))
               (OGtgDate (mkDate (PInt tag))) b c t
             = (Ok (PDate d, PDate (fromordinal due)), S t)).
  { intros b. unfold _cast_for_operation. unfold bind at 1. unfold ret at 1.
    cbn [accuracy dt_value Accuracy.eqb cast_loop orb].
    unfold bind at 1. unfold dt_by_accuracy at 1.
    cbn [accuracy dt_value Accuracy.eqb]. unfold ret at 1.
    unfold bind. rewrite Hcast. reflexivity. }
  assert (Hright : forall b : bool,
             _cast_for_operation (mkDate (PInt tag))
               (OGtgDate (mkDate (PDate d))) b c t
             = (Ok (PDate (fromordinal due), PDate d), S t)).
  { intros b. unfold _cast_for_operation. unfold bind at 1. unfold ret at 1.
    cbn [accuracy dt_value Accuracy.eqb cast_loop orb].
    unfold bind at 1. rewrite Hcast.
    unfold bind, dt_by_accuracy.
    cbn [accuracy dt_value Accuracy.eqb]. reflexivity. }
  unfold run, __lt__, __eq__, __gt__, __sub__, py_lt, py_gt, bind.
  rewrite !Hleft, !Hright. unfold ret, lift.
  cbn [fst py_order py_eq py_sub]. unfold date_eqb, date_sub.
  rewrite E1, E2, Hord.
  generalize (toordinal d). intros x. generalize due. intros y.
  repeat split; f_equal;
    first [ destruct (Z.compare_spec x y), (Z.ltb_spec x y); cbn;
            lia || reflexivity
          | destruct (Z.compare_spec x y), (Z.eqb_spec x y); cbn;
            lia || reflexivity
          | destruct (Z.compare_spec x y), (Z.ltb_spec y x); cbn;
            lia || reflexivity
          | destruct (Z.compare_spec y x), (Z.ltb_spec y x); cbn;
            lia || reflexivity ].
Qed.

(** *** Datetimes as counts of microseconds *)

Lemma timedelta_to_of_us (x : Z) : timedelta_to_us (timedelta_of_us x) = x.
Proof.
  unfold timedelta_to_us, timedelta_of_us.
  cbn [td_days td_seconds td_microseconds].
  change US_PER_DAY with 86400000000. change US_PER_SECOND with 1000000.
  assert (E : (x mod 86400000000) mod 1000000 = x mod 1000000).
  { apply Z.mod_mod_divide. exists 86400. reflexivity. }
  rewrite <- E.
  pose proof (Z.div_mod x 86400000000 ltac:(lia)) as H1.
  pose proof (Z.div_mod (x mod 86400000000) 1000000 ltac:(lia)) as H2.
  lia.
Qed.

(** The parts of a number of microseconds. *)
Lemma timedelta_of_us_bounds (x : Z) :
  0 <= td_seconds (timedelta_of_us x) < 86400
  /\ 0 <= td_microseconds (timedelta_of_us x) < 1000000.
Proof.
  unfold timedelta_of_us. cbn [td_seconds td_microseconds].
  change US_PER_DAY with 86400000000. change US_PER_SECOND with 1000000.
  pose proof (Z.mod_pos_bound x 86400000000 ltac:(lia)).
  pose proof (Z.mod_pos_bound x 1000000 ltac:(lia)).
  generalize dependent (x mod 86400000000). intros r Hr.
  split; [|lia].
  split; [apply Z.div_pos; lia | apply Z.div_lt_upper_bound; lia].
Qed.

(** A sum that datetime + timedelta returns is a valid datetime at the
    sum of the microseconds, with the offset of the datetime. *)
Lemma datetime_add_us (dt r : datetime) (td : timedelta) :
  datetime_add dt td = Ok r ->
  datetime_to_us r = datetime_to_us dt + timedelta_to_us td
  /\ valid_date (dt_date r) = true
  /\ valid_time (hour r) (minute r) (second r) (microsecond r) = true
  /\ tzinfo r = tzinfo dt.
Proof.
  unfold datetime_add. cbv zeta.
  pose proof (timedelta_to_of_us (datetime_to_us dt + timedelta_to_us td))
    as Hus.
  pose proof (timedelta_of_us_bounds (datetime_to_us dt + timedelta_to_us td))
    as (Hs & Hu).
  generalize dependent (timedelta_of_us
                          (datetime_to_us dt + timedelta_to_us td)).
  intros delta Hus Hs Hu.
  destruct ((0 <? td_days delta) && (td_days delta <=? MAXORDINAL)) eqn:G;
    [|discriminate].
  apply andb_prop in G. destruct G as [G1 G2].
  apply Z.ltb_lt in G1. apply Z.leb_le in G2.
  destruct (toordinal_fromordinal (td_days delta) ltac:(lia)) as [Hord V].
  intros E.
  apply (f_equal (fun x => match x with Ok y => y | Raise _ => dt end)) in E.
  subst r. cbn [dt_date hour minute second microsecond tzinfo].
  split; [|split; [exact V | split; [|reflexivity]]].
  - rewrite <- Hus. unfold datetime_to_us, timedelta_to_us.
    cbn [dt_date hour minute second microsecond]. rewrite Hord.
    generalize (td_seconds delta). intros s.
    pose proof (Z.div_mod s 3600 ltac:(lia)).
    pose proof (Z.div_mod (s mod 3600) 60 ltac:(lia)).
    lia.
  - unfold valid_time. clear Hus.
    generalize dependent (td_seconds delta). intros s Hs.
    generalize dependent (td_microseconds delta). intros u Hu.
    pose proof (Z.mod_pos_bound s 3600 ltac:(lia)).
    pose proof (Z.mod_pos_bound (s mod 3600) 60 ltac:(lia)).
    assert (0 <= s / 3600 <= 23).
    { split; [apply Z.div_pos; lia|].
      apply Z.lt_succ_r. apply Z.div_lt_upper_bound; lia. }
    assert (0 <= (s mod 3600) / 60 <= 59).
    { split; [apply Z.div_pos; lia|].
      apply Z.lt_succ_r. apply Z.div_lt_upper_bound; lia. }
    repeat (apply andb_true_intro; split); apply Z.leb_le; lia.
Qed.

Lemma valid_time_bounds (h mi s us : Z) :
  valid_time h mi s us = true ->
  0 <= h <= 23 /\ 0 <= mi <= 59 /\ 0 <= s <= 59 /\ 0 <= us <= 999999.
Proof.
  unfold valid_time. intros H.
  repeat (apply andb_prop in H; destruct H as [H ?]).
  repeat match goal with
         | H : (_ <=? _) = true |- _ => apply Z.leb_le in H
         end.
  lia.
Qed.

(** Two valid datetimes at the same count of microseconds, with the same
    offset, are the same. *)
Lemma datetime_to_us_injective (a b : datetime) :
  valid_date (dt_date a) = true -> valid_date (dt_date b) = true ->
  valid_time (hour a) (minute a) (second a) (microsecond a) = true ->
  valid_time (hour b) (minute b) (second b) (microsecond b) = true ->
  tzinfo a = tzinfo b ->
  datetime_to_us a = datetime_to_us b -> a = b.
Proof.
  intros Va Vb Ta Tb Htz. unfold datetime_to_us.
  change US_PER_SECOND with 1000000.
  apply valid_time_bounds in Ta, Tb.
  pose proof (toordinal_injective (dt_date a) (dt_date b) Va Vb) as Hinj.
  destruct a as [da ha ma sa ua za], b as [db hb mb sb ub zb].
  cbn [dt_date hour minute second microsecond tzinfo] in *.
  generalize dependent (toordinal da). intros oa.
  generalize dependent (toordinal db). intros ob.
  intros Hinj E.
  assert (oa = ob /\ ha = hb /\ ma = mb /\ sa = sb /\ ua = ub) as
    (Eo & -> & -> & -> & ->) by lia.
  rewrite (Hinj Eo), Htz. reflexivity.
Qed.

(** datetime + timedelta returns whenever the day of the sum is within
    the ordinals. *)
Lemma datetime_add_succeeds (dt : datetime) (td : timedelta) :
  1 <= (datetime_to_us dt + timedelta_to_us td) / US_PER_DAY <= MAXORDINAL ->
  exists r : datetime, datetime_add dt td = Ok r.
Proof.
  intros H. unfold datetime_add. cbv zeta.
  unfold timedelta_of_us at 1 2. cbn [td_days].
  replace ((0 <? (datetime_to_us dt + timedelta_to_us td) / US_PER_DAY)
           && ((datetime_to_us dt + timedelta_to_us td) / US_PER_DAY
               <=? MAXORDINAL)) with true
    by (symmetry; apply andb_true_intro;
        split; [apply Z.ltb_lt | apply Z.leb_le]; lia).
  eexists. reflexivity.
Qed.

(** The whole days in the count of microseconds of a valid datetime are
    the ordinal of its date. *)
Lemma datetime_to_us_days (dt : datetime) :
  valid_time (hour dt) (minute dt) (second dt) (microsecond dt) = true ->
  datetime_to_us dt / US_PER_DAY = toordinal (dt_date dt).
Proof.
  intros Vt. apply valid_time_bounds in Vt.
  unfold datetime_to_us. change US_PER_DAY with 86400000000.
  change US_PER_SECOND with 1000000.
  generalize (toordinal (dt_date dt)). intros o.
  match goal with
  | |- ?a / ?b = _ =>
      destruct (divmod_unique a b o
                  ((hour dt * 3600 + minute dt * 60 + second dt) * 1000000
                   + microsecond dt)) as [Hq _];
      [lia | lia | exact Hq]
  end.
Qed.

Lemma datetime_to_us_replace_tzinfo (dt : datetime) (tz : option timezone) :
  datetime_to_us (replace_tzinfo dt tz) = datetime_to_us dt.
Proof.
  unfold datetime_to_us, replace_tzinfo.
  cbn [dt_date hour minute second microsecond]. reflexivity.
Qed.

(** Moving a datetime to UTC and from there to the local offset, as
    astimezone does. *)
Lemma astimezone_us (dt : datetime) (tz : timezone) :
  let own := match tzinfo dt with
             | Some z => z
             | None => LOCAL_TIMEZONE
             end in
  1 <= (datetime_to_us dt - utcoffset_us own) / US_PER_DAY <= MAXORDINAL ->
  1 <= (datetime_to_us dt - utcoffset_us own + utcoffset_us tz) / US_PER_DAY
    <= MAXORDINAL ->
  exists r : datetime,
    astimezone LOCAL_TIMEZONE dt tz = Ok r
    /\ datetime_to_us r
       = datetime_to_us dt - utcoffset_us own + utcoffset_us tz
    /\ valid_date (dt_date r) = true
    /\ valid_time (hour r) (minute r) (second r) (microsecond r) = true
    /\ tzinfo r = Some tz.
Proof.
  intros own H1 H2. unfold astimezone. fold own.
  destruct (datetime_add_succeeds dt (timedelta_of_us (- utcoffset_us own)))
    as [utc E1].
  { rewrite timedelta_to_of_us.
    replace (datetime_to_us dt + - utcoffset_us own)
      with (datetime_to_us dt - utcoffset_us own) by lia.
    exact H1. }
  destruct (datetime_add_us _ _ _ E1) as (U1 & _ & _ & _).
  rewrite timedelta_to_of_us in U1.
  destruct (datetime_add_succeeds utc (timedelta_of_us (utcoffset_us tz)))
    as [loc E2].
  { rewrite timedelta_to_of_us, U1.
    replace (datetime_to_us dt + - utcoffset_us own + utcoffset_us tz)
      with (datetime_to_us dt - utcoffset_us own + utcoffset_us tz) by lia.
    exact H2. }
  destruct (datetime_add_us _ _ _ E2) as (U2 & Vd & Vt & _).
  rewrite timedelta_to_of_us, U1 in U2.
  rewrite E1. cbn [rbind]. rewrite E2. cbn [rbind].
  eexists. split; [reflexivity|].
  unfold datetime_to_us in *.
  cbn [replace_tzinfo dt_date hour minute second microsecond tzinfo].
  split; [exact U2 | split; [exact Vd | split; [exact Vt | reflexivity]]].
Qed.

(** A naive datetime cast to timezone accuracy gets the local timezone
    attached, and the cast back to datetime accuracy returns the datetime
    it started from, when its instant in UTC is within the ordinals. *)
Theorem naive_datetime_round_trip (dt : datetime) (c : clock) (t : nat) :
  tzinfo dt = None ->
  valid_date (dt_date dt) = true ->
  valid_time (hour dt) (minute dt) (second dt) (microsecond dt) = true ->
  1 <= (datetime_to_us dt - utcoffset_us LOCAL_TIMEZONE) / US_PER_DAY
    <= MAXORDINAL ->
  run (dt_by_accuracy (mkDate (PDatetime dt)) Accuracy.timezone) c t
  = Ok (PDatetime (replace_tzinfo dt (Some LOCAL_TIMEZONE)))
  /\ run (dt_by_accuracy
            (mkDate (PDatetime (replace_tzinfo dt (Some LOCAL_TIMEZONE))))
            Accuracy.datetime) c t
     = Ok (PDatetime dt).
Proof.
  intros Htz Vd Vt Hutc. split.
  - unfold run, dt_by_accuracy, accuracy. cbn [dt_value]. rewrite Htz.
    cbn [Accuracy.eqb]. unfold lift, _dt_by_accuracy. cbn [Accuracy.eqb negb].
    reflexivity.
  - pose proof (datetime_to_us_days dt Vt) as Hdays.
    pose proof (toordinal_range _ Vd) as R.
    pose proof (astimezone_us (replace_tzinfo dt (Some LOCAL_TIMEZONE))
                  LOCAL_TIMEZONE) as H.
    cbv zeta in H. rewrite datetime_to_us_replace_tzinfo in H.
    change (tzinfo (replace_tzinfo dt (Some LOCAL_TIMEZONE)))
      with (Some LOCAL_TIMEZONE) in H.
    cbv iota in H.
    replace (datetime_to_us dt - utcoffset_us LOCAL_TIMEZONE
             + utcoffset_us LOCAL_TIMEZONE)
      with (datetime_to_us dt) in H by lia.
    rewrite Hdays in H.
    destruct (H Hutc R) as (r & E & U & Vrd & Vrt & _).
    unfold run, dt_by_accuracy, accuracy.
    cbn [dt_value tzinfo replace_tzinfo Accuracy.eqb].
    unfold lift, _dt_by_accuracy. cbn [Accuracy.eqb negb].
    change (mkdatetime (dt_date dt) (hour dt) (minute dt) (second dt)
              (microsecond dt) (Some LOCAL_TIMEZONE))
      with (replace_tzinfo dt (Some LOCAL_TIMEZONE)).
    rewrite E. cbn [rbind fst]. do 2 f_equal.
    apply datetime_to_us_injective.
    + exact Vrd.
    + exact Vd.
    + exact Vrt.
    + exact Vt.
    + cbn [replace_tzinfo tzinfo]. now rewrite Htz.
    + now rewrite datetime_to_us_replace_tzinfo.
Qed.


(** Valid datetimes compare, field by field, as their counts of
    microseconds. *)
Lemma fields_compare_us (a b : datetime) :
  valid_date (dt_date a) = true -> valid_date (dt_date b) = true ->
  valid_time (hour a) (minute a) (second a) (microsecond a) = true ->
  valid_time (hour b) (minute b) (second b) (microsecond b) = true ->
  fields_compare a b = (datetime_to_us a ?= datetime_to_us b).
Proof.
  intros Va Vb Ta Tb. apply valid_time_bounds in Ta, Tb.
  unfold fields_compare, datetime_to_us. change US_PER_SECOND with 1000000.
  rewrite (date_compare_ordinal _ _ Va Vb).
  generalize (toordinal (dt_date a)) (toordinal (dt_date b)). intros oa ob.
  generalize dependent (hour a). generalize dependent (minute a).
  generalize dependent (second a). generalize dependent (microsecond a).
  generalize dependent (hour b). generalize dependent (minute b).
  generalize dependent (second b). generalize dependent (microsecond b).
  intros ub sb mb hb Tb ua sa ma ha Ta. symmetry.
  destruct (Z.compare_spec oa ob);
    [destruct (Z.compare_spec ha hb);
     [destruct (Z.compare_spec ma mb);
      [destruct (Z.compare_spec sa sb);
       [destruct (Z.compare_spec ua ub)|..]|..]|..]|..];
    first [ apply Z.compare_eq_iff; lia
          | apply Z.compare_lt_iff; lia
          | apply Z.compare_gt_iff; lia ].
Qed.

(** An aware datetime cast to datetime accuracy becomes naive local time;
    the cast back to timezone accuracy carries the local timezone, stands
    for the same instant, and compares equal to the datetime it started
    from. *)
Theorem aware_datetime_round_trip (dt : datetime) (tz : timezone)
        (c : clock) (t : nat) :
  tzinfo dt = Some tz ->
  valid_date (dt_date dt) = true ->
  valid_time (hour dt) (minute dt) (second dt) (microsecond dt) = true ->
  1 <= (datetime_to_us dt - utcoffset_us tz) / US_PER_DAY <= MAXORDINAL ->
  1 <= (datetime_to_us dt - utcoffset_us tz + utcoffset_us LOCAL_TIMEZONE)
       / US_PER_DAY <= MAXORDINAL ->
  exists naive back : datetime,
    run (dt_by_accuracy (mkDate (PDatetime dt)) Accuracy.datetime) c t
    = Ok (PDatetime naive)
    /\ tzinfo naive = None
    /\ run (dt_by_accuracy (mkDate (PDatetime naive)) Accuracy.timezone) c t
       = Ok (PDatetime back)
    /\ tzinfo back = Some LOCAL_TIMEZONE
    /\ datetime_to_us back - utcoffset_us LOCAL_TIMEZONE
       = datetime_to_us dt - utcoffset_us tz
    /\ run (__eq__ (mkDate (PDatetime dt))
                   (OGtgDate (mkDate (PDatetime back)))) c t = Ok true.
Proof.
  intros Htz Vd Vt Hutc Hloc.
  pose proof (astimezone_us dt LOCAL_TIMEZONE) as H. cbv zeta in H.
  rewrite Htz in H. destruct (H Hutc Hloc) as (r & E & U & Vrd & Vrt & Hr).
  exists (replace_tzinfo r None),
         (replace_tzinfo (replace_tzinfo r None) (Some LOCAL_TIMEZONE)).
  split.
  { unfold run, dt_by_accuracy, accuracy. cbn [dt_value]. rewrite Htz.
    cbn [Accuracy.eqb]. unfold lift, _dt_by_accuracy. cbn [Accuracy.eqb negb].
    rewrite E. reflexivity. }
  split; [reflexivity|]. split.
  { unfold run, dt_by_accuracy, accuracy.
    cbn [dt_value tzinfo replace_tzinfo Accuracy.eqb].
    unfold lift, _dt_by_accuracy. cbn [Accuracy.eqb negb]. reflexivity. }
  split; [reflexivity|]. split.
  { rewrite !datetime_to_us_replace_tzinfo. lia. }
  unfold run, __eq__, _cast_for_operation, bind, ret, accuracy.
  cbn [dt_value tzinfo replace_tzinfo]. rewrite Htz.
  cbn [Accuracy.eqb fst py_eq]. f_equal.
  change (mkdatetime (dt_date r) (hour r) (minute r) (second r)
            (microsecond r) (Some LOCAL_TIMEZONE))
    with (replace_tzinfo r (Some LOCAL_TIMEZONE)).
  unfold datetime_compare, offset_of.
  cbn [tzinfo replace_tzinfo option_map]. rewrite Htz. cbn [option_map].
  destruct (opt_z_eqb (Some (utcoffset_us tz))
                      (Some (utcoffset_us LOCAL_TIMEZONE))) eqn:Eo.
  - cbn [opt_z_eqb] in Eo. apply Z.eqb_eq in Eo.
    rewrite fields_compare_us; try assumption.
    rewrite !datetime_to_us_replace_tzinfo.
    replace (datetime_to_us dt ?= datetime_to_us r) with Eq; [reflexivity|].
    symmetry. apply Z.compare_eq_iff. lia.
  - rewrite !datetime_to_us_replace_tzinfo.
    replace (datetime_to_us dt - utcoffset_us tz
             ?= datetime_to_us r - utcoffset_us LOCAL_TIMEZONE) with Eq;
      [reflexivity|].
    symmetry. apply Z.compare_eq_iff. lia.
Qed.

End Ordering.

(** ** Worked instances in the C locale *)

Import CLocale.

(** An instance of C1: 10 February against half past midnight of
    11 February at UTC+1, and noon of 10 February, naive, against the
    same aware datetime on a host at UTC, where it is 23:30 of the 10th. *)
Lemma cast_for_operation_accuracy_witness :
  tzinfo (mkdatetime (mkdate 2024 2 11) 0 30 0 0 (Some (mktimezone 3600000000)))
  = Some (mktimezone 3600000000)
  /\ __lt__ (mkDate (PDate (mkdate 2024 2 10)))
            (OGtgDate
               (mkDate (PDatetime
                          (mkdatetime (mkdate 2024 2 11) 0 30 0 0
                                      (Some (mktimezone 3600000000))))))
            (ticking (mkdatetime (mkdate 2024 2 10) 12 0 0 0 None)) 0%nat
     = (Ok true, 0%nat)
  /\ accuracy (mkDate (PDatetime (mkdatetime (mkdate 2024 2 10) 12 0 0 0 None)))
     <> accuracy (mkDate (PDatetime
                            (mkdatetime (mkdate 2024 2 11) 0 30 0 0
                                        (Some (mktimezone 3600000000)))))
  /\ _cast_for_operation
       (mkDate (PDatetime (mkdatetime (mkdate 2024 2 10) 12 0 0 0 None)))
       (OGtgDate
          (mkDate (PDatetime
                     (mkdatetime (mkdate 2024 2 11) 0 30 0 0
                                 (Some (mktimezone 3600000000))))))
       true
       (ticking (mkdatetime (mkdate 2024 2 10) 12 0 0 0 None)) 0%nat
     = (Ok (PDatetime (mkdatetime (mkdate 2024 2 10) 12 0 0 0 None),
            PDatetime (mkdatetime (mkdate 2024 2 10) 23 30 0 0 None)),
        0%nat)
  /\ exists acc : Accuracy.t,
       accuracy (mkDate (PDatetime
                           (mkdatetime (mkdate 2024 2 10) 12 0 0 0 None)))
       = acc
       /\ accuracy (mkDate (PDatetime
                              (mkdatetime (mkdate 2024 2 10) 23 30 0 0 None)))
          = acc.
Proof.
  split; [reflexivity|].
  split.
  { destruct (cast_for_operation_accuracy
                (mkDate (PDate (mkdate 2024 2 10)))
                (mkDate (PDatetime
                           (mkdatetime (mkdate 2024 2 11) 0 30 0 0
                                       (Some (mktimezone 3600000000)))))
                true
                (ticking (mkdatetime (mkdate 2024 2 10) 12 0 0 0 None)) 0%nat)
      as (_ & _ & H & _).
    destruct (H (mkdate 2024 2 10)
                (mkdatetime (mkdate 2024 2 11) 0 30 0 0
                            (Some (mktimezone 3600000000)))
                (mktimezone 3600000000) eq_refl) as [H1 _].
    destruct (H1 eq_refl eq_refl) as (_ & _ & _ & Hlt & _).
    exact Hlt. }
  assert (Hdiff :
    accuracy (mkDate (PDatetime (mkdatetime (mkdate 2024 2 10) 12 0 0 0 None)))
    <> accuracy (mkDate (PDatetime
                           (mkdatetime (mkdate 2024 2 11) 0 30 0 0
                                       (Some (mktimezone 3600000000))))))
    by (simpl; discriminate).
  destruct (cast_for_operation_accuracy
              (mkDate (PDatetime (mkdatetime (mkdate 2024 2 10) 12 0 0 0 None)))
              (mkDate (PDatetime
                         (mkdatetime (mkdate 2024 2 11) 0 30 0 0
                                     (Some (mktimezone 3600000000)))))
              true
              (ticking (mkdatetime (mkdate 2024 2 10) 12 0 0 0 None)) 0%nat)
    as (_ & Hcast & _ & _ & Hvalues).
  destruct (Hcast Hdiff) as (acc & _ & _ & _ & _ & _ & _ & Hacc).
  destruct (Hvalues (mkdatetime (mkdate 2024 2 10) 12 0 0 0 None)
                    (mkdatetime (mkdate 2024 2 11) 0 30 0 0
                                (Some (mktimezone 3600000000)))
                    (mktimezone 3600000000) eq_refl eq_refl) as [Hpair _].
  specialize (Hpair eq_refl eq_refl).
  assert (Hrun :
    _cast_for_operation
      (mkDate (PDatetime (mkdatetime (mkdate 2024 2 10) 12 0 0 0 None)))
      (OGtgDate
         (mkDate (PDatetime
                    (mkdatetime (mkdate 2024 2 11) 0 30 0 0
                                (Some (mktimezone 3600000000))))))
      true
      (ticking (mkdatetime (mkdate 2024 2 10) 12 0 0 0 None)) 0%nat
    = (Ok (PDatetime (mkdatetime (mkdate 2024 2 10) 12 0 0 0 None),
           PDatetime (mkdatetime (mkdate 2024 2 10) 23 30 0 0 None)),
       0%nat)).
  { rewrite Hpair. vm_compute. reflexivity. }
  split; [exact Hdiff|]. split; [exact Hrun|].
  exists acc. exact (Hacc _ _ _ Hrun).
Defined.

(** An instance of C5: Soon at noon of 10 February 2024 is the 25th as a
    date, noon of the 25th as a datetime and, on a host at UTC+1, noon of
    the 25th at UTC+1 as a datetime with timezone. *)
Lemma fuzzy_cast_offsets_witness :
  In (SOON, 15%Z) [(SOON, 15%Z); (SOMEDAY, 365%Z); (NODATE, 9999%Z)]
  /\ Accuracy.date <> Accuracy.fuzzy
  /\ dt_by_accuracy (mkDate (PInt SOON)) Accuracy.date
       (ticking (mkdatetime (mkdate 2024 2 10) 12 0 0 0 None)) 0%nat
     = (Ok (PDate (mkdate 2024 2 25)), 1%nat)
  /\ dt_by_accuracy (mkDate (PInt SOON)) Accuracy.datetime
       (ticking (mkdatetime (mkdate 2024 2 10) 12 0 0 0 None)) 0%nat
     = (Ok (PDatetime (mkdatetime (mkdate 2024 2 25) 12 0 0 0 None)), 1%nat)
  /\ dt_by_accuracy (P := platform_at (mktimezone 3600000000))
       (mkDate (PInt SOON)) Accuracy.timezone
       (ticking (mkdatetime (mkdate 2024 2 10) 12 0 0 0 None)) 0%nat
     = (Ok (PDatetime (mkdatetime (mkdate 2024 2 25) 12 0 0 0
                                  (Some (mktimezone 3600000000)))), 1%nat).
Proof.
  assert (Hin : In (SOON, 15%Z)
                   [(SOON, 15%Z); (SOMEDAY, 365%Z); (NODATE, 9999%Z)])
    by (left; reflexivity).
  assert (Vt : valid_time
                 (hour (ticking (mkdatetime (mkdate 2024 2 10) 12 0 0 0 None)
                                0%nat))
                 (minute (ticking (mkdatetime (mkdate 2024 2 10) 12 0 0 0 None)
                                  0%nat))
                 (second (ticking (mkdatetime (mkdate 2024 2 10) 12 0 0 0 None)
                                  0%nat))
                 (microsecond
                    (ticking (mkdatetime (mkdate 2024 2 10) 12 0 0 0 None)
                             0%nat)) = true) by reflexivity.
  assert (Hrange :
    (1 <= toordinal (dt_date (ticking (mkdatetime (mkdate 2024 2 10)
                                                  12 0 0 0 None) 0%nat)) + 15
     <= MAXORDINAL)%Z)
    by (split; apply Z.leb_le; vm_compute; reflexivity).
  split; [exact Hin|]. split; [discriminate|].
  split; [|split].
  - destruct (fuzzy_cast_offsets SOON 15 Accuracy.date
                (ticking (mkdatetime (mkdate 2024 2 10) 12 0 0 0 None)) 0%nat
                Hin ltac:(discriminate)) as (_ & Hlater & _ & Hadd).
    destruct (Hlater _ (Hadd Vt Hrange)) as (_ & Hdate & _).
    rewrite (Hdate eq_refl). vm_compute. reflexivity.
  - destruct (fuzzy_cast_offsets SOON 15 Accuracy.datetime
                (ticking (mkdatetime (mkdate 2024 2 10) 12 0 0 0 None)) 0%nat
                Hin ltac:(discriminate)) as (_ & Hlater & _ & Hadd).
    destruct (Hlater _ (Hadd Vt Hrange)) as (_ & _ & Hdatetime & _).
    rewrite (Hdatetime eq_refl). vm_compute. reflexivity.
  - destruct (fuzzy_cast_offsets (P := platform_at (mktimezone 3600000000))
                SOON 15 Accuracy.timezone
                (ticking (mkdatetime (mkdate 2024 2 10) 12 0 0 0 None)) 0%nat
                Hin ltac:(discriminate)) as (_ & Hlater & _ & Hadd).
    destruct (Hlater _ (Hadd Vt Hrange)) as (_ & _ & _ & Htimezone).
    rewrite (Htimezone eq_refl). vm_compute. reflexivity.
Defined.

(** An instance of C8: 29 February 2024, and a quarter past nine on that
    day. *)
Lemma date_datetime_round_trip_witness :
  valid_date (mkdate 2024 2 29) = true
  /\ dt_by_accuracy (mkDate (PDatetime (midnight (mkdate 2024 2 29))))
       Accuracy.date (ticking (midnight (mkdate 2024 2 29))) 0%nat
     = (Ok (PDate (mkdate 2024 2 29)), 0%nat)
  /\ midnight (mkdate 2024 2 29)
     <> mkdatetime (mkdate 2024 2 29) 9 15 0 0 None.
Proof.
  destruct (date_datetime_round_trip
              (ticking (midnight (mkdate 2024 2 29))) 0%nat)
    as [Hdate Hdatetime].
  split; [reflexivity|]. split.
  - exact (proj2 (Hdate (mkdate 2024 2 29) eq_refl)).
  - destruct (Hdatetime (mkdatetime (mkdate 2024 2 29) 9 15 0 0 None)
                        eq_refl eq_refl) as (_ & _ & Hne).
    apply Hne. discriminate.
Defined.

(** An instance of C7 (amended): "15" on 10 February 2024. *)
Lemma bare_day_of_month_witness :
  (1 <= 15 <= 31)%Z
  /\ __init__ (OStr (day_string 15))
       (ticking (mkdatetime (mkdate 2024 2 10) 12 0 0 0 None)) 0%nat
     = (Raise ValueError, 0%nat)
  /\ run (parse (Some (day_string 15)))
         (ticking (mkdatetime (mkdate 2024 2 10) 12 0 0 0 None)) 0%nat
     = Ok (mkDate (PDate (mkdate 2024 2 15))).
Proof.
  assert (Hrefused :
    __init__ (OStr (day_string 15))
      (ticking (mkdatetime (mkdate 2024 2 10) 12 0 0 0 None)) 0%nat
    = (Raise ValueError, 0%nat)) by reflexivity.
  split; [lia|]. split; [exact Hrefused|].
  destruct (bare_day_of_month 15
              (ticking (mkdatetime (mkdate 2024 2 10) 12 0 0 0 None)) 0%nat
              ltac:(lia) Hrefused) as [Hthis _].
  apply Hthis; [reflexivity | reflexivity].
Defined.

(** C7, as stated, fails: on 31 January 2023 the text 31 gives that very
    day, not day 31 of the following month; and on 10 February 2023 the
    text 30 gives 30 March, not day 30 of the current month. *)
Lemma bare_day_counterexample :
  (31 <= day (dt_date (ticking (mkdatetime (mkdate 2023 1 31) 9 0 0 0 None)
                               0%nat)))%Z
  /\ run (parse (Some "31"))
         (ticking (mkdatetime (mkdate 2023 1 31) 9 0 0 0 None)) 0%nat
     = Ok (mkDate (PDate (mkdate 2023 1 31)))
  /\ run (parse (Some "31"))
         (ticking (mkdatetime (mkdate 2023 1 31) 9 0 0 0 None)) 0%nat
     <> Ok (mkDate (PDate (mkdate 2023 2 31)))
  /\ (day (dt_date (ticking (mkdatetime (mkdate 2023 2 10) 9 0 0 0 None) 0%nat))
      < 30)%Z
  /\ run (parse (Some "30"))
         (ticking (mkdatetime (mkdate 2023 2 10) 9 0 0 0 None)) 0%nat
     = Ok (mkDate (PDate (mkdate 2023 3 30)))
  /\ run (parse (Some "30"))
         (ticking (mkdatetime (mkdate 2023 2 10) 9 0 0 0 None)) 0%nat
     <> Ok (mkDate (PDate (mkdate 2023 2 30))).
Proof.
  split; [apply Z.leb_le; vm_compute; reflexivity|].
  split; [vm_compute; reflexivity|].
  split; [vm_compute; discriminate|].
  split; [apply Z.ltb_lt; vm_compute; reflexivity|].
  split; [vm_compute; reflexivity|].
  vm_compute; discriminate.
Qed.

(** An instance of C3 (amended): the phrase week from 10 January 2024. *)
Lemma recurrence_new_task_shift_witness :
  valid_date (mkdate 2024 1 10) = true
  /\ phrase_kind (Str.lower "week") = Some Pweek
  /\ run (parse_from_date (mkDate (PDate (mkdate 2024 1 10)))
                          (Some "week") true)
         (ticking (mkdatetime (mkdate 2024 3 1) 8 0 0 0 None)) 0%nat
     = Ok (mkDate (PDate (mkdate 2024 1 10)))
  /\ run (parse_from_date (mkDate (PDate (mkdate 2024 1 10)))
                          (Some "week") false)
         (ticking (mkdatetime (mkdate 2024 3 1) 8 0 0 0 None)) 0%nat
     = rbind (date_add (mkdate 2024 1 10)
                       (timedelta_days (extra_days (mkdate 2024 1 10) Pweek)))
             (fun r => Ok (mkDate (PDate r))).
Proof.
  assert (Hanchor :
    steady (self_date_of (mkDate (PDate (mkdate 2024 1 10))))
           (ticking (mkdatetime (mkdate 2024 3 1) 8 0 0 0 None))
           (Ok (mkdate 2024 1 10))) by (intros t; reflexivity).
  assert (Hrefused :
    steady (__init__ (OStr (Str.lower "week")))
           (ticking (mkdatetime (mkdate 2024 3 1) 8 0 0 0 None))
           (Raise ValueError)) by (intros t; reflexivity).
  assert (Hnumber : month_day_number (Str.lower "week") = None)
    by reflexivity.
  assert (Hnumerical :
    forall anchor : date,
      numerical_loop anchor (Str.lower "week") NUMERICAL_FORMATS None = None)
    by (intros anchor; reflexivity).
  assert (Hkind : phrase_kind (Str.lower "week") = Some Pweek) by reflexivity.
  split; [reflexivity|]. split; [exact Hkind|].
  destruct (recurrence_new_task_shift
              (mkDate (PDate (mkdate 2024 1 10))) (mkdate 2024 1 10) "week"
              (ticking (mkdatetime (mkdate 2024 3 1) 8 0 0 0 None)) 0%nat
              Hanchor eq_refl Hrefused)
    as [Hphrase _].
  destruct (Hphrase Pweek Hnumber Hnumerical Hkind) as [_ Hduration].
  apply Hduration; [reflexivity|]. intros E. discriminate E.
Defined.

(** C3, as stated, fails: from 10 January 2024 the phrase week gives
    10 January for a new task and 17 January otherwise, seven days later
    and not one. *)
Lemma recurrence_shift_counterexample :
  run (parse_from_date (mkDate (PDate (mkdate 2024 1 10))) (Some "week") true)
      (ticking (mkdatetime (mkdate 2024 3 1) 8 0 0 0 None)) 0%nat
  = Ok (mkDate (PDate (mkdate 2024 1 10)))
  /\ run (parse_from_date (mkDate (PDate (mkdate 2024 1 10)))
                          (Some "week") false)
         (ticking (mkdatetime (mkdate 2024 3 1) 8 0 0 0 None)) 0%nat
     = Ok (mkDate (PDate (mkdate 2024 1 17)))
  /\ date_add (mkdate 2024 1 10) (timedelta_days 1) = Ok (mkdate 2024 1 11)
  /\ mkdate 2024 1 17 <> mkdate 2024 1 11.
Proof.
  split; [vm_compute; reflexivity|].
  split; [vm_compute; reflexivity|].
  split; [vm_compute; reflexivity|].
  discriminate.
Qed.

(** An instance of C4 (amended): the token soon. *)
Lemma construct_twice_equal_witness :
  run (__init__ (OStr "soon"))
      (ticking (mkdatetime (mkdate 2024 2 10) 12 0 0 0 None)) 0%nat
  = Ok (mkDate (PInt SOON))
  /\ is_now_form (OStr "soon") = false
  /\ run (construct_twice_eq (OStr "soon"))
         (ticking (mkdatetime (mkdate 2024 2 10) 12 0 0 0 None)) 0%nat
     = Ok true.
Proof.
  assert (Haccepted :
    run (__init__ (OStr "soon"))
        (ticking (mkdatetime (mkdate 2024 2 10) 12 0 0 0 None)) 0
    = Ok (mkDate (PInt SOON))) by reflexivity.
  split; [exact Haccepted|]. split; [reflexivity|].
  apply (construct_twice_equal (OStr "soon") (mkDate (PInt SOON))
           (ticking (mkdatetime (mkdate 2024 2 10) 12 0 0 0 None)) 0%nat
           Haccepted).
  left. reflexivity.
Defined.

(** C4, as stated, fails for the token now: with a clock that has moved
    on by a second between the two constructions, Date("now") ==
    Date("now") is false. *)
Lemma construct_twice_now_counterexample :
  run (__init__ (OStr "now"))
      (ticking (mkdatetime (mkdate 2024 2 10) 12 0 0 0 None)) 0%nat
  = Ok (mkDate (PDatetime (mkdatetime (mkdate 2024 2 10) 12 0 0 0 None)))
  /\ run (__init__ (OStr "now"))
         (ticking (mkdatetime (mkdate 2024 2 10) 12 0 0 0 None)) 1%nat
     = Ok (mkDate (PDatetime (mkdatetime (mkdate 2024 2 10) 12 0 1 0 None)))
  /\ run (construct_twice_eq (OStr "now"))
         (ticking (mkdatetime (mkdate 2024 2 10) 12 0 0 0 None)) 0%nat
     = Ok false.
Proof. repeat split; reflexivity. Qed.

(** C2: anchored on 10 February 2024, a leap year, the phrase month adds
    the 28 days of calendar.mdays and lands on 9 March, where the 29 days
    of that February lead to 10 March. *)
Lemma month_phrase_leap_february :
  run (parse_from_date (mkDate (PDate (mkdate 2024 2 10))) (Some "month") false)
      (ticking (mkdatetime (mkdate 2024 2 10) 12 0 0 0 None)) 0%nat
  = Ok (mkDate (PDate (mkdate 2024 3 9)))
  /\ days_in_month 2024 2 = 29%Z
  /\ date_add (mkdate 2024 2 10) (timedelta_days (days_in_month 2024 2))
     = Ok (mkdate 2024 3 10).
Proof. repeat split; reflexivity. Qed.

(** C10: the constructor given NOW in capitals stores the Now sentinel,
    a fuzzy value that __str__ cannot render and that cannot be cast. *)
Lemma uppercase_now_stores_sentinel :
  run (__init__ (OStr "NOW"))
      (ticking (mkdatetime (mkdate 2024 2 10) 12 0 0 0 None)) 0%nat
  = Ok (mkDate (PInt NOW))
  /\ accuracy (mkDate (PInt NOW)) = Accuracy.fuzzy
  /\ __str__ (mkDate (PInt NOW)) = Raise KeyError
  /\ run (dt_by_accuracy (mkDate (PInt NOW)) Accuracy.date)
         (ticking (mkdatetime (mkdate 2024 2 10) 12 0 0 0 None)) 0%nat
     = Raise KeyError
  /\ run (__init__ (OStr "now"))
         (ticking (mkdatetime (mkdate 2024 2 10) 12 0 0 0 None)) 0%nat
     = Ok (mkDate (PDatetime (mkdatetime (mkdate 2024 2 10) 12 0 0 0 None))).
Proof. repeat split; reflexivity. Qed.

(** ** Rendering and reading back, in the C locale *)

Lemma digit_char_digit (n : Z) :
  Str.is_digit (Str.digit_char n) = true
  /\ Str.digit_value (Str.digit_char n) = (n mod 10)%Z.
Proof.
  unfold Str.digit_char.
  pose proof (Z.mod_pos_bound n 10 ltac:(lia)) as B.
  assert (H : (n mod 10 = 0 \/ n mod 10 = 1 \/ n mod 10 = 2 \/ n mod 10 = 3
               \/ n mod 10 = 4 \/ n mod 10 = 5 \/ n mod 10 = 6
               \/ n mod 10 = 7 \/ n mod 10 = 8 \/ n mod 10 = 9)%Z) by lia.
  decompose [or] H; clear H;
    match goal with E : (n mod 10 = _)%Z |- _ => rewrite E end;
    split; reflexivity.
Qed.

(** Reading [w] digits back from a number padded to [w] digits. *)
Lemma take_digits_pad (w : nat) :
  forall (n a : Z) (k : nat) (rest : string),
    take_digits (w + k) a (Str.pad w n rest)
    = take_digits k (a * 10 ^ Z.of_nat w + n mod 10 ^ Z.of_nat w)%Z rest.
Proof.
  induction w as [| w IH]; intros n a k rest.
  - cbn [Str.pad Nat.add Z.of_nat]. rewrite Z.pow_0_r, Z.mod_1_r.
    f_equal. lia.
  - cbn [Str.pad]. replace (S w + k)%nat with (w + S k)%nat by lia.
    rewrite IH. cbn [take_digits].
    destruct (digit_char_digit n) as [-> ->].
    f_equal. rewrite Nat2Z.inj_succ, Z.pow_succ_r by lia.
    assert (Hp : (0 < 10 ^ Z.of_nat w)%Z) by (apply Z.pow_pos_nonneg; lia).
    rewrite (Z.rem_mul_r n 10 (10 ^ Z.of_nat w)) by lia. ring.
Qed.

Lemma pad_length (w : nat) :
  forall (n : Z) (rest : string),
    String.length (Str.pad w n rest) = (w + String.length rest)%nat.
Proof.
  induction w as [| w IH]; intros n rest; cbn [Str.pad]; [reflexivity|].
  rewrite IH. cbn [String.length]. lia.
Qed.

Lemma take_digits_pad_exact (w : nat) (n : Z) (rest : string) :
  (0 <= n < 10 ^ Z.of_nat w)%Z ->
  take_digits w 0 (Str.pad w n rest) = Some (n, rest).
Proof.
  intros Hn. pose proof (take_digits_pad w n 0 0 rest) as H.
  rewrite Nat.add_0_r in H. rewrite H. cbn [take_digits].
  rewrite Z.mod_small by lia. do 2 f_equal.
Qed.

(** The ISO reader of the C-locale host reads back what isoformat writes
    for a valid date. *)
Lemma iso_date_isoformat (d : date) :
  valid_date d = true ->
  iso_date_fromisoformat (Str.date_isoformat d) = Some d.
Proof.
  intros V. destruct (valid_date_bounds d V) as (Hy & Hm & Hd).
  pose proof (month_length_bounds (isleap (year d)) (month d) Hm) as Hl.
  unfold iso_date_fromisoformat, iso_date, Str.date_isoformat.
  rewrite (take_digits_pad_exact 4)
    by (change (10 ^ Z.of_nat 4)%Z with 10000%Z; lia).
  cbn [obind String.append expect].
  change (Ascii.eqb "-" "-") with true. cbn [obind].
  rewrite (take_digits_pad_exact 2)
    by (change (10 ^ Z.of_nat 2)%Z with 100%Z; lia).
  cbn [obind String.append expect].
  change (Ascii.eqb "-" "-") with true. cbn [obind].
  rewrite (take_digits_pad_exact 2)
    by (change (10 ^ Z.of_nat 2)%Z with 100%Z; lia).
  cbn [obind]. unfold date_new. destruct d as [y m dd].
  cbn [year month day] in *. now rewrite V.
Qed.

(** The digits are not letters. *)
Lemma lower_digit_char (n : Z) :
  Str.lower_ascii (Str.digit_char n) = Str.digit_char n.
Proof.
  unfold Str.digit_char.
  pose proof (Z.mod_pos_bound n 10 ltac:(lia)) as B.
  assert (H : (n mod 10 = 0 \/ n mod 10 = 1 \/ n mod 10 = 2 \/ n mod 10 = 3
               \/ n mod 10 = 4 \/ n mod 10 = 5 \/ n mod 10 = 6
               \/ n mod 10 = 7 \/ n mod 10 = 8 \/ n mod 10 = 9)%Z) by lia.
  decompose [or] H; clear H;
    match goal with E : (n mod 10 = _)%Z |- _ => rewrite E end;
    reflexivity.
Qed.

Lemma lower_pad (w : nat) :
  forall (n : Z) (rest : string),
    Str.lower (Str.pad w n rest) = Str.pad w n (Str.lower rest).
Proof.
  induction w as [| w IH]; intros n rest; cbn [Str.pad]; [reflexivity|].
  rewrite IH. cbn [Str.lower]. now rewrite lower_digit_char.
Qed.

(** isoformat of a date has no letter for lower() to change. *)
Lemma lower_date_isoformat (d : date) :
  Str.lower (Str.date_isoformat d) = Str.date_isoformat d.
Proof.
  unfold Str.date_isoformat.
  rewrite lower_pad. cbn [String.append Str.lower].
  rewrite lower_pad. cbn [String.append Str.lower].
  rewrite lower_pad. reflexivity.
Qed.

(** In the C locale the constructor reads back what __str__ writes for
    Soon, Someday, no date or a valid calendar date; the text has no
    capital letter and the clock is not read. *)
Lemma init_reads_str (d : Date) (c : clock) (t : nat) :
  dt_value d = PInt SOON \/ dt_value d = PInt SOMEDAY
  \/ dt_value d = PInt NODATE
  \/ (exists x : date, dt_value d = PDate x /\ valid_date x = true) ->
  exists text : string,
    __str__ d = Ok text
    /\ Str.lower text = text
    /\ __init__ (OStr text) c t = (Ok d, t).
Proof.
  destruct d as [v]. cbn [dt_value].
  intros [-> | [-> | [-> | (x & -> & V)]]].
  - exists "soon". repeat split; reflexivity.
  - exists "someday". repeat split; reflexivity.
  - exists "". repeat split; reflexivity.
  - exists (Str.date_isoformat x). split; [reflexivity|].
    split; [apply lower_date_isoformat|].
    unfold __init__.
    assert (Hlen : String.length (Str.date_isoformat x) = 10%nat).
    { unfold Str.date_isoformat. rewrite pad_length.
      cbn [String.append String.length]. rewrite pad_length.
      cbn [String.append String.length]. rewrite pad_length. reflexivity. }
    replace (String.eqb (Str.date_isoformat x) "None"
             || String.eqb (Str.date_isoformat x) "") with false.
    + unfold bind, __parse_dt_str.
      change (date_fromisoformat (Str.date_isoformat x))
        with (iso_date_fromisoformat (Str.date_isoformat x)).
      rewrite (iso_date_isoformat x V). reflexivity.
    + symmetry. apply orb_false_iff.
      split; apply String.eqb_neq; intros E; rewrite E in Hlen;
        discriminate Hlen.
Qed.

(** In the C locale, what __str__ writes for Soon, Someday, no date or a
    valid calendar date, the constructor reads back as the same Date. *)
Theorem str_round_trip (d : Date) (c : clock) (t : nat) :
  dt_value d = PInt SOON \/ dt_value d = PInt SOMEDAY
  \/ dt_value d = PInt NODATE
  \/ (exists x : date, dt_value d = PDate x /\ valid_date x = true) ->
  exists text : string,
    __str__ d = Ok text /\ __init__ (OStr text) c t = (Ok d, t).
Proof.
  intros H. destruct (init_reads_str d c t H) as (text & Hstr & _ & Hinit).
  exists text. split; [exact Hstr | exact Hinit].
Qed.

(** An instance: 29 February 2024 is written 2024-02-29 and read back. *)
Lemma str_round_trip_witness :
  valid_date (mkdate 2024 2 29) = true
  /\ exists text : string,
       __str__ (mkDate (PDate (mkdate 2024 2 29))) = Ok text
       /\ __init__ (OStr text)
            (ticking (mkdatetime (mkdate 2024 2 10) 12 0 0 0 None)) 0%nat
          = (Ok (mkDate (PDate (mkdate 2024 2 29))), 0%nat).
Proof.
  split; [reflexivity|].
  apply (str_round_trip (mkDate (PDate (mkdate 2024 2 29)))).
  right. right. right. exists (mkdate 2024 2 29). split; reflexivity.
Defined.

(** In the C locale, what __str__ writes for Soon, Someday, no date or a
    valid calendar date, parse and parse_from_date read back as the same
    Date, whatever the anchor and the flag, without reading the clock. *)
Theorem parse_reads_str (d self : Date) (newtask : bool)
        (c : clock) (t : nat) :
  dt_value d = PInt SOON \/ dt_value d = PInt SOMEDAY
  \/ dt_value d = PInt NODATE
  \/ (exists x : date, dt_value d = PDate x /\ valid_date x = true) ->
  exists text : string,
    __str__ d = Ok text
    /\ parse (Some text) c t = (Ok d, t)
    /\ parse_from_date self (Some text) newtask c t = (Ok d, t).
Proof.
  intros H. destruct (init_reads_str d c t H) as (text & Hstr & Hlow & Hinit).
  exists text. split; [exact Hstr|].
  unfold parse, parse_from_date, except_ValueError.
  rewrite Hlow, Hinit. split; reflexivity.
Qed.

(** An instance: 2024-02-29 read back by both parsers. *)
Lemma parse_reads_str_witness :
  valid_date (mkdate 2024 2 29) = true
  /\ exists text : string,
       __str__ (mkDate (PDate (mkdate 2024 2 29))) = Ok text
       /\ parse (Some text)
            (ticking (mkdatetime (mkdate 2024 2 10) 12 0 0 0 None)) 0%nat
          = (Ok (mkDate (PDate (mkdate 2024 2 29))), 0%nat)
       /\ parse_from_date (mkDate (PInt SOON)) (Some text) false
            (ticking (mkdatetime (mkdate 2024 2 10) 12 0 0 0 None)) 0%nat
          = (Ok (mkDate (PDate (mkdate 2024 2 29))), 0%nat).
Proof.
  split; [reflexivity|].
  apply (parse_reads_str (mkDate (PDate (mkdate 2024 2 29)))).
  right. right. right. exists (mkdate 2024 2 29). split; reflexivity.
Defined.

(** ** Worked instances of the further properties *)

(** Thirty days after 10 February 2024 and back. *)
Lemma add_then_subtract_witness :
  valid_date (mkdate 2024 2 10) = true
  /\ run (__add__ (mkDate (PDate (mkdate 2024 2 10)))
                  (OTimedelta (mktimedelta 30 0 0)))
         (stopped (mkdatetime (mkdate 2024 2 10) 12 0 0 0 None)) 0%nat
     = Ok (PDate (mkdate 2024 3 11))
  /\ run (__sub__ (mkDate (PDate (mkdate 2024 3 11)))
                  (OTimedelta (mktimedelta 30 0 0)))
         (stopped (mkdatetime (mkdate 2024 2 10) 12 0 0 0 None)) 0%nat
     = Ok (PDate (mkdate 2024 2 10))
  /\ run (__sub__ (mkDate (PDate (mkdate 2024 3 11)))
                  (OGtgDate (mkDate (PDate (mkdate 2024 2 10)))))
         (stopped (mkdatetime (mkdate 2024 2 10) 12 0 0 0 None)) 0%nat
     = Ok (PTimedelta (timedelta_days 30)).
Proof.
  assert (V : valid_date (mkdate 2024 2 10) = true) by reflexivity.
  assert (Hadd :
    run (__add__ (mkDate (PDate (mkdate 2024 2 10)))
                 (OTimedelta (mktimedelta 30 0 0)))
        (stopped (mkdatetime (mkdate 2024 2 10) 12 0 0 0 None)) 0%nat
    = Ok (PDate (mkdate 2024 3 11))) by (vm_compute; reflexivity).
  split; [exact V|]. split; [exact Hadd|].
  exact (add_then_subtract (mkdate 2024 2 10) (mkdate 2024 3 11)
           (mktimedelta 30 0 0)
           (stopped (mkdatetime (mkdate 2024 2 10) 12 0 0 0 None)) 0%nat
           V Hadd).
Defined.

(** "31" on 31 January 2024: February has no such day, so the result is
    today. *)
Lemma bare_day_always_resolves_witness :
  valid_date (dt_date (stopped (mkdatetime (mkdate 2024 1 31) 12 0 0 0 None)
                               0%nat)) = true
  /\ month_day_number "31" = Some 31%Z
  /\ exists r : date,
       run (_parse_only_month_day "31")
           (stopped (mkdatetime (mkdate 2024 1 31) 12 0 0 0 None)) 0%nat
       = Ok (Some r)
       /\ valid_date r = true
       /\ day r = 31%Z.
Proof.
  assert (V : valid_date
                (dt_date (stopped (mkdatetime (mkdate 2024 1 31) 12 0 0 0 None)
                                  0%nat)) = true) by reflexivity.
  assert (Hn : month_day_number "31" = Some 31%Z) by reflexivity.
  split; [exact V|]. split; [exact Hn|].
  destruct (bare_day_always_resolves "31" 31
              (stopped (mkdatetime (mkdate 2024 1 31) 12 0 0 0 None)) 0%nat
              V Hn) as (r & Hrun & Vr & Hday & _).
  exists r. split; [exact Hrun|]. split; [exact Vr | exact Hday].
Defined.

(** "0105" on 10 February 2024 is 5 January 2025. *)
Lemma yearless_shorthand_not_past_witness :
  strptime "0105" "%Y/%m/%d" = None
  /\ strptime "0105" "%Y%m%d" = None
  /\ strptime "0105" "%m%d"
     = Some (mkdatetime (mkdate 1900 1 5) 0 0 0 0 None)
  /\ run (_parse_numerical_format "0105")
         (stopped (mkdatetime (mkdate 2024 2 10) 12 0 0 0 None)) 0%nat
     = Ok (Some (mkdate 2025 1 5))
  /\ date_leb (mkdate 2024 2 10) (mkdate 2025 1 5) = true.
Proof.
  assert (H1 : strptime "0105" "%Y/%m/%d" = None) by reflexivity.
  assert (H2 : strptime "0105" "%Y%m%d" = None) by reflexivity.
  assert (H3 : strptime "0105" "%m%d"
               = Some (mkdatetime (mkdate 1900 1 5) 0 0 0 0 None))
    by reflexivity.
  assert (H4 : date_replace_year (mkdate 1900 1 5) 2025
               = Ok (mkdate 2025 1 5)) by reflexivity.
  split; [exact H1|]. split; [exact H2|]. split; [exact H3|].
  destruct (yearless_shorthand_not_past "0105"
              (mkdatetime (mkdate 1900 1 5) 0 0 0 0 None) (mkdate 2025 1 5)
              (stopped (mkdatetime (mkdate 2024 2 10) 12 0 0 0 None)) 0%nat
              H1 H2 H3 H4) as (Hrun & _ & _ & Hle & _).
  split; [exact Hrun | exact Hle].
Defined.

(** "Next Week" on 10 February 2024 is 17 February. *)
Lemma relative_phrases_witness :
  valid_date (mkdate 2024 2 10) = true
  /\ text_kind (Str.lower "Next Week") = Some Tnext_week
  /\ exists r : date,
       run (parse (Some "Next Week"))
           (stopped (mkdatetime (mkdate 2024 2 10) 12 0 0 0 None)) 0%nat
       = Ok (mkDate (PDate r))
       /\ valid_date r = true
       /\ toordinal r = (toordinal (mkdate 2024 2 10) + 7)%Z.
Proof.
  assert (Hday : forall t' : nat,
             dt_date (stopped (mkdatetime (mkdate 2024 2 10) 12 0 0 0 None) t')
             = mkdate 2024 2 10) by (intros t'; reflexivity).
  assert (V : valid_date (mkdate 2024 2 10) = true) by reflexivity.
  assert (Hrefused :
    steady (__init__ (OStr (Str.lower "Next Week")))
           (stopped (mkdatetime (mkdate 2024 2 10) 12 0 0 0 None))
           (Raise ValueError)) by (intros t'; reflexivity).
  assert (Hnumber : month_day_number (Str.lower "Next Week") = None)
    by reflexivity.
  assert (Hnumerical :
    numerical_loop (mkdate 2024 2 10) (Str.lower "Next Week")
                   NUMERICAL_FORMATS None = None) by reflexivity.
  assert (Hkind : text_kind (Str.lower "Next Week") = Some Tnext_week)
    by reflexivity.
  split; [exact V|]. split; [exact Hkind|].
  destruct (relative_phrases (mkdate 2024 2 10) "Next Week" Tnext_week
              (stopped (mkdatetime (mkdate 2024 2 10) 12 0 0 0 None)) 0%nat
              Hday V Hrefused Hnumber Hnumerical Hkind) as (_ & _ & Hnext).
  apply Hnext; [left; reflexivity|].
  apply Z.leb_le. vm_compute. reflexivity.
Defined.

(** "Saturday" on Saturday 10 February 2024 is the Saturday after. *)
Lemma weekday_name_absolute_witness :
  weekday (mkdate 2024 2 10) = 5%Z
  /\ text_kind (Str.lower "Saturday") = Some (Tweekday 5)
  /\ exists r : date,
       run (parse (Some "Saturday"))
           (stopped (mkdatetime (mkdate 2024 2 10) 12 0 0 0 None)) 0%nat
       = Ok (mkDate (PDate r))
       /\ weekday r = 5%Z
       /\ (1 <= toordinal r - toordinal (mkdate 2024 2 10) <= 7)%Z
       /\ valid_date r = true.
Proof.
  assert (Hday : forall t' : nat,
             dt_date (stopped (mkdatetime (mkdate 2024 2 10) 12 0 0 0 None) t')
             = mkdate 2024 2 10) by (intros t'; reflexivity).
  assert (V : valid_date (mkdate 2024 2 10) = true) by reflexivity.
  assert (Hmax : (toordinal (mkdate 2024 2 10) + 7 <= MAXORDINAL)%Z)
    by (apply Z.leb_le; vm_compute; reflexivity).
  assert (Hrefused :
    steady (__init__ (OStr (Str.lower "Saturday")))
           (stopped (mkdatetime (mkdate 2024 2 10) 12 0 0 0 None))
           (Raise ValueError)) by (intros t'; reflexivity).
  assert (Hnumber : month_day_number (Str.lower "Saturday") = None)
    by reflexivity.
  assert (Hnumerical :
    numerical_loop (mkdate 2024 2 10) (Str.lower "Saturday")
                   NUMERICAL_FORMATS None = None) by reflexivity.
  assert (Hkind : text_kind (Str.lower "Saturday") = Some (Tweekday 5))
    by reflexivity.
  split; [vm_compute; reflexivity|]. split; [exact Hkind|].
  exact (weekday_name_absolute (mkdate 2024 2 10) "Saturday" 5
           (stopped (mkdatetime (mkdate 2024 2 10) 12 0 0 0 None)) 0%nat
           Hday V Hmax Hrefused Hnumber Hnumerical Hkind).
Defined.

(** "monday" from Wednesday 10 January 2024, for a task that is not
    new. *)
Lemma weekday_name_recurrence_witness :
  valid_date (mkdate 2024 1 10) = true
  /\ phrase_kind (Str.lower "monday") = Some (Pweekday 0)
  /\ exists r : date,
       run (parse_from_date (mkDate (PDate (mkdate 2024 1 10)))
                            (Some "monday") false)
           (ticking (mkdatetime (mkdate 2024 3 1) 8 0 0 0 None)) 0%nat
       = Ok (mkDate (PDate r))
       /\ weekday r = 0%Z
       /\ (1 <= toordinal r - toordinal (mkdate 2024 1 10) <= 7)%Z
       /\ valid_date r = true.
Proof.
  assert (Hanchor :
    steady (self_date_of (mkDate (PDate (mkdate 2024 1 10))))
           (ticking (mkdatetime (mkdate 2024 3 1) 8 0 0 0 None))
           (Ok (mkdate 2024 1 10))) by (intros t; reflexivity).
  assert (V : valid_date (mkdate 2024 1 10) = true) by reflexivity.
  assert (Hmax : (toordinal (mkdate 2024 1 10) + 7 <= MAXORDINAL)%Z)
    by (apply Z.leb_le; vm_compute; reflexivity).
  assert (Hrefused :
    steady (__init__ (OStr (Str.lower "monday")))
           (ticking (mkdatetime (mkdate 2024 3 1) 8 0 0 0 None))
           (Raise ValueError)) by (intros t; reflexivity).
  assert (Hnumber : month_day_number (Str.lower "monday") = None)
    by reflexivity.
  assert (Hnumerical :
    forall anchor : date,
      numerical_loop anchor (Str.lower "monday") NUMERICAL_FORMATS None
      = None) by (intros anchor; reflexivity).
  assert (Hkind : phrase_kind (Str.lower "monday") = Some (Pweekday 0))
    by reflexivity.
  split; [exact V|]. split; [exact Hkind|].
  exact (weekday_name_recurrence (mkDate (PDate (mkdate 2024 1 10)))
           (mkdate 2024 1 10) "monday" 0 false
           (ticking (mkdatetime (mkdate 2024 3 1) 8 0 0 0 None)) 0%nat
           Hanchor V Hmax Hrefused Hnumber Hnumerical Hkind).
Defined.

(** The one way to the sentinel through a string, in the C locale:
    a spelling of now with a capital letter. *)
Lemma now_sentinel_origin_witness :
  run (__init__ (OStr "Now"))
      (ticking (mkdatetime (mkdate 2024 2 10) 12 0 0 0 None)) 0%nat
  = Ok (mkDate (PInt NOW))
  /\ ((exists d0 : Date, OStr "Now" = OGtgDate d0 /\ dt_value d0 = PInt NOW)
      \/ (exists s : string,
             OStr "Now" = OStr s
             /\ s <> "now" /\ s <> Str.lower (gettext "now")
             /\ (Str.lower s = "now" \/ Str.lower s = gettext "now"))).
Proof.
  assert (Hrun :
    run (__init__ (OStr "Now"))
        (ticking (mkdatetime (mkdate 2024 2 10) 12 0 0 0 None)) 0%nat
    = Ok (mkDate (PInt NOW))) by reflexivity.
  split; [exact Hrun|].
  exact (now_sentinel_origin (OStr "Now") (mkDate (PInt NOW))
           (ticking (mkdatetime (mkdate 2024 2 10) 12 0 0 0 None)) 0%nat
           Hrun eq_refl).
Defined.

(** What parse returns for "someday" renders. *)
Lemma parsed_dates_render_witness :
  run (parse (Some "someday"))
      (ticking (mkdatetime (mkdate 2024 2 10) 12 0 0 0 None)) 0%nat
  = Ok (mkDate (PInt SOMEDAY))
  /\ renders (mkDate (PInt SOMEDAY)).
Proof.
  assert (Hrun :
    run (parse (Some "someday"))
        (ticking (mkdatetime (mkdate 2024 2 10) 12 0 0 0 None)) 0%nat
    = Ok (mkDate (PInt SOMEDAY))) by reflexivity.
  split; [exact Hrun|].
  destruct parsed_dates_render as [Hparse _].
  exact (Hparse (Some "someday") (mkDate (PInt SOMEDAY))
           (ticking (mkdatetime (mkdate 2024 2 10) 12 0 0 0 None)) 0%nat
           Hrun).
Defined.

(** Days left until 1 March, and until Soon, on 10 February 2024. *)
Lemma days_left_counts_witness :
  days_left (mkDate (PDate (mkdate 2024 3 1)))
            (ticking (mkdatetime (mkdate 2024 2 10) 12 0 0 0 None)) 0%nat
  = (Ok (Some 20%Z), 1%nat)
  /\ days_left (mkDate (PInt SOON))
               (ticking (mkdatetime (mkdate 2024 2 10) 12 0 0 0 None)) 0%nat
     = (Ok (Some 15%Z), 2%nat).
Proof.
  destruct (days_left_counts
              (ticking (mkdatetime (mkdate 2024 2 10) 12 0 0 0 None)) 0%nat)
    as (_ & Hdate & Hfuzzy).
  split.
  - apply Hdate; reflexivity.
  - apply Hfuzzy.
    + left. reflexivity.
    + reflexivity.
    + reflexivity.
    + reflexivity.
    + apply Z.leb_le. vm_compute. reflexivity.
Defined.

(** 28 February and 1 March 2024 are two days apart. *)
Lemma comparisons_follow_difference_witness :
  valid_date (mkdate 2024 2 28) = true
  /\ valid_date (mkdate 2024 3 1) = true
  /\ run (__sub__ (mkDate (PDate (mkdate 2024 3 1)))
                  (OGtgDate (mkDate (PDate (mkdate 2024 2 28)))))
         (stopped (mkdatetime (mkdate 2024 2 10) 12 0 0 0 None)) 0%nat
     = Ok (PTimedelta (timedelta_days 2))
  /\ exists k : Z,
       run (__sub__ (mkDate (PDate (mkdate 2024 3 1)))
                    (OGtgDate (mkDate (PDate (mkdate 2024 2 28)))))
           (stopped (mkdatetime (mkdate 2024 2 10) 12 0 0 0 None)) 0%nat
       = Ok (PTimedelta (timedelta_days k))
       /\ run (__lt__ (mkDate (PDate (mkdate 2024 2 28)))
                      (OGtgDate (mkDate (PDate (mkdate 2024 3 1)))))
              (stopped (mkdatetime (mkdate 2024 2 10) 12 0 0 0 None)) 0%nat
          = Ok (0 <? k)%Z.
Proof.
  assert (Va : valid_date (mkdate 2024 2 28) = true) by reflexivity.
  assert (Vb : valid_date (mkdate 2024 3 1) = true) by reflexivity.
  split; [exact Va|]. split; [exact Vb|]. split; [vm_compute; reflexivity|].
  destruct (comparisons_follow_difference (mkdate 2024 2 28) (mkdate 2024 3 1)
              (stopped (mkdatetime (mkdate 2024 2 10) 12 0 0 0 None)) 0%nat
              Va Vb) as (k & Hsub & Hlt & _).
  exists k. split; [exact Hsub | exact Hlt].
Defined.

(** On 10 February 2024 Soon stands for 25 February: the 20th sorts
    before it. *)
Lemma date_against_fuzzy_witness :
  In (SOON, 15%Z) delta_days
  /\ valid_date (mkdate 2024 2 20) = true
  /\ (toordinal (mkdate 2024 2 20) <? toordinal (mkdate 2024 2 10) + 15)%Z
     = true
  /\ run (__lt__ (mkDate (PDate (mkdate 2024 2 20)))
                 (OGtgDate (mkDate (PInt SOON))))
         (ticking (mkdatetime (mkdate 2024 2 10) 12 0 0 0 None)) 0%nat
     = Ok (toordinal (mkdate 2024 2 20)
           <? toordinal (dt_date (ticking (mkdatetime (mkdate 2024 2 10)
                                                      12 0 0 0 None) 0%nat))
              + 15)%Z.
Proof.
  assert (Hin : In (SOON, 15%Z) delta_days) by (left; reflexivity).
  assert (V : valid_date (mkdate 2024 2 20) = true) by reflexivity.
  assert (Vc : valid_date
                 (dt_date (ticking (mkdatetime (mkdate 2024 2 10) 12 0 0 0 None)
                                   0%nat)) = true) by reflexivity.
  assert (Vt : valid_time
                 (hour (ticking (mkdatetime (mkdate 2024 2 10) 12 0 0 0 None)
                                0%nat))
                 (minute (ticking (mkdatetime (mkdate 2024 2 10) 12 0 0 0 None)
                                  0%nat))
                 (second (ticking (mkdatetime (mkdate 2024 2 10) 12 0 0 0 None)
                                  0%nat))
                 (microsecond
                    (ticking (mkdatetime (mkdate 2024 2 10) 12 0 0 0 None)
                             0%nat)) = true) by reflexivity.
  assert (Hmax :
    (toordinal (dt_date (ticking (mkdatetime (mkdate 2024 2 10) 12 0 0 0 None)
                                 0%nat)) + 15 <= MAXORDINAL)%Z)
    by (apply Z.leb_le; vm_compute; reflexivity).
  split; [exact Hin|]. split; [exact V|]. split; [vm_compute; reflexivity|].
  destruct (date_against_fuzzy (mkdate 2024 2 20) SOON 15
              (ticking (mkdatetime (mkdate 2024 2 10) 12 0 0 0 None)) 0%nat
              Hin V Vc Vt Hmax) as (Hlt & _).
  exact Hlt.
Defined.

(** Noon of 10 February 2024 on a host at UTC+1. *)
Lemma naive_datetime_round_trip_witness :
  tzinfo (mkdatetime (mkdate 2024 2 10) 12 0 0 0 None) = None
  /\ run (dt_by_accuracy (P := platform_at (mktimezone 3600000000))
            (mkDate (PDatetime
                       (mkdatetime (mkdate 2024 2 10) 12 0 0 0
                                   (Some (mktimezone 3600000000)))))
            Accuracy.datetime)
         (stopped (mkdatetime (mkdate 2024 2 10) 12 0 0 0 None)) 0%nat
     = Ok (PDatetime (mkdatetime (mkdate 2024 2 10) 12 0 0 0 None)).
Proof.
  assert (Htz : tzinfo (mkdatetime (mkdate 2024 2 10) 12 0 0 0 None) = None)
    by reflexivity.
  assert (Vd : valid_date
                 (dt_date (mkdatetime (mkdate 2024 2 10) 12 0 0 0 None))
               = true) by reflexivity.
  assert (Vt : valid_time
                 (hour (mkdatetime (mkdate 2024 2 10) 12 0 0 0 None))
                 (minute (mkdatetime (mkdate 2024 2 10) 12 0 0 0 None))
                 (second (mkdatetime (mkdate 2024 2 10) 12 0 0 0 None))
                 (microsecond (mkdatetime (mkdate 2024 2 10) 12 0 0 0 None))
               = true) by reflexivity.
  assert (Hutc :
    (1 <= (datetime_to_us (mkdatetime (mkdate 2024 2 10) 12 0 0 0 None)
           - utcoffset_us
               (LOCAL_TIMEZONE (Platform := platform_at
                                               (mktimezone 3600000000))))
          / US_PER_DAY <= MAXORDINAL)%Z)
    by (split; apply Z.leb_le; vm_compute; reflexivity).
  split; [exact Htz|].
  destruct (naive_datetime_round_trip (P := platform_at (mktimezone 3600000000))
              (mkdatetime (mkdate 2024 2 10) 12 0 0 0 None)
              (stopped (mkdatetime (mkdate 2024 2 10) 12 0 0 0 None)) 0%nat
              Htz Vd Vt Hutc) as [_ Hback].
  exact Hback.
Defined.

(** Half past eleven at night of 10 February 2024 at UTC+2, on a host at
    UTC+1. *)
Lemma aware_datetime_round_trip_witness :
  tzinfo (mkdatetime (mkdate 2024 2 10) 23 30 0 0
                     (Some (mktimezone 7200000000)))
  = Some (mktimezone 7200000000)
  /\ exists naive back : datetime,
       run (dt_by_accuracy (P := platform_at (mktimezone 3600000000))
              (mkDate (PDatetime
                         (mkdatetime (mkdate 2024 2 10) 23 30 0 0
                                     (Some (mktimezone 7200000000)))))
              Accuracy.datetime)
           (stopped (mkdatetime (mkdate 2024 2 10) 12 0 0 0 None)) 0%nat
       = Ok (PDatetime naive)
       /\ run (dt_by_accuracy (P := platform_at (mktimezone 3600000000))
                 (mkDate (PDatetime naive)) Accuracy.timezone)
              (stopped (mkdatetime (mkdate 2024 2 10) 12 0 0 0 None)) 0%nat
          = Ok (PDatetime back)
       /\ run (__eq__ (P := platform_at (mktimezone 3600000000))
                 (mkDate (PDatetime
                            (mkdatetime (mkdate 2024 2 10) 23 30 0 0
                                        (Some (mktimezone 7200000000)))))
                 (OGtgDate (mkDate (PDatetime back))))
              (stopped (mkdatetime (mkdate 2024 2 10) 12 0 0 0 None)) 0%nat
          = Ok true.
Proof.
  assert (Htz : tzinfo (mkdatetime (mkdate 2024 2 10) 23 30 0 0
                                   (Some (mktimezone 7200000000)))
                = Some (mktimezone 7200000000)) by reflexivity.
  assert (Vd : valid_date
                 (dt_date (mkdatetime (mkdate 2024 2 10) 23 30 0 0
                                      (Some (mktimezone 7200000000))))
               = true) by reflexivity.
  assert (Vt : valid_time
                 (hour (mkdatetime (mkdate 2024 2 10) 23 30 0 0
                                   (Some (mktimezone 7200000000))))
                 (minute (mkdatetime (mkdate 2024 2 10) 23 30 0 0
                                     (Some (mktimezone 7200000000))))
                 (second (mkdatetime (mkdate 2024 2 10) 23 30 0 0
                                     (Some (mktimezone 7200000000))))
                 (microsecond (mkdatetime (mkdate 2024 2 10) 23 30 0 0
                                          (Some (mktimezone 7200000000))))
               = true) by reflexivity.
  assert (Hutc :
    (1 <= (datetime_to_us (mkdatetime (mkdate 2024 2 10) 23 30 0 0
                                      (Some (mktimezone 7200000000)))
           - utcoffset_us (mktimezone 7200000000))
          / US_PER_DAY <= MAXORDINAL)%Z)
    by (split; apply Z.leb_le; vm_compute; reflexivity).
  assert (Hloc :
    (1 <= (datetime_to_us (mkdatetime (mkdate 2024 2 10) 23 30 0 0
                                      (Some (mktimezone 7200000000)))
           - utcoffset_us (mktimezone 7200000000)
           + utcoffset_us
               (LOCAL_TIMEZONE (Platform := platform_at
                                               (mktimezone 3600000000))))
          / US_PER_DAY <= MAXORDINAL)%Z)
    by (split; apply Z.leb_le; vm_compute; reflexivity).
  split; [exact Htz|].
  destruct (aware_datetime_round_trip
              (P := platform_at (mktimezone 3600000000))
              (mkdatetime (mkdate 2024 2 10) 23 30 0 0
                          (Some (mktimezone 7200000000)))
              (mktimezone 7200000000)
              (stopped (mkdatetime (mkdate 2024 2 10) 12 0 0 0 None)) 0%nat
              Htz Vd Vt Hutc Hloc)
    as (naive & back & H1 & _ & H2 & _ & _ & H3).
  exists naive, back. split; [exact H1|]. split; [exact H2 | exact H3].
Defined.
